(** * pa3.c: a simulated MMU (TLB, frame allocation, paging, fork)

    A shallow embedding of [src/pa3.c].  The C globals ([processes],
    [current], [ptbr], [tlb], [mapcounts] and the function-local static
    [tlbidx]) become the fields of one [state] record that every operation
    takes and returns.  An access the C program performs on memory that is
    not there (a NULL or wild pointer, an index outside an array) is the
    result [Fault]. *)

From Stdlib Require Import ZArith Lia Bool.
From stdpp Require Import base list.

Local Open Scope Z_scope.

(** ** Outcome of running a piece of the program *)

Inductive result (A : Type) : Type :=
| Ok (a : A)
| Fault.
Arguments Ok {A} a.
Arguments Fault {A}.

Definition bind {A B : Type} (r : result A) (k : A -> result B) : result B :=
  match r with
  | Ok a => k a
  | Fault => Fault
  end.

Notation "'let*' x ':=' e 'in' k" := (bind e (fun x => k))
  (at level 10, x name, e at level 100, k at level 200).
Notation "'let*' ' p ':=' e 'in' k" := (bind e (fun p => k))
  (at level 10, p pattern, e at level 100, k at level 200).

(** [unsigned int] arithmetic wraps modulo 2^32. *)
Definition u32 (z : Z) : Z := z mod 2 ^ 32.

(** [a[i]] as an rvalue and [a[i] = x], for an array held as a list. *)
Definition load {A : Type} (a : list A) (i : Z) : result A :=
  if 0 <=? i then
    match a !! Z.to_nat i with
    | Some x => Ok x
    | None => Fault
    end
  else Fault.

Definition store {A : Type} (a : list A) (i : Z) (x : A) : result (list A) :=
  if (0 <=? i) && (i <? Z.of_nat (length a)) then Ok (<[Z.to_nat i := x]> a)
  else Fault.

(** [for (int i = lo; i < lo + n; i++) body]: the body either falls through
    to the next iteration ([Next]) or leaves the loop with [break] or
    [return] ([Stop]). *)
Inductive flow (S R : Type) : Type :=
| Next (s : S)
| Stop (r : R).
Arguments Next {S R} s.
Arguments Stop {S R} r.

Fixpoint for_loop {S R : Type} (n : nat) (i : Z)
         (body : Z -> S -> result (flow S R)) (s : S) : result (flow S R) :=
  match n with
  | O => Ok (Next s)
  | Datatypes.S n' =>
      let* f := body i s in
      match f with
      | Next s' => for_loop n' (i + 1) body s'
      | Stop r => Ok (Stop r)
      end
  end.

(** ** Data (the structures of vm.h, as pa3.c reads and writes them) *)

Record pte : Type := mk_pte {
  pte_valid : bool;
  pte_rw : Z;
  pte_pfn : Z;
  pte_private : Z
}.

Record pte_directory : Type := mk_pte_directory { ptes : list pte }.

(** A [struct pte_directory *]: NULL or the address of a block in the heap
    of directories (which need not be one that malloc has handed out). *)
Inductive ptr : Type :=
| NULL
| Addr (a : nat).

Record pagetable : Type := mk_pagetable { outer_ptes : list ptr }.

(** The [list] member of [struct process] is carried by the ready queue
    [processes] of the state. *)
Record process : Type := mk_process {
  proc_pid : Z;
  proc_pagetable : pagetable
}.

Record tlb_entry : Type := mk_tlb_entry {
  tlb_valid : bool;
  tlb_vpn : Z;
  tlb_rw : Z;
  tlb_pfn : Z
}.

Record state : Type := mk_state {
  procs : list process;        (* process objects, by address *)
  dirs : list pte_directory;   (* directories obtained from malloc, by address *)
  processes : list nat;        (* the ready queue, head first *)
  current : nat;               (* address of the running process *)
  ptbr : nat;                  (* address of the process whose page table ptbr points to *)
  tlb : list tlb_entry;
  tlbidx : Z;                  (* the static int of insert_tlb *)
  mapcounts : list Z
}.

Definition set_procs (s : state) (x : list process) : state :=
  mk_state x (dirs s) (processes s) (current s) (ptbr s) (tlb s) (tlbidx s) (mapcounts s).
Definition set_dirs (s : state) (x : list pte_directory) : state :=
  mk_state (procs s) x (processes s) (current s) (ptbr s) (tlb s) (tlbidx s) (mapcounts s).
Definition set_processes (s : state) (x : list nat) : state :=
  mk_state (procs s) (dirs s) x (current s) (ptbr s) (tlb s) (tlbidx s) (mapcounts s).
Definition set_current (s : state) (x : nat) : state :=
  mk_state (procs s) (dirs s) (processes s) x (ptbr s) (tlb s) (tlbidx s) (mapcounts s).
Definition set_tlb (s : state) (x : list tlb_entry) : state :=
  mk_state (procs s) (dirs s) (processes s) (current s) (ptbr s) x (tlbidx s) (mapcounts s).
Definition set_tlbidx (s : state) (x : Z) : state :=
  mk_state (procs s) (dirs s) (processes s) (current s) (ptbr s) (tlb s) x (mapcounts s).
Definition set_mapcounts (s : state) (x : list Z) : state :=
  mk_state (procs s) (dirs s) (processes s) (current s) (ptbr s) (tlb s) (tlbidx s) x.

(** What the program reads without having written it: the contents of a
    block fresh from malloc and the value of an uninitialised local.  The C
    program fixes none of them, so the operations take them as an argument. *)
Record indeterminate : Type := mk_indeterminate {
  malloc_dir : Z -> pte_directory;  (* block returned for directory index i *)
  malloc_process : process;         (* block returned for a struct process *)
  uninit_pte : pte                  (* a declared, not yet assigned, struct pte *)
}.

(** ** Walking the structures *)

Definition load_proc (s : state) (p : nat) : result process :=
  match procs s !! p with
  | Some x => Ok x
  | None => Fault
  end.

Definition deref_dir (s : state) (d : ptr) : result (nat * pte_directory) :=
  match d with
  | NULL => Fault
  | Addr a =>
      match dirs s !! a with
      | Some x => Ok (a, x)
      | None => Fault
      end
  end.

(** [p->pagetable.outer_ptes[i]] *)
Definition load_outer (s : state) (p : nat) (i : Z) : result ptr :=
  let* x := load_proc s p in
  load (outer_ptes (proc_pagetable x)) i.

(** [p->pagetable.outer_ptes[i] = d] *)
Definition store_outer (s : state) (p : nat) (i : Z) (d : ptr) : result state :=
  let* x := load_proc s p in
  let* o := store (outer_ptes (proc_pagetable x)) i d in
  Ok (set_procs s (<[p := mk_process (proc_pid x) (mk_pagetable o)]> (procs s))).

(** [p->pagetable.outer_ptes[i]->ptes[j]] *)
Definition load_pte (s : state) (p : nat) (i j : Z) : result pte :=
  let* d := load_outer s p i in
  let* '(_, dir) := deref_dir s d in
  load (ptes dir) j.

(** [p->pagetable.outer_ptes[i]->ptes[j] = v] *)
Definition store_pte (s : state) (p : nat) (i j : Z) (v : pte) : result state :=
  let* d := load_outer s p i in
  let* '(a, dir) := deref_dir s d in
  let* l := store (ptes dir) j v in
  Ok (set_dirs s (<[a := mk_pte_directory l]> (dirs s))).

(** Assignment to one member of [p->pagetable.outer_ptes[i]->ptes[j]]. *)
Definition update_pte (s : state) (p : nat) (i j : Z) (f : pte -> pte) : result state :=
  let* v := load_pte s p i j in
  store_pte s p i j (f v).

Definition with_valid (b : bool) (e : pte) : pte :=
  mk_pte b (pte_rw e) (pte_pfn e) (pte_private e).
Definition with_rw (x : Z) (e : pte) : pte :=
  mk_pte (pte_valid e) x (pte_pfn e) (pte_private e).
Definition with_pfn (x : Z) (e : pte) : pte :=
  mk_pte (pte_valid e) (pte_rw e) x (pte_private e).
Definition with_private (x : Z) (e : pte) : pte :=
  mk_pte (pte_valid e) (pte_rw e) (pte_pfn e) x.

(** [mapcounts[k]++] and [mapcounts[k]--] *)
Definition mapcount_add (s : state) (k : Z) (delta : Z) : result state :=
  let* c := load (mapcounts s) k in
  let* m := store (mapcounts s) k (u32 (c + delta)) in
  Ok (set_mapcounts s m).

(** ** lookup_tlb *)

(** The third parameter is a pointer to a cell of the caller; the model
    takes the contents of that cell and returns them as they are after the
    call.  The assignment [pfn = &tlb->pfn] redirects the parameter itself
    and writes nothing. *)
Definition lookup_tlb (s : state) (vpn rw : Z) (cell : Z) : result (bool * Z) :=
  let* f :=
    for_loop (R := bool) 256 0
      (fun i (_ : unit) =>
         let* e := load (tlb s) i in
         if tlb_valid e && (tlb_vpn e =? vpn) && (tlb_rw e =? rw)
         then Ok (Stop true)
         else Ok (Next tt)) tt in
  match f with
  | Stop b => Ok (b, cell)
  | Next _ => Ok (false, cell)
  end.

(** ** insert_tlb *)

Definition insert_tlb (s : state) (vpn rw pfn : Z) : result state :=
  let newtlb := mk_tlb_entry true vpn rw pfn in
  let* t := store (tlb s) (tlbidx s) newtlb in
  Ok (set_tlbidx (set_tlb s t) (tlbidx s + 1)).

(** ** free_page *)

Definition free_page (s : state) (vpn : Z) : result state :=
  let* f :=
    for_loop (R := state) 16 0
      (fun directoryidx s =>
         for_loop (R := state) 16 0
           (fun pteidx s =>
              let* e := load_pte s (current s) directoryidx pteidx in
              if pte_private e =? vpn then
                let* s := update_pte s (current s) directoryidx pteidx (with_rw 0) in
                let* s := update_pte s (current s) directoryidx pteidx (with_valid false) in
                let* s := update_pte s (current s) directoryidx pteidx (with_pfn 0) in
                let* s := mapcount_add s vpn (-1) in
                let* g :=
                  for_loop (R := state) 256 0
                    (fun i s =>
                       let* t := load (tlb s) i in
                       if tlb_vpn t =? vpn then
                         let* l := store (tlb s) i
                                     (mk_tlb_entry false (tlb_vpn t) (tlb_rw t) (tlb_pfn t)) in
                         Ok (Stop (set_tlb s l))
                       else Ok (Next s)) s in
                match g with
                | Next s | Stop s => Ok (Stop s)
                end
              else Ok (Next s)) s) s in
  match f with
  | Next s | Stop s => Ok s
  end.

(** ** handle_page_fault *)

Definition handle_page_fault (s : state) (vpn rw : Z) : bool * state :=
  (false, s).

(** ** alloc_page and switch_process

    vm.h is not among the sources: the three constants these two functions
    take from it are parameters of the model. *)
Section VmHeader.

Variable NR_PTES_PER_PAGE : Z.
Variable ACCESS_READ : Z.
Variable ACCESS_WRITE : Z.

Definition alloc_page (g : indeterminate) (s : state) (vpn rw : Z) : result (state * Z) :=
  let directoryidx := vpn / NR_PTES_PER_PAGE in
  let pteidx := vpn mod NR_PTES_PER_PAGE in
  let* d := load_outer s (current s) directoryidx in
  let* s :=
    match d with
    | NULL =>
        store_outer (set_dirs s (dirs s ++ [malloc_dir g directoryidx]))
                    (current s) directoryidx (Addr (length (dirs s)))
    | Addr _ => Ok s
    end in
  let newpte := uninit_pte g in
  let* f :=
    for_loop (R := state * pte) 128 0
      (fun i '(s, newpte) =>
         let* c := load (mapcounts s) i in
         if c =? 0 then
           let* s := mapcount_add s i 1 in
           Ok (Stop (s, with_pfn i newpte))
         else Ok (Next (s, newpte))) (s, newpte) in
  let '(s, newpte) := match f with Next x | Stop x => x end in
  let newpte := with_rw rw newpte in
  let newpte := with_valid true newpte in
  let newpte := with_private 0 newpte in
  let* s := store_pte s (current s) directoryidx pteidx newpte in
  Ok (s, pte_pfn newpte).

(** [list_for_each_entry(pos, &processes, list)] with the body of
    switch_process: the first queued process whose pid is the one asked. *)
Fixpoint find_process (s : state) (q : list nat) (pid : Z) : result (option nat) :=
  match q with
  | [] => Ok None
  | pos :: q' =>
      let* x := load_proc s pos in
      if proc_pid x =? pid then Ok (Some pos) else find_process s q' pid
  end.

(** Modelled from the spec: list_head.h is not among the sources.  The ready
    queue is an ordered collection with insert and remove; [list_add] puts
    the entry right after the head and [list_del] unlinks one entry. *)
Definition list_add (x : nat) (q : list nat) : list nat := x :: q.

Fixpoint list_del (x : nat) (q : list nat) : list nat :=
  match q with
  | [] => []
  | y :: q' => if Nat.eqb x y then q' else y :: list_del x q'
  end.

(** The value of [a == ACCESS_WRITE | ACCESS_READ]: [==] binds tighter
    than [|]. *)
Definition fork_test (a : Z) : Z :=
  Z.lor (if a =? ACCESS_WRITE then 1 else 0) ACCESS_READ.

Definition switch_process (g : indeterminate) (s : state) (pid : Z) : result state :=
  let* found := find_process s (processes s) pid in
  match found with
  | Some pos =>
      let s := set_processes s (list_del pos (processes s)) in
      let s := set_processes s (list_add (current s) (processes s)) in
      Ok (set_current s pos)
  | None =>
      let newprocess := length (procs s) in
      let s := set_procs s (procs s ++
                 [mk_process pid (proc_pagetable (malloc_process g))]) in
      let* f :=
        for_loop (R := Empty_set) (Z.to_nat NR_PTES_PER_PAGE) 0
          (fun i s =>
             let* d := load_outer s (current s) i in
             match d with
             | NULL => Ok (Next s)
             | Addr _ =>
                 let* s := store_outer (set_dirs s (dirs s ++ [malloc_dir g i]))
                             newprocess i (Addr (length (dirs s))) in
                 for_loop (R := Empty_set) (Z.to_nat NR_PTES_PER_PAGE) 0
                   (fun j s =>
                      let* e := load_pte s (current s) i j in
                      if pte_valid e then
                        let newpte := uninit_pte g in
                        let newpte := with_valid true newpte in
                        let* '(s, newpte) :=
                          if negb (fork_test (pte_rw e) =? 0) then
                            let* s := update_pte s (current s) i j (with_rw ACCESS_READ) in
                            let newpte := with_rw ACCESS_READ newpte in
                            let* s := update_pte s (current s) i j (with_private 1) in
                            let newpte := with_private 1 newpte in
                            Ok (s, newpte)
                          else
                            let* e' := load_pte s (current s) i j in
                            Ok (s, with_rw (pte_rw e') newpte) in
                        let* e' := load_pte s (current s) i j in
                        let newpte := with_pfn (pte_pfn e') newpte in
                        let* s := store_pte s newprocess i j newpte in
                        let* s := mapcount_add s (i * NR_PTES_PER_PAGE + j) 1 in
                        Ok (Next s)
                      else Ok (Next s)) s
             end) s in
      match f with
      | Next s =>
          let s := set_processes s (list_add (current s) (processes s)) in
          Ok (set_current s newprocess)
      | Stop r => match r with end
      end
  end.

End VmHeader.

(** ** The constants and the start-up state of the framework *)

(** Modelled from the spec: vm.h is not among the sources.  The fan-out is
    the one free_page and the TLB size hard-code (16 entries a level, 256
    pages); read and write are distinct non-zero access flags. *)
Definition NR_PTES_PER_PAGE : Z := 16.
Definition ACCESS_READ : Z := 1.
Definition ACCESS_WRITE : Z := 2.

Definition zero_pte : pte := mk_pte false 0 0 0.
Definition empty_pagetable : pagetable := mk_pagetable (replicate 16 NULL).

(** Memory that happens to be all zero bytes. *)
Definition zeroed : indeterminate :=
  mk_indeterminate (fun _ => mk_pte_directory (replicate 16 zero_pte))
                   (mk_process 0 empty_pagetable)
                   zero_pte.

(** The same, with [j] in the pfn member of an uninitialised [struct pte]. *)
Definition zeroed_but_pfn (j : Z) : indeterminate :=
  mk_indeterminate (malloc_dir zeroed) (malloc_process zeroed) (with_pfn j zero_pte).

(** Modelled from the spec: the driver (vm.c) is not among the sources.  At
    start-up one process is current, it has an empty page table, the ready
    queue is empty, every frame is free and no TLB entry is valid. *)
Definition boot : state :=
  mk_state [mk_process 0 empty_pagetable] [] [] 0%nat 0%nat
           (replicate 256 (mk_tlb_entry false 0 0 0)) 0
           (replicate 128 0).

Definition alloc := alloc_page NR_PTES_PER_PAGE.
Definition switch := switch_process NR_PTES_PER_PAGE ACCESS_READ ACCESS_WRITE.

(** The page-table entry the current process has for [vpn]. *)
Definition current_pte (nr : Z) (s : state) (vpn : Z) : result pte :=
  load_pte s (current s) (vpn / nr) (vpn mod nr).

(** ** Counting the mappings of a frame *)

Definition valid_ptes (s : state) (p : nat) : list pte :=
  match procs s !! p with
  | None => []
  | Some x =>
      flat_map (fun d =>
                  match d with
                  | NULL => []
                  | Addr a =>
                      match dirs s !! a with
                      | Some dir => List.filter pte_valid (ptes dir)
                      | None => []
                      end
                  end) (outer_ptes (proc_pagetable x))
  end.

(** Number of valid PTEs, over the current process and the ready queue,
    whose pfn is [f]. *)
Definition refs (s : state) (f : Z) : Z :=
  Z.of_nat (length (List.filter (fun e => pte_pfn e =? f)
                      (flat_map (valid_ptes s) (current s :: processes s)))).

Definition refcount_invariant (s : state) : Prop :=
  forall (f : nat) (c : Z), mapcounts s !! f = Some c -> c = refs s (Z.of_nat f).

Definition refcount_invariantb (s : state) : bool :=
  forallb (fun f => match mapcounts s !! f with
                    | Some c => c =? refs s (Z.of_nat f)
                    | None => true
                    end) (seq 0 (length (mapcounts s))).

(** ** Runs used below *)

(** alloc_page(5, rw) on the start-up state. *)
Definition after_alloc (rw : Z) : result state :=
  let* '(s, _) := alloc zeroed boot 5 rw in Ok s.

(** ... followed by switch_process(99), which forks. *)
Definition after_fork (rw : Z) : result state :=
  let* s := after_alloc rw in switch zeroed s 99.

(** alloc_page on vpn [k], [k+1], ..., [k+n-1]. *)
Fixpoint alloc_range (n : nat) (k : Z) (s : state) : result state :=
  match n with
  | O => Ok s
  | S n' => let* '(s, _) := alloc zeroed s k ACCESS_WRITE in alloc_range n' (k + 1) s
  end.

(** insert_tlb on vpn [k], [k+1], ..., [k+n-1]. *)
Fixpoint insert_range (n : nat) (k : Z) (s : state) : result state :=
  match n with
  | O => Ok s
  | S n' => let* s := insert_tlb s k ACCESS_READ k in insert_range n' (k + 1) s
  end.

(** The run alloc_page(0, write); alloc_page(1, write); switch_process(99):
    the child is current, vpn 0 and vpn 1 are mapped to frames 0 and 1. *)
Definition two_pages_forked : result state :=
  let* s := alloc_range 2 0 boot in switch zeroed s 99.

(** The run switch_process(1); switch_process(0): process 0 is current
    again, process 1 waits in the ready queue, ptbr points to the page
    table of process 0. *)
Definition two_processes : result state :=
  let* s := switch zeroed boot 1 in switch zeroed s 0.

(** The test of lookup_tlb on one entry. *)
Definition tlb_match (vpn rw : Z) (e : tlb_entry) : bool :=
  tlb_valid e && (tlb_vpn e =? vpn) && (tlb_rw e =? rw).

(** The body of [for(int i=0;i<128;i++)] in alloc_page. *)
Definition frame_scan (i : Z) (x : state * pte) : result (flow (state * pte) (state * pte)) :=
  let '(s, newpte) := x in
  let* c := load (mapcounts s) i in
  if c =? 0 then
    let* s := mapcount_add s i 1 in
    Ok (Stop (s, with_pfn i newpte))
  else Ok (Next (s, newpte)).

(** ** Relations between the state before and after an operation *)

(** The scheduler and MMU registers of [s'] are those of [s]: the same
    process is current, the ready queue, ptbr, the TLB and its cursor are
    the same, and every process object has kept its pid. *)
Definition same_schedule (s s' : state) : Prop :=
  current s' = current s /\ processes s' = processes s /\
  ptbr s' = ptbr s /\ tlb s' = tlb s /\ tlbidx s' = tlbidx s /\
  proc_pid <$> procs s' = proc_pid <$> procs s.


(** What alloc_page needs in order not to touch memory that is not there:
    a page table of [nr] directory slots for the current process, a vpn
    below [nr * nr], a directory of [nr] entries behind the slot of vpn (or
    handed out by malloc when the slot is NULL), and 128 mapcounts. *)
Definition alloc_ready (nr : Z) (g : indeterminate) (s : state) (vpn : Z) : Prop :=
  0 < nr /\ 0 <= vpn < nr * nr /\
  (128 <= length (mapcounts s))%nat /\
  length (ptes (malloc_dir g (vpn / nr))) = Z.to_nat nr /\
  exists x,
    procs s !! current s = Some x /\
    length (outer_ptes (proc_pagetable x)) = Z.to_nat nr /\
    forall a, outer_ptes (proc_pagetable x) !! Z.to_nat (vpn / nr) = Some (Addr a) ->
              exists dir, dirs s !! a = Some dir /\ length (ptes dir) = Z.to_nat nr.

(** The bodies of the loops of free_page, by name: the scan of the TLB for
    an entry of vpn, and the test and clearing of one page-table entry. *)
Definition free_page_tlb_body (vpn : Z) (i : Z) (s : state) : result (flow state state) :=
  let* t := load (tlb s) i in
  if tlb_vpn t =? vpn then
    let* l := store (tlb s) i
                (mk_tlb_entry false (tlb_vpn t) (tlb_rw t) (tlb_pfn t)) in
    Ok (Stop (set_tlb s l))
  else Ok (Next s).

Definition free_page_pte_body (vpn directoryidx : Z) (pteidx : Z) (s : state)
  : result (flow state state) :=
  let* e := load_pte s (current s) directoryidx pteidx in
  if pte_private e =? vpn then
    let* s := update_pte s (current s) directoryidx pteidx (with_rw 0) in
    let* s := update_pte s (current s) directoryidx pteidx (with_valid false) in
    let* s := update_pte s (current s) directoryidx pteidx (with_pfn 0) in
    let* s := mapcount_add s vpn (-1) in
    let* g := for_loop (R := state) 256 0 (free_page_tlb_body vpn) s in
    match g with
    | Next s | Stop s => Ok (Stop s)
    end
  else Ok (Next s).

(** The TLB after free_page has picked an entry: the first of the 256 TLB
    entries whose vpn member is vpn, if there is one, has valid cleared. *)
Definition tlb_dropped (vpn : Z) (t t' : list tlb_entry) : Prop :=
  (t' = t /\
   forall k, 0 <= k < 256 -> exists x, load t k = Ok x /\ tlb_vpn x <> vpn) \/
  (exists k x,
      0 <= k < 256 /\ load t k = Ok x /\ tlb_vpn x = vpn /\
      (forall k', 0 <= k' < k -> exists x', load t k' = Ok x' /\ tlb_vpn x' <> vpn) /\
      t' = <[Z.to_nat k := mk_tlb_entry false vpn (tlb_rw x) (tlb_pfn x)]> t).

(** [(i', j')] comes before [(i, j)] in the order free_page scans entries. *)
Definition scanned_before (i' j' i j : Z) : Prop :=
  i' < i \/ (i' = i /\ j' < j).

(** alloc_page(v, read) for every v of a list, in order. *)
Fixpoint alloc_list (l : list Z) (s : state) : result state :=
  match l with
  | [] => Ok s
  | v :: l' => let* '(s, _) := alloc zeroed s v ACCESS_READ in alloc_list l' s
  end.

(** The run that maps vpn 0, 16, 32, ..., 240 on the start-up state: one
    page in each of the 16 directories. *)
Definition sixteen_directories : result state :=
  alloc_list (map (fun k => 16 * Z.of_nat k) (seq 0 16)) boot.

(** The bodies of the two loops of the fork in switch_process, by name:
    the copy of one entry, and the copy of one directory. *)
Definition fork_pte_body (nr ar aw : Z) (g : indeterminate) (newprocess : nat) (i : Z)
           (j : Z) (s : state) : result (flow state Empty_set) :=
  let* e := load_pte s (current s) i j in
  if pte_valid e then
    let newpte := uninit_pte g in
    let newpte := with_valid true newpte in
    let* '(s, newpte) :=
      if negb (fork_test ar aw (pte_rw e) =? 0) then
        let* s := update_pte s (current s) i j (with_rw ar) in
        let newpte := with_rw ar newpte in
        let* s := update_pte s (current s) i j (with_private 1) in
        let newpte := with_private 1 newpte in
        Ok (s, newpte)
      else
        let* e' := load_pte s (current s) i j in
        Ok (s, with_rw (pte_rw e') newpte) in
    let* e' := load_pte s (current s) i j in
    let newpte := with_pfn (pte_pfn e') newpte in
    let* s := store_pte s newprocess i j newpte in
    let* s := mapcount_add s (i * nr + j) 1 in
    Ok (Next s)
  else Ok (Next s).

Definition fork_dir_body (nr ar aw : Z) (g : indeterminate) (newprocess : nat)
           (i : Z) (s : state) : result (flow state Empty_set) :=
  let* d := load_outer s (current s) i in
  match d with
  | NULL => Ok (Next s)
  | Addr _ =>
      let* s := store_outer (set_dirs s (dirs s ++ [malloc_dir g i]))
                  newprocess i (Addr (length (dirs s))) in
      for_loop (R := Empty_set) (Z.to_nat nr) 0
        (fork_pte_body nr ar aw g newprocess i) s
  end.

(** Page-table stores and count updates keep the current process, the
    process objects and the size of the directory heap. *)
Definition same_layout (t t' : state) : Prop :=
  current t' = current t /\ procs t' = procs t /\ length (dirs t') = length (dirs t).

(** Three facts about a state [t] met while the fork of state [s] runs,
    for one entry [(istar, jstar)] of the parent that held the valid
    [estar] when the fork began.  [fork_base]: the parent is still current
    and still the process object [xc], the directory heap has not shrunk,
    and the entry is still valid and names the same frame.  [fork_done]:
    the entry has been copied; parent and child both hold it read-only and
    marked, and the directory of the child is one made by the fork.
    [fork_inner]: what holds before iteration [j] of the inner loop for
    directory [i], whose copy is the block at address [c]. *)
Definition fork_base (s : state) (xc : process) (istar jstar : Z) (estar : pte)
           (t : state) : Prop :=
  current t = current s /\ procs t !! current s = Some xc /\
  (length (dirs s) <= length (dirs t))%nat /\
  exists e', load_pte t (current s) istar jstar = Ok e' /\
             pte_valid e' = true /\ pte_pfn e' = pte_pfn estar.

Definition fork_done (ar : Z) (s : state) (istar jstar : Z) (estar : pte)
           (t : state) : Prop :=
  load_pte t (current s) istar jstar = Ok (mk_pte true ar (pte_pfn estar) 1) /\
  load_pte t (length (procs s)) istar jstar = Ok (mk_pte true ar (pte_pfn estar) 1) /\
  exists c, load_outer t (length (procs s)) istar = Ok (Addr c) /\
            (length (dirs s) <= c)%nat.

Definition fork_inner (ar : Z) (s : state) (xc : process) (istar jstar : Z) (estar : pte)
           (i : Z) (c : nat) (j : Z) (t : state) : Prop :=
  fork_base s xc istar jstar estar t /\
  load_outer t (length (procs s)) i = Ok (Addr c) /\
  (length (dirs s) <= c)%nat /\
  (istar < i -> fork_done ar s istar jstar estar t /\
                load_outer t (length (procs s)) istar <> Ok (Addr c)) /\
  (i = istar -> jstar < j -> fork_done ar s istar jstar estar t).

(** Every non-NULL pointer of the list is the address of one of the first
    [n] blocks of the directory heap. *)
Definition ptrs_below (n : nat) (l : list ptr) : bool :=
  forallb (fun d => match d with
                    | NULL => true
                    | Addr a => (a <? n)%nat
                    end) l.

(** The count the fork keeps at the page index of the entry
    [(istar, jstar)], before iteration [(i, j)]: what it was when the fork
    began ([r0], the result of reading it then) as long as the entry has not
    been copied, one more (modulo 2^32) once it has. *)
Definition fork_count (nr istar jstar : Z) (r0 : result Z) (i j : Z) (t : state) : Prop :=
  (scanned_before istar jstar i j ->
   exists c, r0 = Ok c /\
             load (mapcounts t) (istar * nr + jstar) = Ok (u32 (c + 1))) /\
  (~ scanned_before istar jstar i j ->
   load (mapcounts t) (istar * nr + jstar) = r0).

(** What holds of a state [t] met while the fork of [s] runs, for one entry
    [(istar, jstar)] of the parent that held [estar], not valid, when the
    fork began: the parent is still current and still the process object
    [xc], the directory heap has not shrunk, and the entry reads [estar]. *)
Definition fork_keep (s : state) (xc : process) (istar jstar : Z) (estar : pte)
           (t : state) : Prop :=
  current t = current s /\ procs t !! current s = Some xc /\
  (length (dirs s) <= length (dirs t))%nat /\
  load_pte t (current s) istar jstar = Ok estar.

(** The indices [0 .. n-1]. *)
Definition zrange (n : Z) : list Z := map Z.of_nat (seq 0 (Z.to_nat n)).

(** What the fork of switch_process needs in order not to touch memory that
    is not there, as a test on the state: the current process exists and
    has [nr] directory slots, each of them NULL or a block of the directory
    heap; every block of the heap, and every block malloc hands out, has
    [nr] entries; the new process object has [nr] directory slots; and the
    page index of every valid entry of the parent is an index of
    mapcounts. *)
Definition fork_readyb (nr : Z) (g : indeterminate) (s : state) : bool :=
  match procs s !! current s with
  | None => false
  | Some xc =>
      (0 <=? nr) &&
      (length (outer_ptes (proc_pagetable xc)) =? Z.to_nat nr)%nat &&
      ptrs_below (length (dirs s)) (outer_ptes (proc_pagetable xc)) &&
      forallb (fun dir => (length (ptes dir) =? Z.to_nat nr)%nat) (dirs s) &&
      (length (outer_ptes (proc_pagetable (malloc_process g))) =? Z.to_nat nr)%nat &&
      forallb (fun i => (length (ptes (malloc_dir g i)) =? Z.to_nat nr)%nat) (zrange nr) &&
      forallb (fun i =>
                 forallb (fun j =>
                            match load_pte s (current s) i j with
                            | Ok e => negb (pte_valid e) ||
                                      (i * nr + j <? Z.of_nat (length (mapcounts s)))
                            | Fault => true
                            end) (zrange nr)) (zrange nr)
  end.

(** What holds of every state [t] met while the fork of a ready state [s]
    runs: the parent is current and is the process object [xc], the heap
    has not shrunk and all its blocks have [nr] entries, mapcounts has kept
    its size, the new process object has [nr] directory slots, and the
    entries of the parent that were not valid read as before. *)
Definition fork_safe (nr : Z) (s : state) (xc : process) (t : state) : Prop :=
  current t = current s /\ procs t !! current s = Some xc /\
  (length (dirs s) <= length (dirs t))%nat /\
  (forall a dir, dirs t !! a = Some dir -> length (ptes dir) = Z.to_nat nr) /\
  length (mapcounts t) = length (mapcounts s) /\
  (exists xn, procs t !! length (procs s) = Some xn /\
              length (outer_ptes (proc_pagetable xn)) = Z.to_nat nr) /\
  (forall i j e, load_pte s (current s) i j = Ok e -> pte_valid e = false ->
                 load_pte t (current s) i j = Ok e).

(** * Properties *)

(** ** Loads, stores and binds *)

Lemma bind_Ok {A B : Type} (r : result A) (k : A -> result B) (b : B) :
  bind r k = Ok b -> exists a, r = Ok a /\ k a = Ok b.
Proof. destruct r as [a|]; simpl; [eauto | discriminate]. Qed.

Ltac bind_inv H :=
  let a := fresh "x" in
  let E := fresh "E" in
  apply bind_Ok in H; destruct H as (a & E & H).

Lemma store_Ok {A : Type} (a a' : list A) (i : Z) (x : A) :
  store a i x = Ok a' ->
  0 <= i < Z.of_nat (length a) /\ a' = <[Z.to_nat i := x]> a.
Proof.
  unfold store.
  destruct (0 <=? i) eqn:H0; simpl; [|discriminate].
  destruct (i <? Z.of_nat (length a)) eqn:H1; [|discriminate].
  intros [= <-]. apply Z.leb_le in H0. apply Z.ltb_lt in H1. auto.
Qed.

Lemma load_store_eq {A : Type} (a a' : list A) (i : Z) (x : A) :
  store a i x = Ok a' -> load a' i = Ok x.
Proof.
  intros H. apply store_Ok in H as [Hi ->].
  unfold load. destruct (Z.leb_spec 0 i); [|lia].
  rewrite list_lookup_insert_eq; [reflexivity | lia].
Qed.

(** ** The claims *)

Lemma refcount_invariantb_spec (s : state) :
  refcount_invariantb s = true <-> refcount_invariant s.
Proof.
  unfold refcount_invariantb, refcount_invariant.
  rewrite forallb_forall. split.
  - intros H f c Hf.
    specialize (H f). rewrite Hf in H.
    apply Z.eqb_eq, H, in_seq.
    apply lookup_lt_Some in Hf. lia.
  - intros H f _. destruct (mapcounts s !! f) as [c|] eqn:Hf; [|reflexivity].
    apply Z.eqb_eq. eauto.
Qed.

Lemma refcount_invariantb_false (s : state) :
  refcount_invariantb s = false -> ~ refcount_invariant s.
Proof.
  intros Hb Hi. apply refcount_invariantb_spec in Hi. congruence.
Qed.

(** C1 (the code departs from the claim).  On the start-up state the count
    of every frame equals the number of valid PTEs naming it, and it still
    does after alloc_page(5, write), which maps frame 0.  After the fork
    done by switch_process(99) two valid PTEs name frame 0 while
    mapcounts[0] is still 1, and mapcounts[5] is 1 although no PTE names
    frame 5: the fork counts at the index of the page, not of the frame. *)
Theorem fork_breaks_refcount_invariant :
  refcount_invariant boot /\
  exists s1 s2,
    after_alloc ACCESS_WRITE = Ok s1 /\ refcount_invariant s1 /\
    after_fork ACCESS_WRITE = Ok s2 /\ ~ refcount_invariant s2 /\
    load (mapcounts s2) 0 = Ok 1 /\ refs s2 0 = 2 /\
    load (mapcounts s2) 5 = Ok 1 /\ refs s2 5 = 0.
Proof.
  split.
  - apply refcount_invariantb_spec. vm_compute. reflexivity.
  - destruct (after_alloc ACCESS_WRITE) as [s1|] eqn:E1; [|vm_compute in E1; discriminate].
    destruct (after_fork ACCESS_WRITE) as [s2|] eqn:E2; [|vm_compute in E2; discriminate].
    exists s1, s2.
    vm_compute in E1. injection E1 as <-.
    vm_compute in E2. injection E2 as <-.
    repeat split.
    + apply refcount_invariantb_spec. vm_compute. reflexivity.
    + apply refcount_invariantb_false. vm_compute. reflexivity.
Qed.

(** The test that guards the demotion in the fork succeeds on a writable
    entry, and on every entry as soon as ACCESS_READ is not 0: the else
    branch, which copies rw as it is, is then never taken. *)
Lemma fork_test_writable (ar aw : Z) : fork_test ar aw aw <> 0.
Proof.
  unfold fork_test. rewrite Z.eqb_refl. intros E.
  apply Z.lor_eq_0_iff in E as [E _]. discriminate.
Qed.

Lemma fork_test_nonzero (ar aw a : Z) : ar <> 0 -> fork_test ar aw a <> 0.
Proof.
  unfold fork_test. intros Har E.
  apply Z.lor_eq_0_iff in E as [_ E]. contradiction.
Qed.

(** C2 (the code departs from the claim).  alloc_page(5, write) maps vpn 5
    to frame 0 with count 1.  The fork demotes the entry and marks it in
    parent (process 0) and child (process 1), as the claim says, yet leaves
    mapcounts[0] at 1 and increments mapcounts[5].  When the page was
    allocated read-only, the fork sets private to 1 in both entries instead
    of replicating the entry as it is. *)
Theorem fork_counts_page_and_marks_readonly :
  (exists s1 s2,
      after_alloc ACCESS_WRITE = Ok s1 /\ after_fork ACCESS_WRITE = Ok s2 /\
      load_pte s1 0 0 5 = Ok (mk_pte true ACCESS_WRITE 0 0) /\
      load (mapcounts s1) 0 = Ok 1 /\ load (mapcounts s1) 5 = Ok 0 /\
      load_pte s2 0 0 5 = Ok (mk_pte true ACCESS_READ 0 1) /\
      load_pte s2 1 0 5 = Ok (mk_pte true ACCESS_READ 0 1) /\
      load (mapcounts s2) 0 = Ok 1 /\ load (mapcounts s2) 5 = Ok 1) /\
  (exists s1 s2,
      after_alloc ACCESS_READ = Ok s1 /\ after_fork ACCESS_READ = Ok s2 /\
      load_pte s1 0 0 5 = Ok (mk_pte true ACCESS_READ 0 0) /\
      load_pte s2 0 0 5 = Ok (mk_pte true ACCESS_READ 0 1) /\
      load_pte s2 1 0 5 = Ok (mk_pte true ACCESS_READ 0 1) /\
      load (mapcounts s2) 0 = Ok 1 /\ load (mapcounts s2) 5 = Ok 1).
Proof.
  split.
  - destruct (after_alloc ACCESS_WRITE) as [s1|] eqn:E1; [|vm_compute in E1; discriminate].
    destruct (after_fork ACCESS_WRITE) as [s2|] eqn:E2; [|vm_compute in E2; discriminate].
    exists s1, s2.
    vm_compute in E1. injection E1 as <-.
    vm_compute in E2. injection E2 as <-.
    repeat split.
  - destruct (after_alloc ACCESS_READ) as [s1|] eqn:E1; [|vm_compute in E1; discriminate].
    destruct (after_fork ACCESS_READ) as [s2|] eqn:E2; [|vm_compute in E2; discriminate].
    exists s1, s2.
    vm_compute in E1. injection E1 as <-.
    vm_compute in E2. injection E2 as <-.
    repeat split.
Qed.

(** C3 (the code departs from the claim).  free_page does not look the PTE
    up by the split of vpn: it takes the first entry, in scan order, whose
    private member equals vpn, and decrements mapcounts[vpn].  With vpn 1
    mapped alone, free_page(1) finds no such entry in directory 0 and then
    reads through the NULL directory 1.  After a fork, where every valid
    entry has private 1, free_page(1) clears the entry of vpn 0 and leaves
    vpn 1 mapped. *)
Theorem free_page_selects_by_private_member :
  (exists s1,
      alloc_range 1 1 boot = Ok s1 /\
      current_pte 16 s1 1 = Ok (mk_pte true ACCESS_WRITE 0 0) /\
      free_page s1 1 = Fault) /\
  (exists s2 s3,
      two_pages_forked = Ok s2 /\
      current_pte 16 s2 0 = Ok (mk_pte true ACCESS_READ 0 1) /\
      current_pte 16 s2 1 = Ok (mk_pte true ACCESS_READ 1 1) /\
      free_page s2 1 = Ok s3 /\
      current_pte 16 s3 0 = Ok (mk_pte false 0 0 1) /\
      current_pte 16 s3 1 = Ok (mk_pte true ACCESS_READ 1 1) /\
      load (mapcounts s2) 0 = Ok 2 /\ load (mapcounts s3) 0 = Ok 2).
Proof.
  split.
  - destruct (alloc_range 1 1 boot) as [s1|] eqn:E1; [|vm_compute in E1; discriminate].
    exists s1. vm_compute in E1. injection E1 as <-.
    repeat split.
  - destruct two_pages_forked as [s2|] eqn:E2; [|vm_compute in E2; discriminate].
    destruct (free_page s2 1) as [s3|] eqn:E3;
      [|vm_compute in E2; injection E2 as <-; vm_compute in E3; discriminate].
    exists s2, s3.
    vm_compute in E2. injection E2 as <-.
    vm_compute in E3. injection E3 as <-.
    repeat split.
Qed.

Lemma for_loop_S {S R : Type} (n : nat) (i : Z)
      (body : Z -> S -> result (flow S R)) (s : S) :
  for_loop (Datatypes.S n) i body s =
  bind (body i s) (fun f => match f with
                            | Next s' => for_loop n (i + 1) body s'
                            | Stop r => Ok (Stop r)
                            end).
Proof. reflexivity. Qed.

(** free_page starts by reading entry 0 of directory 0: when the current
    process has no directory 0, every call is an invalid access. *)
Lemma free_page_null_directory (s : state) (vpn : Z) :
  load_outer s (current s) 0 = Ok NULL -> free_page s vpn = Fault.
Proof.
  intros H. unfold free_page.
  rewrite for_loop_S. cbv beta. rewrite for_loop_S. cbv beta.
  unfold load_pte. rewrite H. reflexivity.
Qed.

(** C4 (the code departs from the claim).  On the start-up state no page is
    mapped and no directory exists: free_page(0) reads through the NULL
    pointer outer_ptes[0].  With vpn 1 mapped to frame 0 and vpn 0 not
    mapped, free_page(0) matches the unused entry of vpn 0 (its private
    member is 0) and decrements mapcounts[0], the count of the frame that
    backs vpn 1. *)
Theorem free_page_unmapped_faults_or_mutates :
  free_page boot 0 = Fault /\
  exists s1 s2,
    alloc_range 1 1 boot = Ok s1 /\
    current_pte 16 s1 0 = Ok zero_pte /\
    free_page s1 0 = Ok s2 /\
    load (mapcounts s1) 0 = Ok 1 /\ load (mapcounts s2) 0 = Ok 0 /\
    current_pte 16 s2 1 = Ok (mk_pte true ACCESS_WRITE 0 0) /\
    s2 <> s1.
Proof.
  split; [reflexivity|].
  destruct (alloc_range 1 1 boot) as [s1|] eqn:E1; [|vm_compute in E1; discriminate].
  destruct (free_page s1 0) as [s2|] eqn:E2;
    [|vm_compute in E1; injection E1 as <-; vm_compute in E2; discriminate].
  exists s1, s2.
  vm_compute in E1. injection E1 as <-.
  vm_compute in E2. injection E2 as <-.
  repeat split. discriminate.
Qed.

(** The cell behind the third argument of lookup_tlb holds after the call
    what it held before. *)
Lemma lookup_tlb_cell (s : state) (vpn rw cell : Z) (b : bool) (c : Z) :
  lookup_tlb s vpn rw cell = Ok (b, c) -> c = cell.
Proof.
  unfold lookup_tlb.
  destruct (for_loop _ _ _ _) as [[u|r]|]; simpl; congruence.
Qed.

(** C5 (the code departs from the claim).  lookup_tlb never writes through
    its pfn argument.  With the translation (vpn 3, read, frame 7) cached
    in slot 0, the lookup of (3, read) returns true and the caller's cell
    still holds 0; a write request for vpn 3 and a lookup of vpn 4 return
    false. *)
Theorem lookup_tlb_hit_leaves_pfn_unset :
  (forall s vpn rw cell,
      match lookup_tlb s vpn rw cell with
      | Ok (_, c) => c = cell
      | Fault => True
      end) /\
  exists s1,
    insert_tlb boot 3 ACCESS_READ 7 = Ok s1 /\
    tlb s1 !! 0%nat = Some (mk_tlb_entry true 3 ACCESS_READ 7) /\
    lookup_tlb s1 3 ACCESS_READ 0 = Ok (true, 0) /\
    lookup_tlb s1 3 ACCESS_WRITE 0 = Ok (false, 0) /\
    lookup_tlb s1 4 ACCESS_READ 0 = Ok (false, 0).
Proof.
  split.
  - intros s vpn rw cell.
    destruct (lookup_tlb s vpn rw cell) as [[b c]|] eqn:E; [|exact I].
    eapply lookup_tlb_cell, E.
  - destruct (insert_tlb boot 3 ACCESS_READ 7) as [s1|] eqn:E1; [|vm_compute in E1; discriminate].
    exists s1. vm_compute in E1. injection E1 as <-.
    repeat split.
Qed.

(** The slot insert_tlb writes is tlbidx, whatever the TLB holds. *)
Lemma insert_tlb_slot (s s' : state) (vpn rw pfn : Z) :
  insert_tlb s vpn rw pfn = Ok s' ->
  tlb s' = <[Z.to_nat (tlbidx s) := mk_tlb_entry true vpn rw pfn]> (tlb s) /\
  tlbidx s' = tlbidx s + 1.
Proof.
  unfold insert_tlb. intros H.
  apply bind_Ok in H as (t & Ht & H). injection H as <-.
  apply store_Ok in Ht as [_ ->]. split; reflexivity.
Qed.

(** C6 (the code departs from the claim).  insert_tlb writes slot tlbidx
    and advances tlbidx, whatever the TLB holds: a second insertion for
    vpn 3 fills slot 1 and leaves the entry of slot 0 as it was, and after
    256 insertions the next one writes past the end of the array instead of
    returning to slot 0. *)
Theorem insert_tlb_appends_and_runs_off :
  (exists s1 s2,
      insert_tlb boot 3 ACCESS_READ 7 = Ok s1 /\
      insert_tlb s1 3 ACCESS_WRITE 9 = Ok s2 /\
      tlb s2 !! 0%nat = Some (mk_tlb_entry true 3 ACCESS_READ 7) /\
      tlb s2 !! 1%nat = Some (mk_tlb_entry true 3 ACCESS_WRITE 9) /\
      tlbidx s2 = 2) /\
  (exists s256,
      insert_range 256 0 boot = Ok s256 /\
      tlbidx s256 = 256 /\ length (tlb s256) = 256%nat /\
      insert_tlb s256 0 ACCESS_WRITE 0 = Fault).
Proof.
  split.
  - destruct (insert_tlb boot 3 ACCESS_READ 7) as [s1|] eqn:E1; [|vm_compute in E1; discriminate].
    destruct (insert_tlb s1 3 ACCESS_WRITE 9) as [s2|] eqn:E2;
      [|vm_compute in E1; injection E1 as <-; vm_compute in E2; discriminate].
    exists s1, s2.
    vm_compute in E1. injection E1 as <-.
    vm_compute in E2. injection E2 as <-.
    repeat split.
  - destruct (insert_range 256 0 boot) as [s|] eqn:E; [|vm_compute in E; discriminate].
    exists s. vm_compute in E. injection E as <-.
    repeat split.
Qed.

(** C7 (the code departs from the claim).  After alloc_page on vpn 0 to 127
    every frame has count 1.  The next alloc_page finds no free frame; it
    still installs a valid PTE and returns the pfn member of its local
    newpte, which no statement has assigned: whatever value [j] that
    storage holds is the result, and no path returns -1. *)
Theorem alloc_page_exhausted_returns_unset_pfn :
  exists s128,
    alloc_range 128 0 boot = Ok s128 /\
    mapcounts s128 = replicate 128 1 /\
    forall j, exists s',
      alloc (zeroed_but_pfn j) s128 128 ACCESS_WRITE = Ok (s', j) /\
      current_pte 16 s' 128 = Ok (mk_pte true ACCESS_WRITE j 0) /\
      mapcounts s' = mapcounts s128.
Proof.
  destruct (alloc_range 128 0 boot) as [s|] eqn:E; [|vm_compute in E; discriminate].
  exists s. vm_compute in E. injection E as <-.
  split; [reflexivity|]. split; [reflexivity|].
  intros j. eexists. split; [vm_compute; reflexivity|].
  split; reflexivity.
Qed.

(** The path of switch_process taken when pid is in the ready queue: the
    found process is unlinked, the current one goes to the head of the
    queue, the found one becomes current; page tables, mapcounts, the TLB
    and ptbr are as before. *)
Lemma switch_process_found (g : indeterminate) (s : state) (pid : Z) (pos : nat) :
  find_process s (processes s) pid = Ok (Some pos) ->
  exists s',
    switch g s pid = Ok s' /\
    current s' = pos /\
    processes s' = current s :: list_del pos (processes s) /\
    ptbr s' = ptbr s /\
    procs s' = procs s /\ dirs s' = dirs s /\
    mapcounts s' = mapcounts s /\ tlb s' = tlb s /\ tlbidx s' = tlbidx s.
Proof.
  intros H.
  unfold switch, switch_process. rewrite H. simpl.
  eexists. split; [reflexivity|]. simpl. repeat split.
Qed.

(** C8 (the code departs from the claim).  With process 0 current, process
    1 in the ready queue and ptbr on the page table of process 0,
    switch_process(1) unlinks process 1, queues process 0 and makes
    process 1 current, touching neither page tables, mapcounts nor the
    TLB; it does not assign ptbr, which still points to the page table of
    process 0. *)
Theorem switch_process_found_leaves_ptbr :
  exists s2 s3,
    two_processes = Ok s2 /\
    current s2 = 0%nat /\ processes s2 = [1%nat] /\ ptbr s2 = 0%nat /\
    find_process s2 (processes s2) 1 = Ok (Some 1%nat) /\
    switch zeroed s2 1 = Ok s3 /\
    current s3 = 1%nat /\ processes s3 = [0%nat] /\ ptbr s3 = 0%nat /\
    procs s3 = procs s2 /\ dirs s3 = dirs s2 /\
    mapcounts s3 = mapcounts s2 /\ tlb s3 = tlb s2.
Proof.
  destruct two_processes as [s2|] eqn:E2; [|vm_compute in E2; discriminate].
  destruct (switch zeroed s2 1) as [s3|] eqn:E3;
    [|vm_compute in E2; injection E2 as <-; vm_compute in E3; discriminate].
  exists s2, s3.
  vm_compute in E2. injection E2 as <-.
  vm_compute in E3. injection E3 as <-.
  repeat split.
Qed.

(** C9 (the code departs from the claim).  handle_page_fault has an empty
    body: for every state and every access it returns false and changes
    nothing.  After alloc_page(5, write) and a fork the current entry of
    vpn 5 is valid, read-only and marked, its frame 0 has count 1, and the
    write fault on vpn 5 is refused with the entry left read-only. *)
Theorem handle_page_fault_refuses_every_fault :
  (forall s vpn rw, handle_page_fault s vpn rw = (false, s)) /\
  exists s,
    after_fork ACCESS_WRITE = Ok s /\
    current_pte 16 s 5 = Ok (mk_pte true ACCESS_READ 0 1) /\
    load (mapcounts s) 0 = Ok 1 /\
    fst (handle_page_fault s 5 ACCESS_WRITE) = false /\
    current_pte 16 (snd (handle_page_fault s 5 ACCESS_WRITE)) 5
      = Ok (mk_pte true ACCESS_READ 0 1).
Proof.
  split; [reflexivity|].
  destruct (after_fork ACCESS_WRITE) as [s|] eqn:E; [|vm_compute in E; discriminate].
  exists s. vm_compute in E. injection E as <-.
  repeat split.
Qed.

(** ** What alloc_page installs *)

Lemma store_pte_load (s s' : state) (p : nat) (i j : Z) (v : pte) :
  store_pte s p i j v = Ok s' ->
  load_pte s' p i j = Ok v /\ current s' = current s /\
  procs s' = procs s /\ mapcounts s' = mapcounts s.
Proof.
  unfold store_pte. intros H.
  bind_inv H. apply bind_Ok in H as ([a dir] & Ea & H).
  bind_inv H. injection H as <-.
  repeat split.
  unfold load_pte.
  change (load_outer (set_dirs s _) p i) with (load_outer s p i).
  rewrite E. simpl.
  destruct x as [|a0]; simpl in *; [discriminate|].
  destruct (dirs s !! a0) as [dir0|] eqn:Ed; [|discriminate].
  injection Ea as -> ->.
  rewrite list_lookup_insert_eq by (eapply lookup_lt_Some; eassumption).
  simpl. eapply load_store_eq. eassumption.
Qed.

(** C10.  Every call of alloc_page that returns has installed, at the
    directory and entry indices of vpn in the page table of the current
    process, an entry whose private member is 0 (and which is valid, has
    the requested rw and names the frame returned); this covers every call
    that finds a free frame. *)
Theorem alloc_page_installs_private_zero :
  forall (nr : Z) (g : indeterminate) (s s' : state) (vpn rw f : Z),
    alloc_page nr g s vpn rw = Ok (s', f) ->
    exists e,
      current_pte nr s' vpn = Ok e /\
      pte_private e = 0 /\ pte_valid e = true /\ pte_rw e = rw /\ pte_pfn e = f.
Proof.
  intros nr g s s' vpn rw f H.
  unfold alloc_page in H.
  bind_inv H. bind_inv H. bind_inv H.
  destruct (match x1 with Next y | Stop y => y end) as [s2 newpte].
  bind_inv H. injection H as <- <-.
  apply store_pte_load in E2 as (Hl & Hc & _).
  eexists. unfold current_pte. rewrite Hc. split; [exact Hl|].
  simpl. auto.
Qed.

Lemma alloc_page_installs_private_zero_witness :
  exists s',
    alloc_page 16 zeroed boot 5 2 = Ok (s', 0) /\
    exists e,
      current_pte 16 s' 5 = Ok e /\
      pte_private e = 0 /\ pte_valid e = true /\ pte_rw e = 2 /\ pte_pfn e = 0.
Proof.
  eexists. split; [vm_compute; reflexivity|].
  apply (alloc_page_installs_private_zero 16 zeroed boot _ 5 2 0).
  vm_compute. reflexivity.
Defined.

(** ** The frame scan of alloc_page *)

Lemma load_Ok {A : Type} (a : list A) (i : Z) (x : A) :
  load a i = Ok x -> 0 <= i /\ a !! Z.to_nat i = Some x.
Proof.
  unfold load. destruct (Z.leb_spec 0 i); [|discriminate].
  destruct (a !! Z.to_nat i); [|discriminate]. intros [= ->]. auto.
Qed.

Lemma load_in_range {A : Type} (a : list A) (i : Z) :
  0 <= i < Z.of_nat (length a) -> exists x, load a i = Ok x.
Proof.
  intros Hi. unfold load. destruct (Z.leb_spec 0 i); [|lia].
  destruct (a !! Z.to_nat i) as [x|] eqn:E; [eauto|].
  apply lookup_ge_None in E. lia.
Qed.

Lemma store_in_range {A : Type} (a : list A) (i : Z) (x : A) :
  0 <= i < Z.of_nat (length a) -> store a i x = Ok (<[Z.to_nat i := x]> a).
Proof.
  intros Hi. unfold store.
  destruct (Z.leb_spec 0 i); [|lia].
  destruct (Z.ltb_spec i (Z.of_nat (length a))); [|lia].
  reflexivity.
Qed.

Section FrameScan.

Lemma frame_scan_returns (n : nat) : forall (i0 : Z) (s : state) (e : pte),
  0 <= i0 -> i0 + Z.of_nat n <= Z.of_nat (length (mapcounts s)) ->
  exists r, for_loop n i0 frame_scan (s, e) = Ok r.
Proof.
  induction n as [|n IH]; intros i0 s e H0 Hn; simpl; [eauto|].
  destruct (load_in_range (mapcounts s) i0) as [c Hc]; [lia|].
  rewrite Hc. simpl. destruct (c =? 0).
  - unfold mapcount_add. rewrite Hc. simpl.
    rewrite store_in_range by lia. simpl. eauto.
  - simpl. apply IH; lia.
Qed.

Lemma frame_scan_spec (n : nat) : forall (i0 : Z) (s : state) (e : pte) r,
  for_loop n i0 frame_scan (s, e) = Ok r ->
  match r with
  | Stop (s', e') =>
      exists i, i0 <= i < i0 + Z.of_nat n /\
                load (mapcounts s) i = Ok 0 /\
                (forall k, i0 <= k < i -> load (mapcounts s) k <> Ok 0) /\
                s' = set_mapcounts s (<[Z.to_nat i := 1]> (mapcounts s)) /\
                e' = with_pfn i e
  | Next (s', e') =>
      s' = s /\ e' = e /\
      forall k, i0 <= k < i0 + Z.of_nat n -> load (mapcounts s) k <> Ok 0
  end.
Proof.
  induction n as [|n IH]; intros i0 s e r H; simpl in H.
  - injection H as <-. repeat split. intros k Hk. lia.
  - bind_inv H. unfold frame_scan in E. bind_inv E.
    destruct (Z.eqb_spec x0 0) as [->|Hne].
    + bind_inv E. injection E as <-. injection H as <-.
      exists i0. split; [lia|]. split; [assumption|]. split; [intros k Hk; lia|].
      split; [|reflexivity].
      unfold mapcount_add in E1. rewrite E0 in E1. simpl in E1.
      bind_inv E1. injection E1 as <-.
      apply store_Ok in E as [_ ->]. reflexivity.
    + injection E as <-. apply IH in H.
      destruct r as [[s' e']|[s' e']].
      * destruct H as (-> & -> & Hk). repeat split.
        intros k Hr. destruct (Z.eq_dec k i0) as [->|Hd].
        -- rewrite E0. congruence.
        -- apply Hk. lia.
      * destruct H as (i & Hi & Hf & Hk & -> & ->).
        exists i. split; [lia|]. split; [assumption|]. split; [|auto].
        intros k Hr. destruct (Z.eq_dec k i0) as [->|Hd].
        -- rewrite E0. congruence.
        -- apply Hk. lia.
Qed.

(** When some frame below 128 has count 0, a call of alloc_page that
    returns gives the smallest such frame and sets its count to 1. *)
Lemma alloc_page_first_free (nr : Z) (g : indeterminate) (s s' : state) (vpn rw f : Z) :
  alloc_page nr g s vpn rw = Ok (s', f) ->
  (exists k, 0 <= k < 128 /\ load (mapcounts s) k = Ok 0) ->
  0 <= f < 128 /\
  load (mapcounts s) f = Ok 0 /\
  (forall k, 0 <= k < f -> load (mapcounts s) k <> Ok 0) /\
  mapcounts s' = <[Z.to_nat f := 1]> (mapcounts s).
Proof.
  intros H (k & Hk & Hfree).
  unfold alloc_page in H.
  bind_inv H. bind_inv H.
  assert (Hm : mapcounts x0 = mapcounts s).
  { destruct x as [|a]; [|congruence].
    unfold store_outer in E0. bind_inv E0. bind_inv E0. injection E0 as <-.
    reflexivity. }
  bind_inv H.
  change (for_loop 128 0 frame_scan (x0, uninit_pte g) = Ok x1) in E1.
  apply frame_scan_spec in E1.
  destruct x1 as [[s2 e2]|[s2 e2]].
  - destruct E1 as (_ & _ & Hnone). exfalso.
    apply (Hnone k); [simpl; lia|]. rewrite Hm. exact Hfree.
  - destruct E1 as (i & Hi & Hf & Hlt & -> & ->).
    bind_inv H. injection H as <- <-.
    apply store_pte_load in E1 as (_ & _ & _ & Hmc).
    simpl in *. rewrite Hm in *.
    split; [lia|]. split; [assumption|]. split; [assumption|].
    rewrite Hmc. reflexivity.
Qed.

Local Arguments for_loop : simpl never.

(** alloc_page returns whenever the current process has a page table of
    [nr] directories, the directory of vpn is absent or a block of [nr]
    entries, vpn is below [nr * nr] and mapcounts has 128 entries. *)
Lemma alloc_page_returns (nr : Z) (g : indeterminate) (s : state) (vpn rw : Z)
      (x : process) :
  0 < nr -> 0 <= vpn < nr * nr ->
  procs s !! current s = Some x ->
  length (outer_ptes (proc_pagetable x)) = Z.to_nat nr ->
  (forall a, outer_ptes (proc_pagetable x) !! Z.to_nat (vpn / nr) = Some (Addr a) ->
             exists dir, dirs s !! a = Some dir /\ length (ptes dir) = Z.to_nat nr) ->
  length (ptes (malloc_dir g (vpn / nr))) = Z.to_nat nr ->
  (128 <= length (mapcounts s))%nat ->
  exists s' f, alloc_page nr g s vpn rw = Ok (s', f).
Proof.
  intros Hnr Hvpn Hx Hlen Hdir Hfresh Hmc.
  assert (Hd : 0 <= vpn / nr < nr).
  { split; [apply Z.div_pos; lia | apply Z.div_lt_upper_bound; lia]. }
  assert (Hp : 0 <= vpn mod nr < nr) by (apply Z.mod_pos_bound; lia).
  unfold alloc_page.
  unfold load_outer at 1, load_proc. rewrite Hx. simpl.
  destruct (load_in_range (outer_ptes (proc_pagetable x)) (vpn / nr)) as [d Ed]; [lia|].
  rewrite Ed. simpl.
  (* the state after the directory has been made present, and its block *)
  assert (exists s1 a dir,
             match d with
             | NULL => store_outer (set_dirs s (dirs s ++ [malloc_dir g (vpn / nr)]))
                         (current s) (vpn / nr) (Addr (length (dirs s)))
             | Addr _ => Ok s
             end = Ok s1 /\
             current s1 = current s /\ mapcounts s1 = mapcounts s /\
             load_outer s1 (current s1) (vpn / nr) = Ok (Addr a) /\
             dirs s1 !! a = Some dir /\ length (ptes dir) = Z.to_nat nr)
    as (s1 & a & dir & -> & Hc1 & Hm1 & Ho1 & Hd1 & Hl1).
  { destruct d as [|a].
    - unfold store_outer, load_proc. simpl. rewrite Hx. simpl.
      rewrite store_in_range by lia.
      simpl. eexists _, (length (dirs s)), (malloc_dir g (vpn / nr)).
      split; [reflexivity|]. simpl. repeat split; [|apply list_lookup_middle; reflexivity| assumption].
      unfold load_outer, load_proc. simpl.
      rewrite list_lookup_insert_eq by (eapply lookup_lt_Some; eassumption).
      simpl. eapply load_store_eq. apply store_in_range. lia.
    - apply load_Ok in Ed as Ed'. destruct Ed' as [_ Ed'].
      destruct (Hdir a Ed') as (dir & Hda & Hdl).
      exists s, a, dir. repeat split; try assumption.
      unfold load_outer, load_proc. rewrite Hx. simpl. exact Ed. }
  simpl.
  change (for_loop 128 0 _ (s1, uninit_pte g)) with (for_loop 128 0 frame_scan (s1, uninit_pte g)).
  destruct (frame_scan_returns 128 0 s1 (uninit_pte g)) as [r Hr]; [lia | rewrite Hm1; lia |].
  rewrite Hr. simpl.
  apply frame_scan_spec in Hr.
  assert (exists s2 e2, match r with Next y | Stop y => y end = (s2, e2) /\
                        current s2 = current s1 /\ procs s2 = procs s1 /\ dirs s2 = dirs s1)
    as (s2 & e2 & -> & Hc2 & Hp2 & Hd2).
  { destruct r as [[s2 e2]|[s2 e2]].
    - destruct Hr as (-> & -> & _). eauto 10.
    - destruct Hr as (i & _ & _ & _ & -> & ->). eauto 10. }
  unfold store_pte.
  assert (Ho2 : load_outer s2 (current s2) (vpn / nr) = Ok (Addr a)).
  { unfold load_outer, load_proc in *. rewrite Hc2, Hp2. exact Ho1. }
  rewrite Ho2. simpl. rewrite Hd2, Hd1. simpl.
  rewrite store_in_range by lia.
  simpl. eauto.
Qed.

End FrameScan.

(** ** The return value of lookup_tlb *)

Lemma tlb_match_spec (vpn rw : Z) (e : tlb_entry) :
  tlb_match vpn rw e = true <->
  tlb_valid e = true /\ tlb_vpn e = vpn /\ tlb_rw e = rw.
Proof.
  unfold tlb_match. rewrite !andb_true_iff, !Z.eqb_eq. tauto.
Qed.

(** On a TLB of (at least) 256 entries lookup_tlb returns, and it returns
    true exactly when one of the first 256 entries is valid and carries
    the vpn and the rw asked for. *)
Lemma lookup_tlb_true_iff (s : state) (vpn rw cell : Z) :
  (256 <= length (tlb s))%nat ->
  exists b,
    lookup_tlb s vpn rw cell = Ok (b, cell) /\
    (b = true <->
     exists i e, 0 <= i < 256 /\ load (tlb s) i = Ok e /\
                 tlb_valid e = true /\ tlb_vpn e = vpn /\ tlb_rw e = rw).
Proof.
  intros Hlen. unfold lookup_tlb.
  match goal with
  | |- context [for_loop 256 0 ?f tt] => set (body := f)
  end.
  assert (L : forall n i0, 0 <= i0 -> i0 + Z.of_nat n <= 256 ->
            exists b : bool,
              for_loop (R := bool) n i0 body tt
                = Ok (if b then Stop true else Next tt) /\
              (b = true <->
               exists i e, i0 <= i < i0 + Z.of_nat n /\ load (tlb s) i = Ok e /\
                           tlb_match vpn rw e = true)).
  { induction n as [|n IH]; intros i0 H0 Hn.
    - exists false. split; [reflexivity|].
      split; [discriminate|]. intros (i & _ & Hi & _). lia.
    - destruct (load_in_range (tlb s) i0) as [e He]; [lia|].
      cbn [for_loop]. unfold body at 1. rewrite He. cbn [bind].
      fold (tlb_match vpn rw e).
      destruct (tlb_match vpn rw e) eqn:Hm; cbn [bind].
      + exists true. split; [reflexivity|].
        split; [|reflexivity]. intros _. exists i0, e. split; [lia|]. auto.
      + destruct (IH (i0 + 1)) as (b & Hb & Hiff); [lia | lia |].
        exists b. split; [exact Hb|]. rewrite Hiff. split.
        * intros (i & e' & Hi & Hl & Hm'). exists i, e'. split; [lia|]. auto.
        * intros (i & e' & Hi & Hl & Hm'). exists i, e'. split; [|auto].
          destruct (Z.eq_dec i i0) as [->|Hd]; [|lia].
          rewrite He in Hl. injection Hl as <-. congruence. }
  destruct (L 256%nat 0) as (b & Hb & Hiff); [lia | lia |].
  rewrite Hb. exists b. split; [destruct b; reflexivity|].
  rewrite Hiff. split.
  - intros (i & e & Hi & Hl & Hm). apply tlb_match_spec in Hm. exists i, e. auto.
  - intros (i & e & Hi & Hl & Hm). exists i, e. rewrite tlb_match_spec. auto.
Qed.

(** * Further properties of the operations *)

(** ** Loops *)

(** A property kept by every iteration is kept by the loop. *)
Lemma for_loop_inv {S R : Type} (P : S -> Prop) (Q : R -> Prop)
      (body : Z -> S -> result (flow S R)) :
  (forall i s f, P s -> body i s = Ok f ->
                 match f with Next s' => P s' | Stop r => Q r end) ->
  forall n i s f, P s -> for_loop n i body s = Ok f ->
                  match f with Next s' => P s' | Stop r => Q r end.
Proof.
  intros Hbody. induction n as [|n IH]; intros i s f HP H.
  - injection H as <-. exact HP.
  - rewrite for_loop_S in H. bind_inv H.
    specialize (Hbody i s x HP E). destruct x as [s1|r].
    + exact (IH _ _ _ Hbody H).
    + injection H as <-. exact Hbody.
Qed.

(** A loop whose iterations leave the state alone until one of them stops:
    it stops at the first index whose iteration stops, or runs to the end
    with the state it started from. *)
Lemma for_loop_search {S R : Type} (body : Z -> S -> result (flow S R)) :
  (forall i s s', body i s = Ok (Next s') -> s' = s) ->
  forall n i0 s f, for_loop n i0 body s = Ok f ->
    match f with
    | Next s' =>
        s' = s /\ forall k, i0 <= k < i0 + Z.of_nat n -> body k s = Ok (Next s)
    | Stop r =>
        exists k, i0 <= k < i0 + Z.of_nat n /\ body k s = Ok (Stop r) /\
                  forall k', i0 <= k' < k -> body k' s = Ok (Next s)
    end.
Proof.
  intros Hbody. induction n as [|n IH]; intros i0 s f H.
  - injection H as <-. split; [reflexivity|]. intros k Hk. lia.
  - rewrite for_loop_S in H. bind_inv H. destruct x as [s1|r].
    + pose proof (Hbody _ _ _ E) as ->.
      apply IH in H. destruct f as [s'|r].
      * destruct H as [-> Hk]. split; [reflexivity|].
        intros k Hr. destruct (Z.eq_dec k i0) as [->|Hd]; [exact E|].
        apply Hk. lia.
      * destruct H as (k & Hr & Hs & Hk). exists k. split; [lia|].
        split; [exact Hs|]. intros k' Hr'.
        destruct (Z.eq_dec k' i0) as [->|Hd]; [exact E|]. apply Hk. lia.
    + injection H as <-. exists i0. split; [lia|]. split; [exact E|].
      intros k' Hk'. lia.
Qed.

(** ** What the stores change *)

Lemma store_outer_Ok (s s' : state) (p : nat) (i : Z) (d : ptr) :
  store_outer s p i d = Ok s' ->
  exists x o,
    procs s !! p = Some x /\ store (outer_ptes (proc_pagetable x)) i d = Ok o /\
    s' = set_procs s (<[p := mk_process (proc_pid x) (mk_pagetable o)]> (procs s)).
Proof.
  unfold store_outer, load_proc. intros H.
  destruct (procs s !! p) as [x|] eqn:Ex; [|discriminate]. simpl in H.
  bind_inv H. injection H as <-. eauto.
Qed.

Lemma deref_dir_Ok (s : state) (d : ptr) (a : nat) (dir : pte_directory) :
  deref_dir s d = Ok (a, dir) -> d = Addr a /\ dirs s !! a = Some dir.
Proof.
  destruct d as [|a0]; simpl; [discriminate|].
  destruct (dirs s !! a0) as [x|] eqn:E; [|discriminate].
  intros [= -> ->]. auto.
Qed.

Lemma store_pte_Ok (s s' : state) (p : nat) (i j : Z) (v : pte) :
  store_pte s p i j v = Ok s' ->
  exists a dir l,
    load_outer s p i = Ok (Addr a) /\ dirs s !! a = Some dir /\
    store (ptes dir) j v = Ok l /\
    s' = set_dirs s (<[a := mk_pte_directory l]> (dirs s)).
Proof.
  unfold store_pte. intros H.
  bind_inv H. apply bind_Ok in H as ([a dir] & Ea & H).
  bind_inv H. injection H as <-.
  apply deref_dir_Ok in Ea as [-> Ea]. eauto 10.
Qed.

Lemma load_pte_Ok (s : state) (p : nat) (i j : Z) (e : pte) :
  load_pte s p i j = Ok e ->
  exists a dir,
    load_outer s p i = Ok (Addr a) /\ dirs s !! a = Some dir /\
    load (ptes dir) j = Ok e.
Proof.
  unfold load_pte. intros H.
  bind_inv H. apply bind_Ok in H as ([a dir] & Ea & H).
  apply deref_dir_Ok in Ea as [-> Ea]. eauto 10.
Qed.

Lemma mapcount_add_Ok (s s' : state) (k delta : Z) :
  mapcount_add s k delta = Ok s' ->
  exists c,
    load (mapcounts s) k = Ok c /\ 0 <= k < Z.of_nat (length (mapcounts s)) /\
    s' = set_mapcounts s (<[Z.to_nat k := u32 (c + delta)]> (mapcounts s)).
Proof.
  unfold mapcount_add. intros H.
  bind_inv H. bind_inv H. injection H as <-.
  apply store_Ok in E0 as [Hk ->]. eauto.
Qed.

Lemma same_schedule_refl (s : state) : same_schedule s s.
Proof. unfold same_schedule. auto 10. Qed.

Lemma same_schedule_trans (s1 s2 s3 : state) :
  same_schedule s1 s2 -> same_schedule s2 s3 -> same_schedule s1 s3.
Proof.
  unfold same_schedule.
  intros (A1 & A2 & A3 & A4 & A5 & A6) (B1 & B2 & B3 & B4 & B5 & B6).
  repeat split; congruence.
Qed.

Lemma store_outer_schedule (s s' : state) (p : nat) (i : Z) (d : ptr) :
  store_outer s p i d = Ok s' -> same_schedule s s'.
Proof.
  intros H. apply store_outer_Ok in H as (x & o & Hx & _ & ->).
  unfold same_schedule. simpl. repeat split.
  rewrite list_fmap_insert. simpl.
  apply list_insert_id. rewrite list_lookup_fmap, Hx. reflexivity.
Qed.

Lemma store_pte_schedule (s s' : state) (p : nat) (i j : Z) (v : pte) :
  store_pte s p i j v = Ok s' -> same_schedule s s'.
Proof.
  intros H. apply store_pte_Ok in H as (a & dir & l & _ & _ & _ & ->).
  unfold same_schedule. simpl. auto 10.
Qed.

Lemma update_pte_schedule (s s' : state) (p : nat) (i j : Z) (f : pte -> pte) :
  update_pte s p i j f = Ok s' -> same_schedule s s'.
Proof.
  unfold update_pte. intros H. bind_inv H. eapply store_pte_schedule, H.
Qed.

Lemma mapcount_add_schedule (s s' : state) (k delta : Z) :
  mapcount_add s k delta = Ok s' -> same_schedule s s'.
Proof.
  intros H. apply mapcount_add_Ok in H as (c & _ & _ & ->).
  unfold same_schedule. simpl. auto 10.
Qed.

(** ** switch_process *)

Lemma set_dirs_schedule (s : state) (d : list pte_directory) :
  same_schedule s (set_dirs s d).
Proof. unfold same_schedule. simpl. auto 10. Qed.

Ltac schedule_step :=
  match goal with
  | H : store_pte _ _ _ _ _ = Ok _ |- _ => apply store_pte_schedule in H
  | H : update_pte _ _ _ _ _ = Ok _ |- _ => apply update_pte_schedule in H
  | H : mapcount_add _ _ _ = Ok _ |- _ => apply mapcount_add_schedule in H
  | H : store_outer _ _ _ _ = Ok _ |- _ => apply store_outer_schedule in H
  end.

Ltac schedule_chain :=
  repeat schedule_step;
  repeat match goal with
         | H : same_schedule ?a ?b |- same_schedule ?a ?c =>
             first [ exact H
                   | apply (same_schedule_trans a b c H); clear H ]
         end.

(** The loops of the fork change no scheduler or MMU register. *)
Lemma fork_loops_schedule (nr ar aw : Z) (g : indeterminate) (newprocess : nat)
      (n : nat) (i0 : Z) (s0 s s' : state) :
  same_schedule s0 s ->
  for_loop (R := Empty_set) n i0
    (fun i s =>
       let* d := load_outer s (current s) i in
       match d with
       | NULL => Ok (Next s)
       | Addr _ =>
           let* s := store_outer (set_dirs s (dirs s ++ [malloc_dir g i]))
                       newprocess i (Addr (length (dirs s))) in
           for_loop (R := Empty_set) (Z.to_nat nr) 0
             (fun j s =>
                let* e := load_pte s (current s) i j in
                if pte_valid e then
                  let newpte := uninit_pte g in
                  let newpte := with_valid true newpte in
                  let* '(s, newpte) :=
                    if negb (fork_test ar aw (pte_rw e) =? 0) then
                      let* s := update_pte s (current s) i j (with_rw ar) in
                      let newpte := with_rw ar newpte in
                      let* s := update_pte s (current s) i j (with_private 1) in
                      let newpte := with_private 1 newpte in
                      Ok (s, newpte)
                    else
                      let* e' := load_pte s (current s) i j in
                      Ok (s, with_rw (pte_rw e') newpte) in
                  let* e' := load_pte s (current s) i j in
                  let newpte := with_pfn (pte_pfn e') newpte in
                  let* s := store_pte s newprocess i j newpte in
                  let* s := mapcount_add s (i * nr + j) 1 in
                  Ok (Next s)
                else Ok (Next s)) s
       end) s = Ok (Next s') ->
  same_schedule s0 s'.
Proof.
  intros HP H.
  eapply (for_loop_inv (same_schedule s0) (fun _ => False)) in H; [exact H| |exact HP].
  clear. intros i s f HP H.
  bind_inv H. destruct x as [|a].
  { injection H as <-. exact HP. }
  bind_inv H.
  assert (HP1 : same_schedule s0 x).
  { apply store_outer_schedule in E0.
    eapply same_schedule_trans; [exact HP|].
    eapply same_schedule_trans; [apply set_dirs_schedule | exact E0]. }
  clear E0 HP E.
  eapply (for_loop_inv (same_schedule s0) (fun _ => False)) in H.
  - destruct f as [s1|[]]; exact H.
  - clear. intros j s f HP H.
    bind_inv H. destruct (pte_valid x).
    + apply bind_Ok in H as ([s1 newpte] & E1 & H).
      bind_inv H. bind_inv H. bind_inv H. injection H as <-.
      destruct (negb _).
      * bind_inv E1. bind_inv E1. injection E1 as <- _.
        schedule_chain.
      * bind_inv E1. injection E1 as <- _.
        schedule_chain.
    + injection H as <-. exact HP.
  - exact HP1.
Qed.

(** The path of switch_process taken when pid is not in the ready queue. *)
Lemma switch_process_fork (nr ar aw : Z) (g : indeterminate) (s s' : state) (pid : Z) :
  find_process s (processes s) pid = Ok None ->
  switch_process nr ar aw g s pid = Ok s' ->
  current s' = length (procs s) /\
  processes s' = current s :: processes s /\
  ptbr s' = ptbr s /\ tlb s' = tlb s /\ tlbidx s' = tlbidx s /\
  proc_pid <$> procs s' = (proc_pid <$> procs s) ++ [pid].
Proof.
  intros Hf H. unfold switch_process in H. rewrite Hf in H. cbn [bind] in H.
  bind_inv H. destruct x as [s1|[]]. injection H as <-.
  apply (fork_loops_schedule _ _ _ _ _ _ _
           (set_procs s (procs s ++ [mk_process pid (proc_pagetable (malloc_process g))])))
    in E; [|apply same_schedule_refl].
  destruct E as (A1 & A2 & A3 & A4 & A5 & A6). simpl in *.
  unfold list_add. rewrite A1, A2, A3, A4, A5, A6.
  repeat split. rewrite fmap_app. reflexivity.
Qed.

Lemma find_process_Some (s : state) (q : list nat) (pid : Z) (pos : nat) :
  find_process s q pid = Ok (Some pos) ->
  pos ∈ q /\ exists x, procs s !! pos = Some x /\ proc_pid x = pid.
Proof.
  induction q as [|p q IH]; simpl; [discriminate|].
  unfold load_proc. destruct (procs s !! p) as [x|] eqn:Ex; [|discriminate].
  simpl. destruct (Z.eqb_spec (proc_pid x) pid) as [Hp|Hp].
  - intros [= <-]. split; [left | eauto].
  - intros H. apply IH in H as [Hin Hx]. split; [right; exact Hin | exact Hx].
Qed.

Lemma find_process_None (s : state) (q : list nat) (pid : Z) :
  find_process s q pid = Ok None ->
  forall p, p ∈ q -> exists x, procs s !! p = Some x /\ proc_pid x <> pid.
Proof.
  induction q as [|p0 q IH]; simpl; intros H p Hin.
  - inversion Hin.
  - unfold load_proc in H. destruct (procs s !! p0) as [x|] eqn:Ex; [|discriminate].
    simpl in H. destruct (Z.eqb_spec (proc_pid x) pid) as [Hp|Hp]; [discriminate|].
    apply elem_of_cons in Hin as [->|Hin]; [eauto|]. apply IH; assumption.
Qed.


(** X14.  After a switch_process(pid) that returns, by the switch or by the
    fork, the current process is a process object whose pid is [pid]. *)
Theorem switch_process_makes_pid_current :
  forall (nr ar aw : Z) (g : indeterminate) (s s' : state) (pid : Z),
    switch_process nr ar aw g s pid = Ok s' ->
    exists x, procs s' !! current s' = Some x /\ proc_pid x = pid.
Proof.
  intros nr ar aw g s s' pid H.
  destruct (find_process s (processes s) pid) as [[pos|]|] eqn:Hf.
  - unfold switch_process in H. rewrite Hf in H. simpl in H. injection H as <-.
    simpl. apply find_process_Some in Hf as [_ Hx]. exact Hx.
  - destruct (switch_process_fork _ _ _ _ _ _ _ Hf H) as (Hc & _ & _ & _ & _ & Hp).
    rewrite Hc.
    assert (Hl : (proc_pid <$> procs s') !! length (procs s) = Some pid).
    { rewrite Hp. apply list_lookup_middle. rewrite length_fmap. reflexivity. }
    rewrite list_lookup_fmap in Hl.
    destruct (procs s' !! length (procs s)) as [x|]; [|discriminate].
    injection Hl as Hl. eauto.
  - unfold switch_process in H. rewrite Hf in H. discriminate.
Qed.

Lemma switch_process_makes_pid_current_witness :
  exists s',
    switch_process 16 1 2 zeroed boot 7 = Ok s' /\
    exists x, procs s' !! current s' = Some x /\ proc_pid x = 7.
Proof.
  eexists. split; [vm_compute; reflexivity|].
  apply (switch_process_makes_pid_current 16 1 2 zeroed boot _ 7).
  vm_compute. reflexivity.
Defined.

(** X15.  switch_process, on either path, leaves the TLB, the cursor of
    insert_tlb and ptbr as they were: no entry is flushed, and every
    lookup_tlb answers after the call what it answered before. *)
Theorem switch_process_keeps_tlb_and_ptbr :
  forall (nr ar aw : Z) (g : indeterminate) (s s' : state) (pid : Z),
    switch_process nr ar aw g s pid = Ok s' ->
    tlb s' = tlb s /\ tlbidx s' = tlbidx s /\ ptbr s' = ptbr s /\
    forall vpn rw cell, lookup_tlb s' vpn rw cell = lookup_tlb s vpn rw cell.
Proof.
  intros nr ar aw g s s' pid H.
  assert (Hk : tlb s' = tlb s /\ tlbidx s' = tlbidx s /\ ptbr s' = ptbr s).
  { destruct (find_process s (processes s) pid) as [[pos|]|] eqn:Hf.
    - unfold switch_process in H. rewrite Hf in H. simpl in H. injection H as <-.
      simpl. auto.
    - destruct (switch_process_fork _ _ _ _ _ _ _ Hf H) as (_ & _ & A & B & C & _).
      auto.
    - unfold switch_process in H. rewrite Hf in H. discriminate. }
  destruct Hk as (Ht & Hi & Hp). repeat split; try assumption.
  intros vpn rw cell. unfold lookup_tlb. rewrite Ht. reflexivity.
Qed.

Lemma switch_process_keeps_tlb_and_ptbr_witness :
  exists s',
    switch_process 16 1 2 zeroed boot 7 = Ok s' /\
    tlb s' = tlb boot /\ tlbidx s' = tlbidx boot /\ ptbr s' = ptbr boot /\
    forall vpn rw cell, lookup_tlb s' vpn rw cell = lookup_tlb boot vpn rw cell.
Proof.
  eexists. split; [vm_compute; reflexivity|].
  apply (switch_process_keeps_tlb_and_ptbr 16 1 2 zeroed boot _ 7).
  vm_compute. reflexivity.
Defined.



(** X17.  Switching to a queued process and then back to the pid of the
    process that was running restores the current process; the process
    visited is then at the head of the ready queue, and page tables,
    mapcounts, TLB and ptbr are what they were. *)
Theorem switch_process_there_and_back :
  forall (nr ar aw : Z) (g g' : indeterminate) (s : state) (pid : Z) (pos : nat)
         (xc : process),
    find_process s (processes s) pid = Ok (Some pos) ->
    procs s !! current s = Some xc ->
    exists s1 s2,
      switch_process nr ar aw g s pid = Ok s1 /\
      switch_process nr ar aw g' s1 (proc_pid xc) = Ok s2 /\
      current s2 = current s /\
      processes s2 = pos :: list_del pos (processes s) /\
      procs s2 = procs s /\ dirs s2 = dirs s /\ mapcounts s2 = mapcounts s /\
      tlb s2 = tlb s /\ tlbidx s2 = tlbidx s /\ ptbr s2 = ptbr s.
Proof.
  intros nr ar aw g g' s pid pos xc Hf Hc.
  eexists. eexists. split.
  { unfold switch_process. rewrite Hf. simpl. reflexivity. }
  split.
  { unfold switch_process. simpl. unfold load_proc. simpl. rewrite Hc. simpl.
    rewrite Z.eqb_refl. simpl. reflexivity. }
  simpl. rewrite Nat.eqb_refl. unfold list_add. repeat split.
Qed.

Lemma switch_process_there_and_back_witness :
  exists s0,
    two_processes = Ok s0 /\
    find_process s0 (processes s0) 1 = Ok (Some 1%nat) /\
    procs s0 !! current s0 = Some (mk_process 0 empty_pagetable) /\
    exists s1 s2,
      switch_process 16 1 2 zeroed s0 1 = Ok s1 /\
      switch_process 16 1 2 zeroed s1 (proc_pid (mk_process 0 empty_pagetable)) = Ok s2 /\
      current s2 = current s0 /\
      processes s2 = 1%nat :: list_del 1%nat (processes s0) /\
      procs s2 = procs s0 /\ dirs s2 = dirs s0 /\ mapcounts s2 = mapcounts s0 /\
      tlb s2 = tlb s0 /\ tlbidx s2 = tlbidx s0 /\ ptbr s2 = ptbr s0.
Proof.
  eexists. split; [vm_compute; reflexivity|].
  split; [reflexivity|]. split; [reflexivity|].
  apply (switch_process_there_and_back 16 1 2 zeroed zeroed _ 1 1%nat); reflexivity.
Defined.

(** ** lookup_tlb and insert_tlb *)

Lemma load_of_nat {A : Type} (a : list A) (i : nat) :
  load a (Z.of_nat i) = match a !! i with Some x => Ok x | None => Fault end.
Proof.
  unfold load. destruct (Z.leb_spec 0 (Z.of_nat i)); [|lia].
  rewrite Nat2Z.id. reflexivity.
Qed.

Lemma tlb_scan_loop (t : list tlb_entry) (vpn rw : Z) (n : nat) :
  forall i0 : nat,
    for_loop (R := bool) n (Z.of_nat i0)
      (fun i (_ : unit) =>
         let* e := load t i in
         if tlb_valid e && (tlb_vpn e =? vpn) && (tlb_rw e =? rw)
         then Ok (Stop true)
         else Ok (Next tt)) tt
    = if existsb (tlb_match vpn rw) (take n (drop i0 t)) then Ok (Stop true)
      else if (n <=? length (drop i0 t))%nat then Ok (Next tt)
      else Fault.
Proof.
  induction n as [|n IH]; intros i0; [reflexivity|].
  rewrite for_loop_S. cbv beta. rewrite load_of_nat.
  destruct (t !! i0) as [e|] eqn:He.
  - rewrite (drop_S _ _ _ He). cbn [bind take existsb length].
    fold (tlb_match vpn rw e). destruct (tlb_match vpn rw e); [reflexivity|].
    cbn [orb]. replace (Z.of_nat i0 + 1) with (Z.of_nat (S i0)) by lia.
    cbn [bind]. rewrite IH. reflexivity.
  - apply lookup_ge_None in He. rewrite drop_ge by lia. reflexivity.
Qed.

(** A matching entry among the first 256 makes lookup_tlb hit. *)
Lemma lookup_tlb_hit (s : state) (vpn rw cell : Z) (k : nat) (x : tlb_entry) :
  (k < 256)%nat -> tlb s !! k = Some x -> tlb_match vpn rw x = true ->
  lookup_tlb s vpn rw cell = Ok (true, cell).
Proof.
  intros Hk Hx Hm. unfold lookup_tlb.
  change 0 with (Z.of_nat 0). rewrite tlb_scan_loop. rewrite drop_0.
  replace (existsb _ _) with true; [reflexivity|].
  symmetry. apply existsb_exists. exists x. split; [|exact Hm].
  apply list_elem_of_In, list_elem_of_lookup. exists k.
  rewrite lookup_take_lt by lia. exact Hx.
Qed.

(** X6.  The answer of lookup_tlb, in full.  It is a hit exactly when one of
    the first 256 entries is valid and has the vpn and the rw asked for; a
    miss needs all 256 entries to be there, and on a shorter array the
    scan reads past the end.  In no case is the caller's cell written. *)
Theorem lookup_tlb_answer :
  forall (s : state) (vpn rw cell : Z),
    lookup_tlb s vpn rw cell =
    if existsb (tlb_match vpn rw) (take 256 (tlb s)) then Ok (true, cell)
    else if (256 <=? length (tlb s))%nat then Ok (false, cell)
    else Fault.
Proof.
  intros s vpn rw cell. unfold lookup_tlb.
  change 0 with (Z.of_nat 0). rewrite tlb_scan_loop. rewrite drop_0.
  destruct (existsb _ _); [reflexivity|].
  destruct (256 <=? length (tlb s))%nat; reflexivity.
Qed.

(** X7.  What insert_tlb has stored, lookup_tlb finds: after an insertion
    into one of the 256 slots, the lookup of the same vpn and rw hits. *)
Theorem insert_tlb_then_lookup_hits :
  forall (s s' : state) (vpn rw pfn cell : Z),
    insert_tlb s vpn rw pfn = Ok s' ->
    tlbidx s < 256 ->
    lookup_tlb s' vpn rw cell = Ok (true, cell).
Proof.
  intros s s' vpn rw pfn cell H Hi.
  unfold insert_tlb in H. bind_inv H. injection H as <-.
  apply store_Ok in E as [Hr ->].
  apply (lookup_tlb_hit _ vpn rw cell (Z.to_nat (tlbidx s))
           (mk_tlb_entry true vpn rw pfn)).
  - lia.
  - simpl. apply list_lookup_insert_eq. lia.
  - unfold tlb_match. simpl. rewrite !Z.eqb_refl. reflexivity.
Qed.

Lemma insert_tlb_then_lookup_hits_witness :
  exists s',
    insert_tlb boot 3 2 9 = Ok s' /\ tlbidx boot < 256 /\
    lookup_tlb s' 3 2 0 = Ok (true, 0).
Proof.
  eexists. split; [vm_compute; reflexivity|]. split; [reflexivity|].
  apply (insert_tlb_then_lookup_hits boot _ 3 2 9 0); [vm_compute|]; reflexivity.
Defined.



(** ** alloc_page *)

(** The steps of a call of alloc_page that returns: the directory is made
    present, the frames are scanned, the entry is stored. *)
Lemma alloc_page_Ok (nr : Z) (g : indeterminate) (s s' : state) (vpn rw f : Z) :
  alloc_page nr g s vpn rw = Ok (s', f) ->
  exists d s1 r s2 e2,
    load_outer s (current s) (vpn / nr) = Ok d /\
    match d with
    | NULL => store_outer (set_dirs s (dirs s ++ [malloc_dir g (vpn / nr)]))
                (current s) (vpn / nr) (Addr (length (dirs s)))
    | Addr _ => Ok s
    end = Ok s1 /\
    for_loop 128 0 frame_scan (s1, uninit_pte g) = Ok r /\
    match r with Next y | Stop y => y end = (s2, e2) /\
    f = pte_pfn e2 /\
    store_pte s2 (current s2) (vpn / nr) (vpn mod nr) (mk_pte true rw (pte_pfn e2) 0)
      = Ok s'.
Proof.
  intros H. unfold alloc_page in H.
  bind_inv H. bind_inv H. bind_inv H.
  destruct (match x1 with Next y | Stop y => y end) as [s2 e2] eqn:Er.
  bind_inv H. injection H as <- <-.
  exists x, x0, x1, s2, e2. repeat split; assumption.
Qed.

Lemma load_pte_set_mapcounts (s : state) (m : list Z) (p : nat) (i j : Z) :
  load_pte (set_mapcounts s m) p i j = load_pte s p i j.
Proof. reflexivity. Qed.

(** A store into one entry is not seen through another entry. *)
Lemma store_pte_other (s s' : state) (p p' : nat) (i i' j j' : Z) (v e : pte) :
  store_pte s p i j v = Ok s' ->
  load_pte s p' i' j' = Ok e ->
  j' <> j \/ load_outer s p' i' <> load_outer s p i ->
  load_pte s' p' i' j' = Ok e.
Proof.
  intros H Hl Hne.
  apply store_pte_Ok in H as (a & dir & l & Ho & Hd & Hs & ->).
  apply load_pte_Ok in Hl as (a' & dir' & Ho' & Hd' & Hl').
  unfold load_pte.
  change (load_outer (set_dirs s _) p' i') with (load_outer s p' i').
  rewrite Ho'. simpl.
  destruct (decide (a' = a)) as [->|Ha].
  - rewrite list_lookup_insert_eq by (eapply lookup_lt_Some; eassumption).
    simpl. rewrite Hd in Hd'. injection Hd' as <-.
    destruct Hne as [Hj|Hp]; [|congruence].
    apply store_Ok in Hs as [Hr ->].
    apply load_Ok in Hl' as [H0 Hl'].
    unfold load. destruct (Z.leb_spec 0 j'); [|lia].
    rewrite list_lookup_insert_ne by lia. rewrite Hl'. reflexivity.
  - rewrite list_lookup_insert_ne by congruence. rewrite Hd'. exact Hl'.
Qed.

(** Making the directory of vpn present hides no entry that was there. *)
Lemma alloc_page_dir_step (g : indeterminate) (s s1 : state) (i : Z) (d : ptr) :
  load_outer s (current s) i = Ok d ->
  match d with
  | NULL => store_outer (set_dirs s (dirs s ++ [malloc_dir g i]))
              (current s) i (Addr (length (dirs s)))
  | Addr _ => Ok s
  end = Ok s1 ->
  same_schedule s s1 /\ mapcounts s1 = mapcounts s /\
  forall p' i' j' e, load_pte s p' i' j' = Ok e -> load_pte s1 p' i' j' = Ok e.
Proof.
  intros Hd H. destruct d as [|a].
  - pose proof (store_outer_schedule _ _ _ _ _ H) as Hs.
    apply store_outer_Ok in H as (x & o & Hx & Ho & ->).
    split; [|split; [reflexivity|]].
    { eapply same_schedule_trans; [apply set_dirs_schedule | exact Hs]. }
    simpl in Hx. intros p' i' j' e Hl.
    apply load_pte_Ok in Hl as (a' & dir' & Ho' & Hd' & Hl').
    assert (Hout : load_outer
                     (set_procs (set_dirs s (dirs s ++ [malloc_dir g i]))
                        (<[current s := mk_process (proc_pid x) (mk_pagetable o)]>
                           (procs (set_dirs s (dirs s ++ [malloc_dir g i])))))
                     p' i' = Ok (Addr a')).
    { unfold load_outer, load_proc in *. simpl.
      destruct (decide (p' = current s)) as [->|Hp].
      - rewrite list_lookup_insert_eq by (eapply lookup_lt_Some; eassumption).
        rewrite Hx in Ho', Hd. simpl in *.
        apply store_Ok in Ho as [Hr ->].
        destruct (Z.eq_dec i' i) as [->|Hi]; [congruence|].
        apply load_Ok in Ho' as [H0 Ho'].
        unfold load. destruct (Z.leb_spec 0 i'); [|lia].
        rewrite list_lookup_insert_ne by lia. rewrite Ho'. reflexivity.
      - rewrite list_lookup_insert_ne by congruence. exact Ho'. }
    unfold load_pte. rewrite Hout. simpl.
    rewrite lookup_app_l by (eapply lookup_lt_Some; eassumption).
    rewrite Hd'. exact Hl'.
  - injection H as <-. split; [apply same_schedule_refl|]. auto.
Qed.

(** The scan of the frames changes mapcounts only. *)
Lemma frame_scan_result (s1 s2 : state) (e e2 : pte) r :
  for_loop 128 0 frame_scan (s1, e) = Ok r ->
  match r with Next y | Stop y => y end = (s2, e2) ->
  exists m, s2 = set_mapcounts s1 m.
Proof.
  intros H Hr. apply frame_scan_spec in H.
  destruct r as [[s e']|[s e']]; injection Hr as <- <-.
  - destruct H as (-> & _ & _). exists (mapcounts s1). destruct s1; reflexivity.
  - destruct H as (i & _ & _ & _ & -> & _). eauto.
Qed.

Lemma alloc_page_installed (nr : Z) (g : indeterminate) (s s' : state) (vpn rw f : Z) :
  alloc_page nr g s vpn rw = Ok (s', f) ->
  current_pte nr s' vpn = Ok (mk_pte true rw f 0).
Proof.
  intros H.
  apply alloc_page_Ok in H as (d & s1 & r & s2 & e2 & _ & _ & _ & _ & -> & H).
  apply store_pte_load in H as (Hl & Hc & _).
  unfold current_pte. rewrite Hc. exact Hl.
Qed.

(** X1.  On a state where alloc_page touches only memory that is there, and
    with a frame of count 0 among the 128, alloc_page returns the
    smallest-numbered such frame, raises its count to 1 and changes no
    other count, and the current entry of vpn is then valid, carries the
    requested rw, names that frame and has private 0. *)
Theorem alloc_page_maps_smallest_free_frame :
  forall (nr : Z) (g : indeterminate) (s : state) (vpn rw k : Z),
    alloc_ready nr g s vpn ->
    0 <= k < 128 -> load (mapcounts s) k = Ok 0 ->
    exists s' f,
      alloc_page nr g s vpn rw = Ok (s', f) /\
      0 <= f <= k /\ load (mapcounts s) f = Ok 0 /\
      (forall k', 0 <= k' < f -> load (mapcounts s) k' <> Ok 0) /\
      mapcounts s' = <[Z.to_nat f := 1]> (mapcounts s) /\
      current_pte nr s' vpn = Ok (mk_pte true rw f 0).
Proof.
  intros nr g s vpn rw k (Hnr & Hvpn & Hm & Hg & x & Hx & Hlen & Hdir) Hk Hfree.
  destruct (alloc_page_returns nr g s vpn rw x) as (s' & f & H); try assumption.
  exists s', f. split; [exact H|].
  destruct (alloc_page_first_free _ _ _ _ _ _ _ H) as (Hf & Hz & Hmin & Hmc);
    [eauto|].
  split.
  { split; [lia|]. destruct (Z.le_gt_cases f k) as [|Hgt]; [assumption|].
    exfalso. apply (Hmin k); [lia | exact Hfree]. }
  repeat split; try assumption.
  eapply alloc_page_installed, H.
Qed.

Lemma alloc_page_maps_smallest_free_frame_witness :
  alloc_ready 16 zeroed boot 37 /\ 0 <= 9 < 128 /\ load (mapcounts boot) 9 = Ok 0 /\
  exists s' f,
    alloc_page 16 zeroed boot 37 2 = Ok (s', f) /\
    0 <= f <= 9 /\ load (mapcounts boot) f = Ok 0 /\
    (forall k', 0 <= k' < f -> load (mapcounts boot) k' <> Ok 0) /\
    mapcounts s' = <[Z.to_nat f := 1]> (mapcounts boot) /\
    current_pte 16 s' 37 = Ok (mk_pte true 2 f 0).
Proof.
  assert (R : alloc_ready 16 zeroed boot 37).
  { unfold alloc_ready. split; [lia|]. split; [lia|].
    split; [vm_compute; lia|]. split; [reflexivity|].
    eexists. split; [reflexivity|]. split; [reflexivity|].
    intros a Ha. vm_compute in Ha. discriminate. }
  split; [exact R|]. split; [lia|]. split; [reflexivity|].
  apply (alloc_page_maps_smallest_free_frame 16 zeroed boot 37 2 9 R);
    [lia | reflexivity].
Defined.

Lemma load_insert_eq {A : Type} (a : list A) (i : Z) (x y : A) :
  load a i = Ok y -> load (<[Z.to_nat i := x]> a) i = Ok x.
Proof.
  intros H. apply load_Ok in H as [H0 H].
  unfold load. destruct (Z.leb_spec 0 i); [|lia].
  rewrite list_lookup_insert_eq by (eapply lookup_lt_Some; eassumption).
  reflexivity.
Qed.

Lemma load_insert_ne {A : Type} (a : list A) (i k : Z) (x : A) :
  0 <= i -> k <> i -> load (<[Z.to_nat i := x]> a) k = load a k.
Proof.
  intros H0 Hne. unfold load. destruct (Z.leb_spec 0 k); [|reflexivity].
  rewrite list_lookup_insert_ne by lia. reflexivity.
Qed.

(** X2.  alloc_page has no failure path.  On a state where it touches only
    memory that is there and where none of the 128 frames has count 0, it
    still returns: it changes no count, installs a valid entry for vpn and
    returns, as the frame, the pfn member of its local newpte, which on
    this path no statement has assigned. *)
Theorem alloc_page_without_free_frame :
  forall (nr : Z) (g : indeterminate) (s : state) (vpn rw : Z),
    alloc_ready nr g s vpn ->
    (forall k, 0 <= k < 128 -> load (mapcounts s) k <> Ok 0) ->
    exists s',
      alloc_page nr g s vpn rw = Ok (s', pte_pfn (uninit_pte g)) /\
      mapcounts s' = mapcounts s /\
      current_pte nr s' vpn = Ok (mk_pte true rw (pte_pfn (uninit_pte g)) 0).
Proof.
  intros nr g s vpn rw (Hnr & Hvpn & Hm & Hg & x & Hx & Hlen & Hdir) Hfull.
  destruct (alloc_page_returns nr g s vpn rw x) as (s' & f & H); try assumption.
  pose proof (alloc_page_installed _ _ _ _ _ _ _ H) as Hi.
  apply alloc_page_Ok in H as H'.
  destruct H' as (d & s1 & r & s2 & e2 & Hd & H1 & Hscan & Hr & Hf & Hst).
  destruct (alloc_page_dir_step _ _ _ _ _ Hd H1) as (_ & Hm1 & _).
  apply frame_scan_spec in Hscan.
  destruct r as [[s3 e3]|[s3 e3]]; injection Hr as -> ->.
  - destruct Hscan as (-> & -> & _).
    apply store_pte_load in Hst as (_ & _ & _ & Hmc).
    subst f. exists s'. split; [exact H|]. split; [congruence | exact Hi].
  - destruct Hscan as (i & Hi' & Hz & _). exfalso.
    apply (Hfull i); [simpl in Hi'; lia|]. rewrite <- Hm1. exact Hz.
Qed.

Lemma alloc_page_without_free_frame_witness :
  alloc_ready 16 (zeroed_but_pfn 77) (set_mapcounts boot (replicate 128 1)) 37 /\
  (forall k, 0 <= k < 128 ->
             load (mapcounts (set_mapcounts boot (replicate 128 1))) k <> Ok 0) /\
  exists s',
    alloc_page 16 (zeroed_but_pfn 77) (set_mapcounts boot (replicate 128 1)) 37 2
      = Ok (s', pte_pfn (uninit_pte (zeroed_but_pfn 77))) /\
    mapcounts s' = mapcounts (set_mapcounts boot (replicate 128 1)) /\
    current_pte 16 s' 37
      = Ok (mk_pte true 2 (pte_pfn (uninit_pte (zeroed_but_pfn 77))) 0).
Proof.
  assert (R : alloc_ready 16 (zeroed_but_pfn 77)
                (set_mapcounts boot (replicate 128 1)) 37).
  { unfold alloc_ready. split; [lia|]. split; [lia|].
    split; [vm_compute; lia|]. split; [reflexivity|].
    eexists. split; [reflexivity|]. split; [reflexivity|].
    intros a Ha. vm_compute in Ha. discriminate. }
  assert (F : forall k, 0 <= k < 128 ->
                load (mapcounts (set_mapcounts boot (replicate 128 1))) k <> Ok 0).
  { intros k Hk H. apply load_Ok in H as [_ H].
    change (replicate 128 1 !! Z.to_nat k = Some 0) in H.
    apply lookup_replicate in H as [H _]. discriminate. }
  split; [exact R|]. split; [exact F|].
  exact (alloc_page_without_free_frame 16 (zeroed_but_pfn 77) _ 37 2 R F).
Defined.

(** X3.  alloc_page does not check vpn against the size of the page table:
    for a vpn of [nr * nr] or more the index into outer_ptes is outside the
    array and the call is an invalid access. *)
Theorem alloc_page_vpn_out_of_range :
  forall (nr : Z) (g : indeterminate) (s : state) (vpn rw : Z) (x : process),
    procs s !! current s = Some x ->
    length (outer_ptes (proc_pagetable x)) = Z.to_nat nr ->
    0 < nr -> nr * nr <= vpn ->
    alloc_page nr g s vpn rw = Fault.
Proof.
  intros nr g s vpn rw x Hx Hlen Hnr Hvpn.
  assert (Hd : nr <= vpn / nr) by (apply Z.div_le_lower_bound; lia).
  assert (Hl : load_outer s (current s) (vpn / nr) = Fault).
  { unfold load_outer, load_proc. rewrite Hx. simpl.
    unfold load. destruct (Z.leb_spec 0 (vpn / nr)); [|reflexivity].
    rewrite (proj2 (lookup_ge_None _ _)); [reflexivity | lia]. }
  unfold alloc_page. rewrite Hl. reflexivity.
Qed.

Lemma alloc_page_vpn_out_of_range_witness :
  procs boot !! current boot = Some (mk_process 0 empty_pagetable) /\
  length (outer_ptes (proc_pagetable (mk_process 0 empty_pagetable))) = Z.to_nat 16 /\
  0 < 16 /\ 16 * 16 <= 256 /\
  alloc_page 16 zeroed boot 256 2 = Fault.
Proof.
  split; [reflexivity|]. split; [reflexivity|]. split; [lia|]. split; [lia|].
  apply (alloc_page_vpn_out_of_range 16 zeroed boot 256 2
           (mk_process 0 empty_pagetable)); [reflexivity | reflexivity | lia | lia].
Defined.

Lemma load_outer_procs (s s' : state) (p : nat) (i : Z) :
  procs s' = procs s -> load_outer s' p i = load_outer s p i.
Proof. intros H. unfold load_outer, load_proc. rewrite H. reflexivity. Qed.

(** X4.  A call of alloc_page that returns changes, besides mapcounts and
    the directory slot of vpn, one page-table entry: the scheduler state,
    the TLB and ptbr are untouched, and every entry of every process that
    could be read before reads the same afterwards, unless it is the entry
    of index [vpn mod nr] in the directory of vpn. *)
Theorem alloc_page_keeps_other_entries :
  forall (nr : Z) (g : indeterminate) (s s' : state) (vpn rw f : Z),
    alloc_page nr g s vpn rw = Ok (s', f) ->
    same_schedule s s' /\
    forall (p : nat) (i j : Z) (e : pte),
      load_pte s p i j = Ok e ->
      j <> vpn mod nr \/ load_outer s' p i <> load_outer s' (current s) (vpn / nr) ->
      load_pte s' p i j = Ok e.
Proof.
  intros nr g s s' vpn rw f H.
  apply alloc_page_Ok in H
    as (d & s1 & r & s2 & e2 & Hd & H1 & Hscan & Hr & _ & Hst).
  destruct (alloc_page_dir_step _ _ _ _ _ Hd H1) as (Hs1 & _ & Hkeep).
  destruct (frame_scan_result _ _ _ _ _ Hscan Hr) as [m ->].
  pose proof (store_pte_schedule _ _ _ _ _ _ Hst) as Hs2.
  pose proof (store_pte_load _ _ _ _ _ _ Hst) as (_ & _ & Hp & _).
  assert (Hc : current s1 = current s) by apply Hs1.
  split.
  { eapply same_schedule_trans; [exact Hs1|].
    eapply same_schedule_trans; [|exact Hs2].
    unfold same_schedule. simpl. auto 10. }
  intros p i j e Hl Hne.
  eapply store_pte_other; [exact Hst | |].
  - rewrite load_pte_set_mapcounts. apply Hkeep, Hl.
  - destruct Hne as [Hj|Ho]; [left; exact Hj|]. right.
    rewrite <- (load_outer_procs _ s' p i Hp).
    rewrite <- (load_outer_procs _ s' _ (vpn / nr) Hp).
    simpl. rewrite Hc. exact Ho.
Qed.

Lemma alloc_page_keeps_other_entries_witness :
  exists s1 s',
    alloc_page 16 zeroed boot 5 2 = Ok (s1, 0) /\
    alloc_page 16 zeroed s1 6 1 = Ok (s', 1) /\
    same_schedule s1 s' /\
    load_pte s' 0 0 5 = Ok (mk_pte true 2 0 0).
Proof.
  eexists. eexists. split; [vm_compute; reflexivity|].
  split; [vm_compute; reflexivity|].
  match goal with
  | |- same_schedule ?s1 ?s' /\ _ =>
      destruct (alloc_page_keeps_other_entries 16 zeroed s1 s' 6 1 1 eq_refl)
        as [Hs Hk]
  end.
  split; [exact Hs|].
  apply Hk; [reflexivity|]. left. vm_compute. discriminate.
Defined.

(** X5.  Two calls of alloc_page in a row, the second of which still has a
    free frame to take, return two different frames, in increasing
    order. *)
Theorem alloc_page_twice_increasing :
  forall (nr : Z) (g g' : indeterminate) (s s1 s2 : state) (v1 rw1 f1 v2 rw2 f2 k : Z),
    alloc_page nr g s v1 rw1 = Ok (s1, f1) ->
    alloc_page nr g' s1 v2 rw2 = Ok (s2, f2) ->
    0 <= k < 128 -> load (mapcounts s1) k = Ok 0 ->
    0 <= f1 < f2 /\ f2 < 128.
Proof.
  intros nr g g' s s1 s2 v1 rw1 f1 v2 rw2 f2 k H1 H2 Hk Hfree.
  destruct (alloc_page_first_free _ _ _ _ _ _ _ H2) as (Hf2 & Hz2 & _ & _); [eauto|].
  (* a frame free after the first call was free before it *)
  assert (Hbefore : exists k0, 0 <= k0 < 128 /\ load (mapcounts s) k0 = Ok 0).
  { apply alloc_page_Ok in H1 as H1'.
    destruct H1' as (d & t1 & r & t2 & e2 & Hd & Hdir & Hscan & Hr & _ & Hst).
    destruct (alloc_page_dir_step _ _ _ _ _ Hd Hdir) as (_ & Hm1 & _).
    apply store_pte_load in Hst as (_ & _ & _ & Hmc).
    apply frame_scan_spec in Hscan.
    destruct r as [[t3 e3]|[t3 e3]]; injection Hr as -> ->.
    - destruct Hscan as (-> & _ & _). exists k. split; [exact Hk|]. congruence.
    - destruct Hscan as (i & Hi & Hz & _). exists i. simpl in Hi.
      split; [lia|]. rewrite <- Hm1. exact Hz. }
  destruct (alloc_page_first_free _ _ _ _ _ _ _ H1 Hbefore) as (Hf1 & Hz1 & Hmin & Hmc).
  rewrite Hmc in Hz2.
  split; [|lia]. split; [lia|].
  destruct (Z.lt_trichotomy f2 f1) as [Hlt|[Heq|Hgt]]; [| |exact Hgt]; exfalso.
  - rewrite load_insert_ne in Hz2 by lia. apply (Hmin f2); [lia | exact Hz2].
  - subst f2. rewrite (load_insert_eq _ _ _ _ Hz1) in Hz2. discriminate.
Qed.

Lemma alloc_page_twice_increasing_witness :
  exists s1 s2,
    alloc_page 16 zeroed boot 5 2 = Ok (s1, 0) /\
    alloc_page 16 zeroed s1 6 1 = Ok (s2, 1) /\
    0 <= 9 < 128 /\ load (mapcounts s1) 9 = Ok 0 /\
    0 <= 0 < 1 /\ 1 < 128.
Proof.
  eexists. eexists. split; [vm_compute; reflexivity|].
  split; [vm_compute; reflexivity|].
  split; [lia|]. split; [reflexivity|].
  eapply (alloc_page_twice_increasing 16 zeroed zeroed boot _ _ 5 2 0 6 1 1 9);
    [vm_compute; reflexivity | vm_compute; reflexivity | lia | reflexivity].
Defined.

(** ** free_page *)

Lemma free_page_unfold (s : state) (vpn : Z) :
  free_page s vpn =
  let* f := for_loop (R := state) 16 0
              (fun directoryidx s =>
                 for_loop (R := state) 16 0 (free_page_pte_body vpn directoryidx) s) s in
  match f with
  | Next s | Stop s => Ok s
  end.
Proof. reflexivity. Qed.

Lemma update_pte_Ok (s s' : state) (p : nat) (i j : Z) (f : pte -> pte) :
  update_pte s p i j f = Ok s' ->
  exists e,
    load_pte s p i j = Ok e /\ load_pte s' p i j = Ok (f e) /\
    procs s' = procs s /\ mapcounts s' = mapcounts s /\ same_schedule s s'.
Proof.
  intros H. pose proof (update_pte_schedule _ _ _ _ _ _ H) as Hs.
  unfold update_pte in H. bind_inv H.
  apply store_pte_load in H as (Hl & _ & Hp & Hm). eauto 10.
Qed.

Section FreePage.

Local Arguments for_loop : simpl never.

Lemma free_page_tlb_loop (vpn : Z) (s : state) g :
  for_loop (R := state) 256 0 (free_page_tlb_body vpn) s = Ok g ->
  exists s', match g with Next y | Stop y => y end = s' /\
             (exists t', s' = set_tlb s t' /\ tlb_dropped vpn (tlb s) t').
Proof.
  intros H. apply for_loop_search in H.
  2:{ clear. intros i s s' H. unfold free_page_tlb_body in H. bind_inv H.
      destruct (tlb_vpn x =? vpn).
      - bind_inv H. discriminate.
      - injection H as <-. reflexivity. }
  assert (Hnext : forall k, free_page_tlb_body vpn k s = Ok (Next s) ->
                            exists x, load (tlb s) k = Ok x /\ tlb_vpn x <> vpn).
  { intros k Hk. unfold free_page_tlb_body in Hk. bind_inv Hk.
    destruct (Z.eqb_spec (tlb_vpn x) vpn) as [Hv|Hv].
    - bind_inv Hk. discriminate.
    - eauto. }
  destruct g as [s'|s'].
  - destruct H as [-> Hall]. exists s. split; [reflexivity|].
    exists (tlb s). split; [destruct s; reflexivity|].
    left. split; [reflexivity|]. intros k Hk. apply Hnext, Hall. lia.
  - destruct H as (k & Hk & Hstop & Hbefore). exists s'. split; [reflexivity|].
    unfold free_page_tlb_body in Hstop. bind_inv Hstop.
    destruct (Z.eqb_spec (tlb_vpn x) vpn) as [Hv|Hv]; [|discriminate].
    bind_inv Hstop. injection Hstop as <-.
    apply store_Ok in E0 as [_ ->].
    eexists. split; [reflexivity|]. right.
    exists k, x. split; [lia|]. split; [assumption|]. split; [assumption|].
    split; [|rewrite Hv; reflexivity].
    intros k' Hk'. apply Hnext, Hbefore. lia.
Qed.

(** One iteration of the inner loop of free_page. *)
Lemma free_page_pte_body_spec (vpn i j : Z) (s : state) f :
  free_page_pte_body vpn i j s = Ok f ->
  exists e, load_pte s (current s) i j = Ok e /\
    match f with
    | Next s' => s' = s /\ pte_private e <> vpn
    | Stop s' =>
        pte_private e = vpn /\
        exists c t',
          load (mapcounts s) vpn = Ok c /\
          mapcounts s' = <[Z.to_nat vpn := u32 (c - 1)]> (mapcounts s) /\
          load_pte s' (current s) i j = Ok (mk_pte false 0 0 vpn) /\
          procs s' = procs s /\ current s' = current s /\
          processes s' = processes s /\ ptbr s' = ptbr s /\ tlbidx s' = tlbidx s /\
          tlb s' = t' /\ tlb_dropped vpn (tlb s) t'
    end.
Proof.
  unfold free_page_pte_body. intros H. bind_inv H. exists x. split; [exact E|].
  destruct (Z.eqb_spec (pte_private x) vpn) as [Hv|Hv].
  2:{ injection H as <-. auto. }
  bind_inv H. bind_inv H. bind_inv H. bind_inv H. bind_inv H.
  apply update_pte_Ok in E0 as (e0 & Hl0 & Hl0' & Hp0 & Hm0 & Hs0).
  assert (Hc0 : current x0 = current s) by apply Hs0.
  rewrite Hc0 in *.
  apply update_pte_Ok in E1 as (e1 & Hl1 & Hl1' & Hp1 & Hm1 & Hs1).
  assert (Hc1 : current x1 = current s) by (rewrite <- Hc0; apply Hs1).
  rewrite Hc1 in *.
  apply update_pte_Ok in E2 as (e2 & Hl2 & Hl2' & Hp2 & Hm2 & Hs2).
  rewrite E in Hl0. injection Hl0 as <-.
  rewrite Hl0' in Hl1. injection Hl1 as <-.
  rewrite Hl1' in Hl2. injection Hl2 as <-.
  apply mapcount_add_Ok in E3 as (c & Hc & Hr & ->).
  apply free_page_tlb_loop in E4 as (s5 & Hg & t' & -> & Ht).
  assert (Hres : f = Stop (set_tlb (set_mapcounts x2
                   (<[Z.to_nat vpn := u32 (c + -1)]> (mapcounts x2))) t')).
  { destruct x4; simpl in Hg; subst; injection H as <-; reflexivity. }
  subst f. split; [exact Hv|].
  pose proof (same_schedule_trans _ _ _ Hs0 (same_schedule_trans _ _ _ Hs1 Hs2))
    as (A1 & A2 & A3 & A4 & A5 & _).
  exists c, t'. simpl.
  rewrite Hm2, Hm1, Hm0 in *.
  split; [exact Hc|]. split; [reflexivity|].
  split.
  { change (load_pte x2 (current s) i j = Ok (mk_pte false 0 0 vpn)).
    rewrite Hl2'. unfold with_pfn, with_valid, with_rw. simpl. rewrite Hv. reflexivity. }
  simpl in Ht. rewrite A4 in Ht.
  repeat split; congruence.
Qed.

(** The effect of a call of free_page that returns. *)
Lemma free_page_spec (s s' : state) (vpn : Z) :
  free_page s vpn = Ok s' ->
  (s' = s /\
   forall i j, 0 <= i < 16 -> 0 <= j < 16 ->
               exists e, load_pte s (current s) i j = Ok e /\ pte_private e <> vpn) \/
  (exists i j e c t',
      0 <= i < 16 /\ 0 <= j < 16 /\
      load_pte s (current s) i j = Ok e /\ pte_private e = vpn /\
      (forall i' j', 0 <= i' < 16 -> 0 <= j' < 16 -> scanned_before i' j' i j ->
                     exists e', load_pte s (current s) i' j' = Ok e' /\
                                pte_private e' <> vpn) /\
      load (mapcounts s) vpn = Ok c /\
      mapcounts s' = <[Z.to_nat vpn := u32 (c - 1)]> (mapcounts s) /\
      load_pte s' (current s) i j = Ok (mk_pte false 0 0 vpn) /\
      procs s' = procs s /\ current s' = current s /\
      processes s' = processes s /\ ptbr s' = ptbr s /\ tlbidx s' = tlbidx s /\
      tlb s' = t' /\ tlb_dropped vpn (tlb s) t').
Proof.
  rewrite free_page_unfold. intros H. bind_inv H.
  assert (Hinner : forall i t t',
             for_loop (R := state) 16 0 (free_page_pte_body vpn i) t = Ok (Next t') ->
             t' = t /\ forall j, 0 <= j < 16 ->
                         exists e, load_pte t (current t) i j = Ok e /\
                                   pte_private e <> vpn).
  { intros i t t' Hl. apply for_loop_search in Hl.
    2:{ clear. intros j t t' Hb. apply free_page_pte_body_spec in Hb as (e & _ & -> & _).
        reflexivity. }
    destruct Hl as [-> Hall]. split; [reflexivity|]. intros j Hj.
    specialize (Hall j ltac:(lia)).
    apply free_page_pte_body_spec in Hall as (e & He & _ & Hp). eauto. }
  apply for_loop_search in E.
  2:{ intros i t t' Hl. apply Hinner in Hl as [-> _]. reflexivity. }
  destruct x as [s1|s1].
  - left. destruct E as [-> Hall]. injection H as <-. split; [reflexivity|].
    intros i j Hi Hj. specialize (Hall i ltac:(lia)).
    apply Hinner in Hall as [_ Hall]. apply Hall, Hj.
  - right. injection H as <-. destruct E as (i & Hi & Hstop & Hbefore).
    apply for_loop_search in Hstop.
    2:{ clear. intros j t t' Hb. apply free_page_pte_body_spec in Hb as (e & _ & -> & _).
        reflexivity. }
    destruct Hstop as (j & Hj & Hstop & Hbefore').
    apply free_page_pte_body_spec in Hstop as (e & He & Hv & c & t' & Hrest).
    exists i, j, e, c, t'.
    split; [lia|]. split; [lia|]. split; [exact He|]. split; [exact Hv|].
    split; [|exact Hrest].
    intros i' j' Hi' Hj' [Hlt|[-> Hlt]].
    + specialize (Hbefore i' ltac:(lia)).
      apply Hinner in Hbefore as [_ Hall]. apply Hall, Hj'.
    + specialize (Hbefore' j' ltac:(lia)).
      apply free_page_pte_body_spec in Hbefore' as (e' & He' & _ & Hp). eauto.
Qed.

End FreePage.

(** X9.  free_page picks by the private member, in scan order.  When some
    entry of the current page table has private equal to vpn and the call
    returns, the first such entry in the order of the scan has been set to
    valid false, rw 0 and pfn 0 with its private member kept,
    mapcounts[vpn] has been decremented modulo 2^32, and the scheduler
    state and every process object are as before. *)
Theorem free_page_clears_first_private_match :
  forall (s s' : state) (vpn i0 j0 : Z) (e0 : pte),
    free_page s vpn = Ok s' ->
    0 <= i0 < 16 -> 0 <= j0 < 16 ->
    load_pte s (current s) i0 j0 = Ok e0 -> pte_private e0 = vpn ->
    exists i j e c,
      0 <= i < 16 /\ 0 <= j < 16 /\
      load_pte s (current s) i j = Ok e /\ pte_private e = vpn /\
      (forall i' j', 0 <= i' < 16 -> 0 <= j' < 16 -> scanned_before i' j' i j ->
                     exists e', load_pte s (current s) i' j' = Ok e' /\
                                pte_private e' <> vpn) /\
      load_pte s' (current s) i j = Ok (mk_pte false 0 0 vpn) /\
      load (mapcounts s) vpn = Ok c /\
      mapcounts s' = <[Z.to_nat vpn := u32 (c - 1)]> (mapcounts s) /\
      procs s' = procs s /\ current s' = current s /\
      processes s' = processes s /\ ptbr s' = ptbr s /\ tlbidx s' = tlbidx s.
Proof.
  intros s s' vpn i0 j0 e0 H Hi0 Hj0 Hl0 Hp0.
  apply free_page_spec in H as [[_ Hnone]|H].
  - exfalso. destruct (Hnone i0 j0 Hi0 Hj0) as (e & He & Hne). congruence.
  - destruct H as (i & j & e & c & t' & Hi & Hj & He & Hp & Hbefore & Hc & Hm & Hl
                   & A1 & A2 & A3 & A4 & A5 & _).
    exists i, j, e, c. repeat split; try assumption; lia.
Qed.

Lemma free_page_clears_first_private_match_witness :
  exists s s',
    two_pages_forked = Ok s /\
    free_page s 1 = Ok s' /\
    0 <= 0 < 16 /\ 0 <= 1 < 16 /\
    load_pte s (current s) 0 1 = Ok (mk_pte true 1 1 1) /\
    pte_private (mk_pte true 1 1 1) = 1 /\
    exists i j e c,
      0 <= i < 16 /\ 0 <= j < 16 /\
      load_pte s (current s) i j = Ok e /\ pte_private e = 1 /\
      (forall i' j', 0 <= i' < 16 -> 0 <= j' < 16 -> scanned_before i' j' i j ->
                     exists e', load_pte s (current s) i' j' = Ok e' /\
                                pte_private e' <> 1) /\
      load_pte s' (current s) i j = Ok (mk_pte false 0 0 1) /\
      load (mapcounts s) 1 = Ok c /\
      mapcounts s' = <[Z.to_nat 1 := u32 (c - 1)]> (mapcounts s) /\
      procs s' = procs s /\ current s' = current s /\
      processes s' = processes s /\ ptbr s' = ptbr s /\ tlbidx s' = tlbidx s.
Proof.
  eexists. eexists. split; [vm_compute; reflexivity|].
  split; [vm_compute; reflexivity|].
  split; [lia|]. split; [lia|]. split; [reflexivity|]. split; [reflexivity|].
  eapply (free_page_clears_first_private_match _ _ 1 0 1 (mk_pte true 1 1 1));
    [vm_compute; reflexivity | lia | lia | reflexivity | reflexivity].
Defined.

(** X10.  A call of free_page that finds no entry with private equal to vpn
    returns only after reading all 256 entries, so only when all 16
    directories of the current process are present, and it then leaves the
    state as it was. *)
Theorem free_page_without_match :
  forall (s s' : state) (vpn : Z),
    free_page s vpn = Ok s' ->
    (forall i j e, 0 <= i < 16 -> 0 <= j < 16 ->
                   load_pte s (current s) i j = Ok e -> pte_private e <> vpn) ->
    s' = s /\
    forall i, 0 <= i < 16 -> exists a, load_outer s (current s) i = Ok (Addr a).
Proof.
  intros s s' vpn H Hno.
  apply free_page_spec in H as [[-> Hall]|H].
  - split; [reflexivity|]. intros i Hi.
    destruct (Hall i 0 Hi ltac:(lia)) as (e & He & _).
    apply load_pte_Ok in He as (a & _ & Ho & _). eauto.
  - exfalso. destruct H as (i & j & e & _ & _ & Hi & Hj & He & Hp & _).
    exact (Hno i j e Hi Hj He Hp).
Qed.

(** X11.  free_page reads the directories in order without testing for NULL:
    when a directory of the current process is absent and no entry of the
    directories before it has private equal to vpn, the call is an invalid
    access, whether or not vpn is mapped. *)
Theorem free_page_missing_directory :
  forall (s : state) (vpn i : Z),
    0 <= i < 16 ->
    load_outer s (current s) i = Ok NULL ->
    (forall i' j' e', 0 <= i' < i -> 0 <= j' < 16 ->
                      load_pte s (current s) i' j' = Ok e' -> pte_private e' <> vpn) ->
    free_page s vpn = Fault.
Proof.
  intros s vpn i Hi Hnull Hno.
  assert (Hbad : forall j, ~ exists e, load_pte s (current s) i j = Ok e).
  { intros j [e He]. apply load_pte_Ok in He as (a & _ & Ho & _). congruence. }
  destruct (free_page s vpn) as [s'|] eqn:H; [exfalso | reflexivity].
  apply free_page_spec in H as [[_ Hall]|H].
  - destruct (Hall i 0 Hi ltac:(lia)) as (e & He & _). apply (Hbad 0). eauto.
  - destruct H as (i1 & j1 & e & _ & _ & Hi1 & Hj1 & He & Hp & Hbefore & _).
    destruct (Z.lt_trichotomy i1 i) as [Hlt|[->|Hgt]].
    + exact (Hno i1 j1 e ltac:(lia) Hj1 He Hp).
    + apply (Hbad j1). eauto.
    + destruct (Hbefore i 0 Hi ltac:(lia)) as (e' & He' & _); [left; exact Hgt|].
      apply (Hbad 0). eauto.
Qed.

Lemma below_16 (z : Z) :
  0 <= z < 16 ->
  z = 0 \/ z = 1 \/ z = 2 \/ z = 3 \/ z = 4 \/ z = 5 \/ z = 6 \/ z = 7 \/
  z = 8 \/ z = 9 \/ z = 10 \/ z = 11 \/ z = 12 \/ z = 13 \/ z = 14 \/ z = 15.
Proof. lia. Qed.

Ltac split_below_16 H :=
  apply below_16 in H;
  repeat (destruct H as [H|H]); subst.

Lemma free_page_without_match_witness :
  exists s,
    sixteen_directories = Ok s /\
    free_page s 5 = Ok s /\
    (forall i j e, 0 <= i < 16 -> 0 <= j < 16 ->
                   load_pte s (current s) i j = Ok e -> pte_private e <> 5) /\
    s = s /\
    forall i, 0 <= i < 16 -> exists a, load_outer s (current s) i = Ok (Addr a).
Proof.
  eexists. split; [vm_compute; reflexivity|].
  split; [vm_compute; reflexivity|].
  match goal with
  | |- ?A /\ _ => assert (Hno : A)
  end.
  { intros i j e Hi Hj Hl.
    split_below_16 Hi; split_below_16 Hj;
      vm_compute in Hl; injection Hl as <-; vm_compute; discriminate. }
  split; [exact Hno|].
  eapply (free_page_without_match _ _ 5); [vm_compute; reflexivity | exact Hno].
Defined.

Lemma free_page_missing_directory_witness :
  exists s,
    alloc_range 1 1 boot = Ok s /\
    0 <= 1 < 16 /\
    load_outer s (current s) 1 = Ok NULL /\
    (forall i' j' e', 0 <= i' < 1 -> 0 <= j' < 16 ->
                      load_pte s (current s) i' j' = Ok e' -> pte_private e' <> 1) /\
    free_page s 1 = Fault.
Proof.
  eexists. split; [vm_compute; reflexivity|].
  split; [lia|]. split; [reflexivity|].
  match goal with
  | |- ?A /\ _ => assert (Hno : A)
  end.
  { intros i j e Hi Hj Hl. assert (i = 0) by lia. subst i.
    split_below_16 Hj;
      vm_compute in Hl; injection Hl as <-; vm_compute; discriminate. }
  split; [exact Hno|].
  apply (free_page_missing_directory _ 1 1); [lia | reflexivity | exact Hno].
Defined.

(** X12.  A free_page that picked an entry has not made itself a no-op: the
    entry it cleared keeps private equal to vpn, so a second free_page(vpn)
    that returns picks an entry again and decrements mapcounts[vpn] a
    second time. *)
Theorem free_page_twice_decrements_twice :
  forall (s s1 s2 : state) (vpn i0 j0 : Z) (e0 : pte),
    0 <= i0 < 16 -> 0 <= j0 < 16 ->
    load_pte s (current s) i0 j0 = Ok e0 -> pte_private e0 = vpn ->
    free_page s vpn = Ok s1 ->
    free_page s1 vpn = Ok s2 ->
    exists c,
      load (mapcounts s) vpn = Ok c /\
      load (mapcounts s1) vpn = Ok (u32 (c - 1)) /\
      load (mapcounts s2) vpn = Ok (u32 (u32 (c - 1) - 1)).
Proof.
  intros s s1 s2 vpn i0 j0 e0 Hi0 Hj0 Hl0 Hp0 H1 H2.
  apply free_page_spec in H1 as [[_ Hnone]|H1].
  { exfalso. destruct (Hnone i0 j0 Hi0 Hj0) as (e & He & Hne). congruence. }
  destruct H1 as (i & j & e & c & t' & Hi & Hj & He & Hp & _ & Hc & Hm & Hl
                  & _ & Hcur & _).
  assert (Hc1 : load (mapcounts s1) vpn = Ok (u32 (c - 1))).
  { rewrite Hm. eapply load_insert_eq, Hc. }
  apply free_page_spec in H2 as [[_ Hnone]|H2].
  { exfalso. destruct (Hnone i j Hi Hj) as (e' & He' & Hne).
    rewrite Hcur, Hl in He'. injection He' as <-. apply Hne. reflexivity. }
  destruct H2 as (_ & _ & _ & c' & _ & _ & _ & _ & _ & _ & Hc' & Hm' & _).
  rewrite Hc1 in Hc'. injection Hc' as <-.
  exists c. split; [exact Hc|]. split; [exact Hc1|].
  rewrite Hm'. eapply load_insert_eq, Hc1.
Qed.

Lemma free_page_twice_decrements_twice_witness :
  exists s s1 s2,
    two_pages_forked = Ok s /\
    0 <= 0 < 16 /\ 0 <= 1 < 16 /\
    load_pte s (current s) 0 1 = Ok (mk_pte true 1 1 1) /\
    pte_private (mk_pte true 1 1 1) = 1 /\
    free_page s 1 = Ok s1 /\
    free_page s1 1 = Ok s2 /\
    exists c,
      load (mapcounts s) 1 = Ok c /\
      load (mapcounts s1) 1 = Ok (u32 (c - 1)) /\
      load (mapcounts s2) 1 = Ok (u32 (u32 (c - 1) - 1)).
Proof.
  eexists. eexists. eexists. split; [vm_compute; reflexivity|].
  split; [lia|]. split; [lia|]. split; [reflexivity|]. split; [reflexivity|].
  split; [vm_compute; reflexivity|]. split; [vm_compute; reflexivity|].
  eapply (free_page_twice_decrements_twice _ _ _ 1 0 1 (mk_pte true 1 1 1));
    [lia | lia | reflexivity | reflexivity
     | vm_compute; reflexivity | vm_compute; reflexivity].
Defined.

(** X13.  free_page drops one TLB entry at most.  When two of the 256 TLB
    entries carry vpn, as insert_tlb leaves them after two insertions for
    the same page, a free_page(vpn) that returns leaves the second one as
    it was, and a lookup_tlb that matches it still hits. *)
Theorem free_page_leaves_second_tlb_entry :
  forall (s s' : state) (vpn rw cell : Z) (k1 k2 : nat) (x1 x2 : tlb_entry),
    free_page s vpn = Ok s' ->
    (k1 < k2 < 256)%nat ->
    tlb s !! k1 = Some x1 -> tlb_vpn x1 = vpn ->
    tlb s !! k2 = Some x2 -> tlb_match vpn rw x2 = true ->
    tlb s' !! k2 = Some x2 /\ lookup_tlb s' vpn rw cell = Ok (true, cell).
Proof.
  intros s s' vpn rw cell k1 k2 x1 x2 H Hk H1 Hv1 H2 Hm.
  assert (Hk2 : tlb s' !! k2 = Some x2).
  { apply free_page_spec in H as [[-> _]|H]; [exact H2|].
    destruct H as (_ & _ & _ & _ & t' & _ & _ & _ & _ & _ & _ & _ & _ & _ & _ & _
                   & _ & _ & Ht & Hd).
    rewrite Ht. destruct Hd as [[-> _]|(k & x & Hkr & Hx & Hv & Hbefore & ->)];
      [exact H2|].
    (* the entry dropped is at or before the first entry of vpn *)
    assert (Hle : k <= Z.of_nat k1).
    { destruct (Z.le_gt_cases k (Z.of_nat k1)) as [|Hgt]; [assumption|].
      destruct (Hbefore (Z.of_nat k1) ltac:(lia)) as (x' & Hx' & Hne).
      rewrite load_of_nat, H1 in Hx'. injection Hx' as <-. contradiction. }
    rewrite list_lookup_insert_ne by lia. exact H2. }
  split; [exact Hk2|].
  apply (lookup_tlb_hit s' vpn rw cell k2 x2); [lia | exact Hk2 | exact Hm].
Qed.

Lemma free_page_leaves_second_tlb_entry_witness :
  exists s0 s1 s s',
    two_pages_forked = Ok s0 /\
    insert_tlb s0 1 1 1 = Ok s1 /\ insert_tlb s1 1 2 1 = Ok s /\
    free_page s 1 = Ok s' /\
    (0 < 1 < 256)%nat /\
    tlb s !! 0%nat = Some (mk_tlb_entry true 1 1 1) /\
    tlb_vpn (mk_tlb_entry true 1 1 1) = 1 /\
    tlb s !! 1%nat = Some (mk_tlb_entry true 1 2 1) /\
    tlb_match 1 2 (mk_tlb_entry true 1 2 1) = true /\
    tlb s' !! 1%nat = Some (mk_tlb_entry true 1 2 1) /\
    lookup_tlb s' 1 2 0 = Ok (true, 0).
Proof.
  eexists. eexists. eexists. eexists.
  split; [vm_compute; reflexivity|]. split; [vm_compute; reflexivity|].
  split; [vm_compute; reflexivity|].
  match goal with
  | |- free_page ?s 1 = _ /\ _ =>
      pose proof (free_page_leaves_second_tlb_entry s) as W
  end.
  split; [vm_compute; reflexivity|].
  split; [lia|]. split; [reflexivity|]. split; [reflexivity|].
  split; [reflexivity|]. split; [reflexivity|].
  apply (W _ 1 2 0 0%nat 1%nat (mk_tlb_entry true 1 1 1) (mk_tlb_entry true 1 2 1));
    [vm_compute; reflexivity | lia | reflexivity | reflexivity
     | reflexivity | reflexivity].
Defined.

(** ** The fork of switch_process *)

Lemma switch_process_fork_unfold (nr ar aw : Z) (g : indeterminate) (s : state) (pid : Z) :
  find_process s (processes s) pid = Ok None ->
  switch_process nr ar aw g s pid =
  let newprocess := length (procs s) in
  let s := set_procs s (procs s ++
             [mk_process pid (proc_pagetable (malloc_process g))]) in
  let* f := for_loop (R := Empty_set) (Z.to_nat nr) 0
              (fork_dir_body nr ar aw g newprocess) s in
  match f with
  | Next s =>
      let s := set_processes s (list_add (current s) (processes s)) in
      Ok (set_current s newprocess)
  | Stop r => match r with end
  end.
Proof. intros H. unfold switch_process. rewrite H. reflexivity. Qed.

(** A property of the state and of the loop index that every iteration
    carries to the next index holds when the loop is left. *)
Lemma for_loop_inv_index {S : Type} (P : Z -> S -> Prop)
      (body : Z -> S -> result (flow S Empty_set)) :
  forall n i0,
    (forall i s s', i0 <= i < i0 + Z.of_nat n -> P i s ->
                    body i s = Ok (Next s') -> P (i + 1) s') ->
    forall s s', P i0 s -> for_loop n i0 body s = Ok (Next s') ->
                 P (i0 + Z.of_nat n) s'.
Proof.
  induction n as [|n IH]; intros i0 Hbody s s' HP H.
  - injection H as <-. replace (i0 + Z.of_nat 0) with i0 by lia. exact HP.
  - rewrite for_loop_S in H. bind_inv H. destruct x as [s1|[]].
    replace (i0 + Z.of_nat (Datatypes.S n)) with (i0 + 1 + Z.of_nat n) by lia.
    eapply IH; [|eapply Hbody; [lia | exact HP | exact E] | exact H].
    intros i t t' Hi. apply Hbody. lia.
Qed.

Lemma load_pte_same_ptr (s : state) (p p' : nat) (i i' j : Z) :
  load_outer s p' i' = load_outer s p i ->
  load_pte s p' i' j = load_pte s p i j.
Proof. intros H. unfold load_pte. rewrite H. reflexivity. Qed.

Lemma update_pte_outer (s s' : state) (p p' : nat) (i i' j : Z) (f : pte -> pte) :
  update_pte s p i j f = Ok s' -> load_outer s' p' i' = load_outer s p' i'.
Proof.
  intros H. apply update_pte_Ok in H as (_ & _ & _ & Hp & _).
  apply load_outer_procs, Hp.
Qed.

Lemma update_pte_same (s s' : state) (p p' : nat) (i i' j : Z) (f : pte -> pte) (e : pte) :
  update_pte s p i j f = Ok s' ->
  load_outer s p' i' = load_outer s p i ->
  load_pte s p' i' j = Ok e ->
  load_pte s' p' i' j = Ok (f e).
Proof.
  intros H Ho Hl.
  pose proof (update_pte_outer _ _ _ p' i i' _ _ H) as Ho1.
  pose proof (update_pte_outer _ _ _ p i i _ _ H) as Ho2.
  apply update_pte_Ok in H as (e0 & Hl0 & Hl0' & _).
  rewrite (load_pte_same_ptr s p p' i i' j Ho) in Hl.
  rewrite Hl0 in Hl. injection Hl as ->.
  rewrite (load_pte_same_ptr s' p p' i i' j); [exact Hl0'|]. congruence.
Qed.

Lemma update_pte_other (s s' : state) (p p' : nat) (i i' j j' : Z) (f : pte -> pte)
      (e : pte) :
  update_pte s p i j f = Ok s' ->
  load_pte s p' i' j' = Ok e ->
  j' <> j \/ load_outer s p' i' <> load_outer s p i ->
  load_pte s' p' i' j' = Ok e.
Proof.
  unfold update_pte. intros H Hl Hne. bind_inv H.
  eapply store_pte_other; eassumption.
Qed.

(** Whether an update reaches the entry or not, an entry that was valid
    is valid afterwards and names the same frame, when the update changes
    neither. *)
Lemma update_pte_any (s s' : state) (p p' : nat) (i i' j j' : Z) (f : pte -> pte)
      (e : pte) :
  update_pte s p i j f = Ok s' ->
  load_pte s p' i' j' = Ok e ->
  load_pte s' p' i' j' = Ok e \/ load_pte s' p' i' j' = Ok (f e).
Proof.
  intros H Hl.
  destruct (Z.eq_dec j' j) as [->|Hj].
  - destruct (load_outer s p' i') as [d'|] eqn:E'.
    + destruct (load_outer s p i) as [d|] eqn:E.
      * destruct d' as [|a'], d as [|a];
          try (left; eapply update_pte_other; [exact H | exact Hl | right; congruence]).
        -- right. eapply update_pte_same; [exact H | congruence | exact Hl].
        -- destruct (decide (a' = a)) as [->|Ha].
           ++ right. eapply update_pte_same; [exact H | congruence | exact Hl].
           ++ left. eapply update_pte_other; [exact H | exact Hl | right; congruence].
      * left. eapply update_pte_other; [exact H | exact Hl | right; congruence].
    + unfold load_pte in Hl. rewrite E' in Hl. discriminate.
  - left. eapply update_pte_other; [exact H | exact Hl | left; exact Hj].
Qed.

Lemma same_layout_trans (t1 t2 t3 : state) :
  same_layout t1 t2 -> same_layout t2 t3 -> same_layout t1 t3.
Proof.
  unfold same_layout. intros (A & B & C) (A' & B' & C'). repeat split; congruence.
Qed.

Lemma store_pte_layout (s s' : state) (p : nat) (i j : Z) (v : pte) :
  store_pte s p i j v = Ok s' -> same_layout s s'.
Proof.
  intros H. apply store_pte_Ok in H as (a & dir & l & _ & _ & _ & ->).
  unfold same_layout. simpl. rewrite length_insert. auto.
Qed.

Lemma update_pte_layout (s s' : state) (p : nat) (i j : Z) (f : pte -> pte) :
  update_pte s p i j f = Ok s' -> same_layout s s'.
Proof.
  unfold update_pte. intros H. bind_inv H. eapply store_pte_layout, H.
Qed.

Lemma mapcount_add_layout (s s' : state) (k delta : Z) :
  mapcount_add s k delta = Ok s' ->
  same_layout s s' /\ forall p i j, load_pte s' p i j = load_pte s p i j.
Proof.
  intros H. apply mapcount_add_Ok in H as (c & _ & _ & ->).
  split; [unfold same_layout; simpl; auto | reflexivity].
Qed.

Lemma same_layout_outer (t t' : state) (p : nat) (i : Z) :
  same_layout t t' -> load_outer t' p i = load_outer t p i.
Proof. intros (_ & Hp & _). apply load_outer_procs, Hp. Qed.

(** Appending a fresh directory and pointing slot [i] of process [p] to it
    hides no entry reached through another slot. *)
Lemma store_outer_append (t t1 : state) (p : nat) (i : Z) (fresh : pte_directory) :
  store_outer (set_dirs t (dirs t ++ [fresh])) p i (Addr (length (dirs t))) = Ok t1 ->
  current t1 = current t /\ mapcounts t1 = mapcounts t /\
  dirs t1 = dirs t ++ [fresh] /\
  load_outer t1 p i = Ok (Addr (length (dirs t))) /\
  (forall p', p' <> p -> procs t1 !! p' = procs t !! p') /\
  (forall p' i', p' <> p \/ i' <> i -> load_outer t1 p' i' = load_outer t p' i') /\
  (forall p' i' j' e, p' <> p \/ i' <> i ->
                      load_pte t p' i' j' = Ok e -> load_pte t1 p' i' j' = Ok e).
Proof.
  intros H. apply store_outer_Ok in H as (x & o & Hx & Ho & ->). simpl in Hx.
  assert (Hout : forall p' i', p' <> p \/ i' <> i ->
            load_outer (set_procs (set_dirs t (dirs t ++ [fresh]))
                          (<[p := mk_process (proc_pid x) (mk_pagetable o)]>
                             (procs (set_dirs t (dirs t ++ [fresh]))))) p' i'
            = load_outer t p' i').
  { intros p' i' Hne. unfold load_outer, load_proc. simpl.
    destruct (decide (p' = p)) as [->|Hp].
    - destruct Hne as [Hne|Hne]; [contradiction|].
      rewrite list_lookup_insert_eq by (eapply lookup_lt_Some; eassumption).
      rewrite Hx. simpl. apply store_Ok in Ho as [Hr ->].
      unfold load. destruct (Z.leb_spec 0 i'); [|reflexivity].
      rewrite list_lookup_insert_ne by lia. reflexivity.
    - rewrite list_lookup_insert_ne by congruence. reflexivity. }
  split; [reflexivity|]. split; [reflexivity|]. split; [reflexivity|]. split.
  { unfold load_outer, load_proc. simpl.
    rewrite list_lookup_insert_eq by (eapply lookup_lt_Some; eassumption).
    simpl. eapply load_store_eq, Ho. }
  split.
  { intros p' Hp. simpl. apply list_lookup_insert_ne. congruence. }
  split; [exact Hout|].
  intros p' i' j' e Hne Hl.
  apply load_pte_Ok in Hl as (a & dir & Hoa & Hd & Hl).
  unfold load_pte. rewrite (Hout p' i' Hne), Hoa. simpl.
  rewrite lookup_app_l by (eapply lookup_lt_Some; eassumption).
  rewrite Hd. exact Hl.
Qed.

(** The steps of one iteration of the inner loop of the fork on a valid
    entry, when ACCESS_READ is not 0. *)
Lemma fork_pte_body_valid (nr ar aw : Z) (g : indeterminate) (np : nat) (i j : Z)
      (t t' : state) (x : pte) :
  ar <> 0 ->
  load_pte t (current t) i j = Ok x -> pte_valid x = true ->
  fork_pte_body nr ar aw g np i j t = Ok (Next t') ->
  exists t1 t2 t3,
    update_pte t (current t) i j (with_rw ar) = Ok t1 /\
    update_pte t1 (current t) i j (with_private 1) = Ok t2 /\
    load_pte t2 (current t) i j = Ok (mk_pte true ar (pte_pfn x) 1) /\
    store_pte t2 np i j (mk_pte true ar (pte_pfn x) 1) = Ok t3 /\
    mapcount_add t3 (i * nr + j) 1 = Ok t'.
Proof.
  intros Har Hx Hv H. unfold fork_pte_body in H.
  rewrite Hx in H. cbn [bind] in H. rewrite Hv in H.
  apply bind_Ok in H as ([t2 newpte] & E1 & H).
  assert (Hft : negb (fork_test ar aw (pte_rw x) =? 0) = true).
  { destruct (Z.eqb_spec (fork_test ar aw (pte_rw x)) 0) as [Hz|]; [|reflexivity].
    exfalso. exact (fork_test_nonzero _ _ _ Har Hz). }
  rewrite Hft in E1. bind_inv E1. bind_inv E1. injection E1 as <- <-.
  pose proof (update_pte_layout _ _ _ _ _ _ E) as (Hc1 & _).
  pose proof (update_pte_layout _ _ _ _ _ _ E0) as (Hc2 & _).
  rewrite Hc1 in E0. rewrite Hc2, Hc1 in H.
  bind_inv H. bind_inv H. bind_inv H. injection H as <-.
  pose proof (update_pte_Ok _ _ _ _ _ _ E) as (e0 & Hl0 & Hl0' & _).
  rewrite Hx in Hl0. injection Hl0 as <-.
  pose proof (update_pte_Ok _ _ _ _ _ _ E0) as (e1 & Hl1 & Hl1' & _).
  rewrite Hl0' in Hl1. injection Hl1 as <-.
  rewrite Hl1' in E1. injection E1 as <-.
  assert (Hsh : with_private 1 (with_rw ar x) = mk_pte true ar (pte_pfn x) 1).
  { unfold with_private, with_rw. simpl. rewrite Hv. reflexivity. }
  rewrite Hsh in *.
  exists x0, x1, x3. repeat split; assumption.
Qed.

(** An iteration of the inner loop of the fork leaves every entry it does
    not copy into valid if it was, with the frame it named; an entry that
    is already read-only and marked is left as it is. *)
Lemma fork_pte_body_keeps (nr ar aw : Z) (g : indeterminate) (np : nat) (i j : Z)
      (t t' : state) :
  fork_pte_body nr ar aw g np i j t = Ok (Next t') ->
  same_layout t t' /\
  forall p' i' j' y,
    load_pte t p' i' j' = Ok y ->
    j' <> j \/ load_outer t p' i' <> load_outer t np i ->
    exists y',
      load_pte t' p' i' j' = Ok y' /\
      pte_valid y' = pte_valid y /\ pte_pfn y' = pte_pfn y /\
      (pte_rw y = ar -> pte_private y = 1 -> y' = y).
Proof.
  intros H. unfold fork_pte_body in H. bind_inv H.
  assert (Hrefl : same_layout t t) by (unfold same_layout; auto).
  assert (Hid : forall p' i' j' y,
             load_pte t p' i' j' = Ok y ->
             exists y', load_pte t p' i' j' = Ok y' /\
                        pte_valid y' = pte_valid y /\ pte_pfn y' = pte_pfn y /\
                        (pte_rw y = ar -> pte_private y = 1 -> y' = y)).
  { intros p' i' j' y Hy. exists y. auto. }
  destruct (pte_valid x).
  2:{ injection H as <-. split; [exact Hrefl|]. intros. eapply Hid; eassumption. }
  apply bind_Ok in H as ([t2 newpte] & E1 & H).
  bind_inv H. bind_inv H. bind_inv H. injection H as <-.
  (* the state [t2] after the test of the rw member *)
  assert (H2 : same_layout t t2 /\
               forall p' i' j' y,
                 load_pte t p' i' j' = Ok y ->
                 exists y', load_pte t2 p' i' j' = Ok y' /\
                            pte_valid y' = pte_valid y /\ pte_pfn y' = pte_pfn y /\
                            (pte_rw y = ar -> pte_private y = 1 -> y' = y)).
  { destruct (negb _).
    - apply bind_Ok in E1 as (u1 & U1 & E1).
      apply bind_Ok in E1 as (u2 & U2 & E1). injection E1 as <- _.
      split.
      { eapply same_layout_trans; eapply update_pte_layout; eassumption. }
      intros p' i' j' y Hy.
      destruct (update_pte_any _ _ _ p' _ i' _ j' _ y U1 Hy) as [Hy1|Hy1];
        destruct (update_pte_any _ _ _ p' _ i' _ j' _ _ U2 Hy1) as [Hy2|Hy2];
        eexists; (split; [exact Hy2|]); simpl; repeat split; try reflexivity;
        intros Hrw Hpr; destruct y as [v r f q]; simpl in *; subst; reflexivity.
    - bind_inv E1. injection E1 as <- _. split; [exact Hrefl | exact Hid]. }
  destruct H2 as [Hlay2 Hkeep2].
  pose proof (store_pte_layout _ _ _ _ _ _ E2) as Hlay3.
  destruct (mapcount_add_layout _ _ _ _ E3) as [Hlay4 Hload4].
  split.
  { eapply same_layout_trans; [exact Hlay2|].
    eapply same_layout_trans; eassumption. }
  intros p' i' j' y Hy Hne.
  destruct (Hkeep2 p' i' j' y Hy) as (y' & Hy' & Hrest).
  exists y'. split; [|exact Hrest].
  rewrite Hload4. eapply store_pte_other; [exact E2 | exact Hy' |].
  destruct Hne as [Hne|Hne]; [left; exact Hne|]. right.
  rewrite !(same_layout_outer _ _ _ _ Hlay2). exact Hne.
Qed.

(** The counts after one iteration of the inner loop of the fork: only the
    count at the page index [i * nr + j] can change, it goes up by one
    (modulo 2^32) when the entry is valid, and nothing at all changes when
    the entry is not valid. *)
Lemma fork_pte_body_counts (nr ar aw : Z) (g : indeterminate) (np : nat) (i j : Z)
      (t t' : state) :
  fork_pte_body nr ar aw g np i j t = Ok (Next t') ->
  (forall k, k <> i * nr + j -> load (mapcounts t') k = load (mapcounts t) k) /\
  exists x, load_pte t (current t) i j = Ok x /\
    if pte_valid x
    then exists c, load (mapcounts t) (i * nr + j) = Ok c /\
                   load (mapcounts t') (i * nr + j) = Ok (u32 (c + 1))
    else t' = t.
Proof.
  intros H. unfold fork_pte_body in H. bind_inv H.
  destruct (pte_valid x) eqn:Hv.
  2:{ injection H as <-. split; [reflexivity|]. exists x. rewrite Hv. auto. }
  apply bind_Ok in H as ([t2 newpte] & E1 & H).
  bind_inv H. bind_inv H. bind_inv H. injection H as <-.
  assert (Hm2 : mapcounts t2 = mapcounts t).
  { destruct (negb _).
    - apply bind_Ok in E1 as (u1 & U1 & E1).
      apply bind_Ok in E1 as (u2 & U2 & E1). injection E1 as <- _.
      apply update_pte_Ok in U1 as (_ & _ & _ & _ & M1 & _).
      apply update_pte_Ok in U2 as (_ & _ & _ & _ & M2 & _). congruence.
    - bind_inv E1. injection E1 as <- _. reflexivity. }
  apply store_pte_load in E2 as (_ & _ & _ & Hm3).
  apply mapcount_add_Ok in E3 as (c & Hc & Hr & ->). simpl.
  rewrite Hm3, Hm2 in *.
  split.
  - intros k Hk. apply load_insert_ne; [lia | exact Hk].
  - exists x. split; [exact E|]. rewrite Hv.
    exists c. split; [exact Hc|]. eapply load_insert_eq, Hc.
Qed.

(** A page index has one directory index and one entry index. *)
Lemma page_index_unique (nr i j i' j' : Z) :
  0 <= j < nr -> 0 <= j' < nr -> i * nr + j = i' * nr + j' -> i = i' /\ j = j'.
Proof.
  intros Hj Hj' H.
  assert (i = i') by nia. subst. split; [reflexivity | lia].
Qed.

Section ForkShares.

Variables (nr ar aw : Z) (g : indeterminate) (s : state) (xc : process).
Variables (istar jstar : Z) (estar : pte).

Hypothesis Har : ar <> 0.
Hypothesis Hxc : procs s !! current s = Some xc.
Hypothesis Hwf : forall (i a : nat),
    outer_ptes (proc_pagetable xc) !! i = Some (Addr a) -> (a < length (dirs s))%nat.
Hypothesis Hi : 0 <= istar < nr.
Hypothesis Hj : 0 <= jstar < nr.
Hypothesis Hl : load_pte s (current s) istar jstar = Ok estar.
Hypothesis Hv : pte_valid estar = true.

Local Abbreviation np := (length (procs s)).
Local Abbreviation BASE := (fork_base s xc istar jstar estar).
Local Abbreviation DONE := (fork_done ar s istar jstar estar).
Local Abbreviation INNER := (fork_inner ar s xc istar jstar estar).
Local Abbreviation shared := (mk_pte true ar (pte_pfn estar) 1).

Lemma fork_cur_lt : (current s < np)%nat.
Proof. eapply lookup_lt_Some, Hxc. Qed.

(** The directories of the parent are blocks that were there before. *)
Lemma fork_parent_ptr (t : state) (i : Z) (a : nat) :
  BASE t -> load_outer t (current s) i = Ok (Addr a) -> (a < length (dirs s))%nat.
Proof.
  intros (_ & Hx & _) Ho. unfold load_outer, load_proc in Ho.
  rewrite Hx in Ho. simpl in Ho. apply load_Ok in Ho as [_ Ho].
  eapply Hwf, Ho.
Qed.

Lemma fork_parent_child_ptr (t : state) (i i' : Z) (c : nat) :
  BASE t -> (length (dirs s) <= c)%nat ->
  load_outer t np i = Ok (Addr c) ->
  forall e j, load_pte t (current s) i' j = Ok e ->
              load_outer t (current s) i' <> load_outer t np i.
Proof.
  intros HB Hc Ho e j He Heq.
  apply load_pte_Ok in He as (a & _ & Ha & _).
  pose proof (fork_parent_ptr t i' a HB Ha) as Hlt.
  rewrite Ha, Ho in Heq. injection Heq as ->. lia.
Qed.

Lemma fork_base_layout (t t' : state) :
  same_layout t t' ->
  (exists e', load_pte t' (current s) istar jstar = Ok e' /\
              pte_valid e' = true /\ pte_pfn e' = pte_pfn estar) ->
  BASE t -> BASE t'.
Proof.
  intros (Lc & Lp & Ld) Hpre (Bc & Bx & Bl & _).
  unfold fork_base. rewrite Lc, Lp, Ld. auto.
Qed.

Lemma fork_pte_step (i : Z) (c : nat) (j : Z) (t t' : state) :
  INNER i c j t ->
  fork_pte_body nr ar aw g np i j t = Ok (Next t') ->
  INNER i c (j + 1) t'.
Proof.
  intros (HB & Hc & HLc & Hprev & Hsame) H.
  pose proof HB as (Bcur & Bxc & Blen & e' & Be & Bv & Bp).
  destruct (fork_pte_body_keeps _ _ _ _ _ _ _ _ _ H) as [Hlay Hkeep].
  assert (Hc' : load_outer t' np i = Ok (Addr c)).
  { rewrite (same_layout_outer _ _ _ _ Hlay). exact Hc. }
  (* an entry of the parent is not the one the iteration writes for the child *)
  assert (Hpar : forall i0 j0 y,
             load_pte t (current s) i0 j0 = Ok y ->
             exists y', load_pte t' (current s) i0 j0 = Ok y' /\
                        pte_valid y' = pte_valid y /\ pte_pfn y' = pte_pfn y /\
                        (pte_rw y = ar -> pte_private y = 1 -> y' = y)).
  { intros i0 j0 y Hy. apply (Hkeep _ _ _ _ Hy). right.
    exact (fork_parent_child_ptr t i i0 c HB HLc Hc _ _ Hy). }
  assert (HB' : BASE t').
  { apply (fork_base_layout t t' Hlay); [|exact HB].
    destruct (Hpar _ _ _ Be) as (y' & Hy' & Hv' & Hp' & _).
    exists y'. split; [exact Hy'|]. split; congruence. }
  (* an entry already copied stays as it is *)
  assert (Hstay : DONE t ->
                  (jstar <> j \/ load_outer t np istar <> load_outer t np i) ->
                  DONE t').
  { intros (D1 & D2 & c0 & D3 & D4) Hne.
    destruct (Hpar _ _ _ D1) as (y1 & Hy1 & _ & _ & Hsame1).
    rewrite (Hsame1 eq_refl eq_refl) in Hy1.
    destruct (Hkeep _ _ _ _ D2 Hne) as (y2 & Hy2 & _ & _ & Hsame2).
    rewrite (Hsame2 eq_refl eq_refl) in Hy2.
    split; [exact Hy1|]. split; [exact Hy2|].
    exists c0. split; [|exact D4].
    rewrite (same_layout_outer _ _ _ _ Hlay). exact D3. }
  split; [exact HB'|]. split; [exact Hc'|]. split; [exact HLc|]. split.
  - intros Hlt. destruct (Hprev Hlt) as [HD Hne]. split.
    + apply Hstay; [exact HD|]. right. rewrite Hc. exact Hne.
    + rewrite (same_layout_outer _ _ _ _ Hlay). exact Hne.
  - intros -> Hlt.
    destruct (Z.eq_dec j jstar) as [->|Hjne].
    + (* the entry is copied by this iteration *)
      rewrite <- Bcur in Be.
      destruct (fork_pte_body_valid _ _ _ _ _ _ _ _ _ _ Har Be Bv H)
        as (t1 & t2 & t3 & U1 & U2 & L2 & St & Mc).
      rewrite Bcur in *. rewrite Bp in *.
      destruct (mapcount_add_layout _ _ _ _ Mc) as [_ Hload].
      pose proof (store_pte_load _ _ _ _ _ _ St) as (Hchild & _).
      assert (Hparent : load_pte t3 (current s) istar jstar = Ok shared).
      { eapply store_pte_other; [exact St | exact L2 | right].
        pose proof (same_layout_trans _ _ _ (update_pte_layout _ _ _ _ _ _ U1)
                      (update_pte_layout _ _ _ _ _ _ U2)) as Hl2.
        rewrite !(same_layout_outer _ _ _ _ Hl2).
        exact (fork_parent_child_ptr t istar istar c HB HLc Hc _ _ Be). }
      split; [rewrite Hload; exact Hparent|].
      split; [rewrite Hload; exact Hchild|].
      exists c. split; [exact Hc' | exact HLc].
    + apply Hstay; [apply Hsame; [reflexivity | lia] | left; congruence].
Qed.

Variable r0 : result Z.
Hypothesis Hr0 : load (mapcounts s) (istar * nr + jstar) = r0.

Local Abbreviation COUNT := (fork_count nr istar jstar r0).

Lemma fork_count_move (i j i' j' : Z) (t t' : state) :
  mapcounts t' = mapcounts t ->
  (scanned_before istar jstar i' j' <-> scanned_before istar jstar i j) ->
  COUNT i j t -> COUNT i' j' t'.
Proof.
  intros Hm Hiff [Cdone Cnot]. unfold fork_count. rewrite Hm, Hiff. auto.
Qed.

Lemma fork_pte_step_count (i : Z) (c : nat) (j : Z) (t t' : state) :
  0 <= j < nr ->
  INNER i c j t -> COUNT i j t ->
  fork_pte_body nr ar aw g np i j t = Ok (Next t') ->
  COUNT i (j + 1) t'.
Proof.
  intros Hjr (HB & _) [Cdone Cnot] H.
  destruct HB as (Bcur & _ & _ & e' & Be & Bv & _).
  destruct (fork_pte_body_counts _ _ _ _ _ _ _ _ _ H) as [Hother (x & Hx & Hcase)].
  rewrite Bcur in Hx.
  destruct (decide (i = istar /\ j = jstar)) as [[-> ->]|Hne].
  - rewrite Be in Hx. injection Hx as <-. rewrite Bv in Hcase.
    destruct Hcase as (c0 & Hc0 & Hc1).
    assert (Hr : r0 = Ok c0).
    { rewrite <- Hc0. symmetry. apply Cnot. unfold scanned_before. lia. }
    split.
    + intros _. exists c0. split; [exact Hr | exact Hc1].
    + intros Hn. exfalso. apply Hn. right. split; [reflexivity | lia].
  - assert (Hk : istar * nr + jstar <> i * nr + j).
    { intros Heq. destruct (page_index_unique nr istar jstar i j Hj Hjr Heq).
      apply Hne. split; congruence. }
    assert (Hiff : scanned_before istar jstar i (j + 1)
                   <-> scanned_before istar jstar i j).
    { unfold scanned_before. split; intros [Hlt|[He Hlt]]; try (left; exact Hlt).
      - right. split; [exact He|]. destruct (Z.eq_dec jstar j); [|lia].
        exfalso. apply Hne. split; congruence.
      - right. split; [exact He | lia]. }
    unfold fork_count. rewrite (Hother _ Hk), Hiff. split; assumption.
Qed.

Lemma fork_dir_step (i : Z) (t t' : state) :
  0 <= i ->
  BASE t /\ (istar < i -> DONE t) /\ COUNT i 0 t ->
  fork_dir_body nr ar aw g np i t = Ok (Next t') ->
  BASE t' /\ (istar < i + 1 -> DONE t') /\ COUNT (i + 1) 0 t'.
Proof.
  intros H0 (HB & Hprev & HC) H.
  pose proof HB as (Bcur & Bxc & Blen & e' & Be & Bv & Bp).
  unfold fork_dir_body in H. rewrite Bcur in H. bind_inv H.
  destruct x as [|a].
  { injection H as <-.
    assert (Hne : i <> istar).
    { intros ->. apply load_pte_Ok in Be as (a & _ & Ha & _). congruence. }
    split; [exact HB|]. split; [intros Hlt; apply Hprev; lia|].
    apply (fork_count_move i 0 _ _ t t eq_refl); [|exact HC].
    unfold scanned_before. lia. }
  bind_inv H.
  pose proof fork_cur_lt as Hlt.
  destruct (store_outer_append _ _ _ _ _ E0) as (Ac & Am & Ad & Ao & Ap & Aout & Aload).
  assert (Hkeep : forall i0 j0 y, load_pte t (current s) i0 j0 = Ok y ->
                                  load_pte x (current s) i0 j0 = Ok y).
  { intros i0 j0 y. apply Aload. left. lia. }
  assert (HB1 : BASE x).
  { unfold fork_base. rewrite Ac, Ad, length_app, (Ap (current s)) by lia.
    split; [exact Bcur|]. split; [exact Bxc|]. split; [lia|].
    exists e'. split; [apply Hkeep, Be | auto]. }
  assert (HI : INNER i (length (dirs t)) 0 x).
  { split; [exact HB1|]. split; [exact Ao|]. split; [exact Blen|]. split.
    - intros Hi'. destruct (Hprev Hi') as (D1 & D2 & c0 & D3 & D4).
      assert (Hne : load_outer x np istar <> Ok (Addr (length (dirs t)))).
      { rewrite Aout by (right; lia). rewrite D3. intros [= ->].
        apply load_pte_Ok in D2 as (a0 & dir & Ha0 & Hd0 & _).
        rewrite D3 in Ha0. injection Ha0 as <-.
        apply lookup_lt_Some in Hd0. lia. }
      split; [|exact Hne].
      split; [apply Hkeep, D1|].
      split; [apply Aload; [right; lia | exact D2]|].
      exists c0. split; [|exact D4]. rewrite Aout by (right; lia). exact D3.
    - intros _ Hneg. lia. }
  assert (HC1 : COUNT i 0 x).
  { apply (fork_count_move i 0 _ _ t x Am); [reflexivity | exact HC]. }
  pose proof (for_loop_inv_index
                (fun j u => INNER i (length (dirs t)) j u /\ COUNT i j u)
                (fork_pte_body nr ar aw g np i) (Z.to_nat nr) 0
                (fun j u u' Hr HP Hb =>
                   conj (fork_pte_step i _ j u u' (proj1 HP) Hb)
                        (fork_pte_step_count i _ j u u'
                           ltac:(rewrite Z2Nat.id in Hr by lia; lia)
                           (proj1 HP) (proj2 HP) Hb))
                x t' (conj HI HC1) H) as ((HB' & _ & _ & Hprev' & Hsame') & HC').
  rewrite Z2Nat.id in Hsame', HC' by lia.
  split; [exact HB'|]. split.
  - intros Hlt'. destruct (Z.eq_dec i istar) as [->|Hne].
    + apply Hsame'; [reflexivity | lia].
    + apply Hprev'. lia.
  - apply (fork_count_move i (0 + nr) _ _ t' t' eq_refl); [|exact HC'].
    unfold scanned_before. lia.
Qed.

(** The loops of the fork, run from the state in which the new process
    object has been added, leave the entry copied and counted. *)
Lemma fork_loops_copy (pid : Z) (t' : state) :
  for_loop (R := Empty_set) (Z.to_nat nr) 0 (fork_dir_body nr ar aw g np)
    (set_procs s (procs s ++ [mk_process pid (proc_pagetable (malloc_process g))]))
    = Ok (Next t') ->
  DONE t' /\
  exists c, r0 = Ok c /\ load (mapcounts t') (istar * nr + jstar) = Ok (u32 (c + 1)).
Proof.
  intros H.
  pose proof fork_cur_lt as Hlt.
  pose proof (for_loop_inv_index
                (fun i u => BASE u /\ (istar < i -> DONE u) /\ COUNT i 0 u)
                (fork_dir_body nr ar aw g np) (Z.to_nat nr) 0
                (fun i u u' Hr HP Hb => fork_dir_step i u u' (proj1 Hr) HP Hb)
                (set_procs s (procs s ++
                   [mk_process pid (proc_pagetable (malloc_process g))])) t')
    as Hloop.
  destruct Hloop as (_ & Hdone & [Hcount _]); [|exact H|].
  - split; [|split; [intros Hneg; lia|]].
    + unfold fork_base. simpl. split; [reflexivity|].
      rewrite lookup_app_l by exact Hlt.
      split; [exact Hxc|]. split; [lia|].
      exists estar. split; [|auto].
      revert Hl. unfold load_pte, load_outer, load_proc. simpl.
      rewrite lookup_app_l by exact Hlt. auto.
    + split; [unfold scanned_before; intros; lia|]. intros _. exact Hr0.
  - rewrite Z2Nat.id in Hdone, Hcount by lia. split.
    + apply Hdone. lia.
    + apply Hcount. unfold scanned_before. lia.
Qed.

End ForkShares.

Lemma ptrs_below_spec (n : nat) (l : list ptr) :
  ptrs_below n l = true ->
  forall (k a : nat), l !! k = Some (Addr a) -> (a < n)%nat.
Proof.
  unfold ptrs_below. rewrite forallb_forall. intros H k a Hk.
  specialize (H (Addr a)). simpl in H. apply Nat.ltb_lt, H.
  apply list_elem_of_In, list_elem_of_lookup. eauto.
Qed.

(** X18.  The copy-on-write set-up of the fork.  When switch_process(pid)
    forks (pid is not queued) and returns, ACCESS_READ is not 0 and the
    directory pointers of the parent are blocks of the directory heap, then
    every entry of the parent that was valid is afterwards, in the parent
    and in the child alike, valid, of rw ACCESS_READ, marked private 1 and
    on the frame it named before; the child is the current process. *)
Theorem fork_shares_valid_entries :
  forall (nr ar aw : Z) (g : indeterminate) (s s' : state) (pid : Z) (xc : process)
         (i j : Z) (e : pte),
    find_process s (processes s) pid = Ok None ->
    switch_process nr ar aw g s pid = Ok s' ->
    ar <> 0 ->
    procs s !! current s = Some xc ->
    ptrs_below (length (dirs s)) (outer_ptes (proc_pagetable xc)) = true ->
    0 <= i < nr -> 0 <= j < nr ->
    load_pte s (current s) i j = Ok e -> pte_valid e = true ->
    current s' = length (procs s) /\
    load_pte s' (current s) i j = Ok (mk_pte true ar (pte_pfn e) 1) /\
    load_pte s' (current s') i j = Ok (mk_pte true ar (pte_pfn e) 1).
Proof.
  intros nr ar aw g s s' pid xc i j e Hf H Har Hxc Hwf Hi Hj Hl Hv.
  rewrite (switch_process_fork_unfold _ _ _ _ _ _ Hf) in H. cbv zeta in H.
  bind_inv H. destruct x as [t|[]]. injection H as <-.
  pose proof (fork_loops_copy nr ar aw g s xc i j e Har Hxc
                (ptrs_below_spec _ _ Hwf) Hi Hj Hl Hv _ eq_refl pid t E)
    as ((D1 & D2 & _) & _).
  split; [reflexivity|]. split; [exact D1 | exact D2].
Qed.

Lemma fork_shares_valid_entries_witness :
  exists s s',
    after_alloc 2 = Ok s /\
    find_process s (processes s) 99 = Ok None /\
    switch_process 16 1 2 zeroed s 99 = Ok s' /\
    1 <> 0 /\
    procs s !! current s
      = Some (mk_process 0 (mk_pagetable (<[0%nat := Addr 0]> (replicate 16 NULL)))) /\
    ptrs_below (length (dirs s)) (<[0%nat := Addr 0]> (replicate 16 NULL)) = true /\
    0 <= 0 < 16 /\ 0 <= 5 < 16 /\
    load_pte s (current s) 0 5 = Ok (mk_pte true 2 0 0) /\
    pte_valid (mk_pte true 2 0 0) = true /\
    current s' = length (procs s) /\
    load_pte s' (current s) 0 5 = Ok (mk_pte true 1 (pte_pfn (mk_pte true 2 0 0)) 1) /\
    load_pte s' (current s') 0 5 = Ok (mk_pte true 1 (pte_pfn (mk_pte true 2 0 0)) 1).
Proof.
  eexists. eexists. split; [vm_compute; reflexivity|].
  split; [reflexivity|]. split; [vm_compute; reflexivity|].
  split; [discriminate|]. split; [reflexivity|]. split; [reflexivity|].
  split; [lia|]. split; [lia|]. split; [reflexivity|]. split; [reflexivity|].
  eapply (fork_shares_valid_entries 16 1 2 zeroed _ _ 99 _ 0 5 (mk_pte true 2 0 0));
    [reflexivity | vm_compute; reflexivity | discriminate | reflexivity
     | reflexivity | lia | lia | reflexivity | reflexivity].
Defined.

(** X19.  The count the fork raises for a valid entry is the one at the
    page index of the entry.  Under the conditions of the copy-on-write
    set-up, for every entry [(i, j)] of the parent that was valid,
    mapcounts[i * NR_PTES_PER_PAGE + j] is after the fork one more (modulo
    2^32) than before, whatever frame the entry names. *)
Theorem fork_counts_at_page_index :
  forall (nr ar aw : Z) (g : indeterminate) (s s' : state) (pid : Z) (xc : process)
         (i j : Z) (e : pte) (c : Z),
    find_process s (processes s) pid = Ok None ->
    switch_process nr ar aw g s pid = Ok s' ->
    ar <> 0 ->
    procs s !! current s = Some xc ->
    ptrs_below (length (dirs s)) (outer_ptes (proc_pagetable xc)) = true ->
    0 <= i < nr -> 0 <= j < nr ->
    load_pte s (current s) i j = Ok e -> pte_valid e = true ->
    load (mapcounts s) (i * nr + j) = Ok c ->
    load (mapcounts s') (i * nr + j) = Ok (u32 (c + 1)).
Proof.
  intros nr ar aw g s s' pid xc i j e c Hf H Har Hxc Hwf Hi Hj Hl Hv Hc.
  rewrite (switch_process_fork_unfold _ _ _ _ _ _ Hf) in H. cbv zeta in H.
  bind_inv H. destruct x as [t|[]]. injection H as <-.
  pose proof (fork_loops_copy nr ar aw g s xc i j e Har Hxc
                (ptrs_below_spec _ _ Hwf) Hi Hj Hl Hv _ Hc pid t E)
    as (_ & c0 & Hc0 & Hload).
  injection Hc0 as <-. exact Hload.
Qed.

Lemma fork_counts_at_page_index_witness :
  exists s s',
    after_alloc 2 = Ok s /\
    find_process s (processes s) 99 = Ok None /\
    switch_process 16 1 2 zeroed s 99 = Ok s' /\
    1 <> 0 /\
    procs s !! current s
      = Some (mk_process 0 (mk_pagetable (<[0%nat := Addr 0]> (replicate 16 NULL)))) /\
    ptrs_below (length (dirs s)) (<[0%nat := Addr 0]> (replicate 16 NULL)) = true /\
    0 <= 0 < 16 /\ 0 <= 5 < 16 /\
    load_pte s (current s) 0 5 = Ok (mk_pte true 2 0 0) /\
    pte_valid (mk_pte true 2 0 0) = true /\
    load (mapcounts s) (0 * 16 + 5) = Ok 0 /\
    load (mapcounts s') (0 * 16 + 5) = Ok (u32 (0 + 1)).
Proof.
  eexists. eexists. split; [vm_compute; reflexivity|].
  match goal with
  | |- find_process ?s _ _ = _ /\ _ =>
      pose proof (fork_counts_at_page_index 16 1 2 zeroed s) as W
  end.
  split; [reflexivity|]. split; [vm_compute; reflexivity|].
  split; [discriminate|]. split; [reflexivity|]. split; [reflexivity|].
  split; [lia|]. split; [lia|]. split; [reflexivity|]. split; [reflexivity|].
  split; [reflexivity|].
  eapply (W _ 99 _ 0 5 (mk_pte true 2 0 0) 0);
    [reflexivity | vm_compute; reflexivity | discriminate | reflexivity
     | reflexivity | lia | lia | reflexivity | reflexivity | reflexivity].
Defined.

(** X20.  The fork indexes mapcounts with page numbers.  Under the
    conditions of the copy-on-write set-up, when a valid entry of the
    parent sits at a page index outside mapcounts (a page number that is
    no frame number), switch_process(pid) with pid not queued is an
    invalid access. *)
Theorem fork_counts_outside_mapcounts :
  forall (nr ar aw : Z) (g : indeterminate) (s : state) (pid : Z) (xc : process)
         (i j : Z) (e : pte),
    find_process s (processes s) pid = Ok None ->
    ar <> 0 ->
    procs s !! current s = Some xc ->
    ptrs_below (length (dirs s)) (outer_ptes (proc_pagetable xc)) = true ->
    0 <= i < nr -> 0 <= j < nr ->
    load_pte s (current s) i j = Ok e -> pte_valid e = true ->
    load (mapcounts s) (i * nr + j) = Fault ->
    switch_process nr ar aw g s pid = Fault.
Proof.
  intros nr ar aw g s pid xc i j e Hf Har Hxc Hwf Hi Hj Hl Hv Hc.
  destruct (switch_process nr ar aw g s pid) as [s'|] eqn:H; [exfalso | reflexivity].
  rewrite (switch_process_fork_unfold _ _ _ _ _ _ Hf) in H. cbv zeta in H.
  bind_inv H. destruct x as [t|[]].
  pose proof (fork_loops_copy nr ar aw g s xc i j e Har Hxc
                (ptrs_below_spec _ _ Hwf) Hi Hj Hl Hv _ Hc pid t E)
    as (_ & c0 & Hc0 & _).
  discriminate.
Qed.

Lemma fork_counts_outside_mapcounts_witness :
  exists s,
    alloc_range 1 200 boot = Ok s /\
    find_process s (processes s) 99 = Ok None /\
    1 <> 0 /\
    procs s !! current s
      = Some (mk_process 0 (mk_pagetable (<[12%nat := Addr 0]> (replicate 16 NULL)))) /\
    ptrs_below (length (dirs s)) (<[12%nat := Addr 0]> (replicate 16 NULL)) = true /\
    0 <= 12 < 16 /\ 0 <= 8 < 16 /\
    load_pte s (current s) 12 8 = Ok (mk_pte true 2 0 0) /\
    pte_valid (mk_pte true 2 0 0) = true /\
    load (mapcounts s) (12 * 16 + 8) = Fault /\
    switch_process 16 1 2 zeroed s 99 = Fault.
Proof.
  eexists. split; [vm_compute; reflexivity|].
  split; [reflexivity|]. split; [discriminate|].
  split; [reflexivity|]. split; [reflexivity|].
  split; [lia|]. split; [lia|]. split; [reflexivity|]. split; [reflexivity|].
  split; [reflexivity|].
  match goal with
  | |- switch_process _ _ _ _ ?s _ = _ =>
      apply (fork_counts_outside_mapcounts 16 1 2 zeroed s 99
               (mk_process 0 (mk_pagetable (<[12%nat := Addr 0]> (replicate 16 NULL))))
               12 8 (mk_pte true 2 0 0))
  end;
    [reflexivity | discriminate | reflexivity | reflexivity | lia | lia
     | reflexivity | reflexivity | reflexivity].
Defined.

(** An iteration of the inner loop of the fork changes two entries at most:
    the one it reads through the current process and the one it writes
    for the new process. *)
Lemma fork_pte_body_other (nr ar aw : Z) (g : indeterminate) (np : nat) (i j : Z)
      (t t' : state) (p' : nat) (i' j' : Z) (y : pte) :
  fork_pte_body nr ar aw g np i j t = Ok (Next t') ->
  load_pte t p' i' j' = Ok y ->
  j' <> j \/ load_outer t p' i' <> load_outer t (current t) i ->
  j' <> j \/ load_outer t p' i' <> load_outer t np i ->
  load_pte t' p' i' j' = Ok y.
Proof.
  intros H Hy Hcur Hnew. unfold fork_pte_body in H. bind_inv H.
  destruct (pte_valid x); [|injection H as <-; exact Hy].
  apply bind_Ok in H as ([t2 newpte] & E1 & H).
  bind_inv H. bind_inv H. bind_inv H. injection H as <-.
  assert (H2 : same_layout t t2 /\ load_pte t2 p' i' j' = Ok y).
  { destruct (negb _).
    - apply bind_Ok in E1 as (u1 & U1 & E1).
      apply bind_Ok in E1 as (u2 & U2 & E1). injection E1 as <- _.
      pose proof (update_pte_layout _ _ _ _ _ _ U1) as L1.
      pose proof (update_pte_layout _ _ _ _ _ _ U2) as L2.
      split; [eapply same_layout_trans; eassumption|].
      eapply update_pte_other; [exact U2 | |].
      + eapply update_pte_other; [exact U1 | exact Hy | exact Hcur].
      + destruct Hcur as [Hj'|Hp]; [left; exact Hj'|]. right.
        destruct L1 as (Lc & _). rewrite Lc.
        rewrite !(same_layout_outer _ _ _ _ (update_pte_layout _ _ _ _ _ _ U1)).
        exact Hp.
    - bind_inv E1. injection E1 as <- _. split; [|exact Hy].
      unfold same_layout. auto. }
  destruct H2 as [L2 Hy2].
  destruct (mapcount_add_layout _ _ _ _ E3) as [_ Hload]. rewrite Hload.
  eapply store_pte_other; [exact E2 | exact Hy2 |].
  destruct Hnew as [Hj'|Hp]; [left; exact Hj'|]. right.
  rewrite !(same_layout_outer _ _ _ _ L2). exact Hp.
Qed.

Lemma result_ptr_eq_dec (r r' : result ptr) : {r = r'} + {r <> r'}.
Proof. repeat decide equality. Qed.

Section ForkKeeps.

Variables (nr ar aw : Z) (g : indeterminate) (s : state) (xc : process).
Variables (istar jstar : Z) (estar : pte).

Hypothesis Hxc : procs s !! current s = Some xc.
Hypothesis Hwf : forall (i a : nat),
    outer_ptes (proc_pagetable xc) !! i = Some (Addr a) -> (a < length (dirs s))%nat.
Hypothesis Hl : load_pte s (current s) istar jstar = Ok estar.
Hypothesis Hv : pte_valid estar = false.

Local Abbreviation np := (length (procs s)).
Local Abbreviation KEEP := (fork_keep s xc istar jstar estar).

Lemma fork_keep_pte_step (i : Z) (c : nat) (j : Z) (t t' : state) :
  KEEP t /\ load_outer t np i = Ok (Addr c) /\ (length (dirs s) <= c)%nat ->
  fork_pte_body nr ar aw g np i j t = Ok (Next t') ->
  KEEP t' /\ load_outer t' np i = Ok (Addr c) /\ (length (dirs s) <= c)%nat.
Proof.
  intros ((Kc & Kx & Kl & Ke) & Hc & HLc) H.
  destruct (fork_pte_body_keeps _ _ _ _ _ _ _ _ _ H) as [Hlay _].
  pose proof Hlay as (Lc & Lp & Ld).
  assert (Hc' : load_outer t' np i = Ok (Addr c)).
  { rewrite (same_layout_outer _ _ _ _ Hlay). exact Hc. }
  split; [|split; [exact Hc' | exact HLc]].
  unfold fork_keep. rewrite Lc, Lp, Ld.
  split; [exact Kc|]. split; [exact Kx|]. split; [exact Kl|].
  (* the entry is not the one written for the new process *)
  assert (Hnew : load_outer t (current s) istar <> load_outer t np i).
  { intros Heq. apply load_pte_Ok in Ke as (a & _ & Ha & _).
    rewrite Ha, Hc in Heq. injection Heq as ->.
    unfold load_outer, load_proc in Ha. rewrite Kx in Ha. simpl in Ha.
    apply load_Ok in Ha as [_ Ha]. apply Hwf in Ha. lia. }
  destruct (Z.eq_dec jstar j) as [Hje|Hjne].
  2:{ eapply fork_pte_body_other; [exact H | exact Ke | left; exact Hjne
                                   | left; exact Hjne]. }
  destruct (result_ptr_eq_dec (load_outer t (current s) istar)
                              (load_outer t (current t) i)) as [Hpe|Hpne].
  - (* the entry is the one the iteration reads: it is not valid *)
    destruct (fork_pte_body_counts _ _ _ _ _ _ _ _ _ H) as [_ (x & Hx & Hcase)].
    rewrite <- (load_pte_same_ptr t _ _ _ _ j Hpe), <- Hje, Ke in Hx.
    injection Hx as <-. rewrite Hv in Hcase. subst t'. exact Ke.
  - eapply fork_pte_body_other; [exact H | exact Ke | right; exact Hpne
                                 | right; exact Hnew].
Qed.

Lemma fork_keep_dir_step (i : Z) (t t' : state) :
  KEEP t ->
  fork_dir_body nr ar aw g np i t = Ok (Next t') ->
  KEEP t'.
Proof.
  intros HK H. pose proof HK as (Kc & Kx & Kl & Ke).
  unfold fork_dir_body in H. bind_inv H.
  destruct x as [|a]; [injection H as <-; exact HK|].
  bind_inv H.
  assert (Hlt : (current s < np)%nat) by (eapply lookup_lt_Some, Hxc).
  destruct (store_outer_append _ _ _ _ _ E0) as (Ac & _ & Ad & Ao & Ap & _ & Aload).
  assert (HK1 : KEEP x /\ load_outer x np i = Ok (Addr (length (dirs t))) /\
                (length (dirs s) <= length (dirs t))%nat).
  { split; [|split; [exact Ao | exact Kl]].
    unfold fork_keep. rewrite Ac, Ad, length_app, (Ap (current s)) by lia.
    split; [exact Kc|]. split; [exact Kx|]. split; [lia|].
    apply Aload; [left; lia | exact Ke]. }
  apply (for_loop_inv
           (fun u => KEEP u /\ load_outer u np i = Ok (Addr (length (dirs t))) /\
                     (length (dirs s) <= length (dirs t))%nat)
           (fun _ => False)) in H; [apply H | | exact HK1].
  intros j u f HP Hb. destruct f as [u'|[]].
  eapply fork_keep_pte_step; eassumption.
Qed.

Lemma fork_loops_keep (pid : Z) (t' : state) :
  for_loop (R := Empty_set) (Z.to_nat nr) 0 (fork_dir_body nr ar aw g np)
    (set_procs s (procs s ++ [mk_process pid (proc_pagetable (malloc_process g))]))
    = Ok (Next t') ->
  KEEP t'.
Proof.
  intros H.
  assert (Hlt : (current s < np)%nat) by (eapply lookup_lt_Some, Hxc).
  apply (for_loop_inv KEEP (fun _ => False)) in H; [exact H | |].
  - intros i u f HP Hb. destruct f as [u'|[]].
    eapply fork_keep_dir_step; eassumption.
  - unfold fork_keep. simpl. split; [reflexivity|].
    rewrite lookup_app_l by exact Hlt.
    split; [exact Hxc|]. split; [lia|].
    revert Hl. unfold load_pte, load_outer, load_proc. simpl.
    rewrite lookup_app_l by exact Hlt. auto.
Qed.

End ForkKeeps.

(** X21.  The fork leaves alone what is not mapped.  When switch_process
    forks and returns, and the directory pointers of the parent are blocks
    of the directory heap, every entry of the parent that was not valid
    reads afterwards, in the parent, exactly what it read before. *)
Theorem fork_keeps_invalid_entries :
  forall (nr ar aw : Z) (g : indeterminate) (s s' : state) (pid : Z) (xc : process)
         (i j : Z) (e : pte),
    find_process s (processes s) pid = Ok None ->
    switch_process nr ar aw g s pid = Ok s' ->
    procs s !! current s = Some xc ->
    ptrs_below (length (dirs s)) (outer_ptes (proc_pagetable xc)) = true ->
    load_pte s (current s) i j = Ok e -> pte_valid e = false ->
    load_pte s' (current s) i j = Ok e.
Proof.
  intros nr ar aw g s s' pid xc i j e Hf H Hxc Hwf Hl Hv.
  rewrite (switch_process_fork_unfold _ _ _ _ _ _ Hf) in H. cbv zeta in H.
  bind_inv H. destruct x as [t|[]]. injection H as <-.
  pose proof (fork_loops_keep nr ar aw g s xc i j e Hxc
                (ptrs_below_spec _ _ Hwf) Hl Hv pid t E) as (_ & _ & _ & Hk).
  exact Hk.
Qed.

Lemma fork_keeps_invalid_entries_witness :
  exists s s',
    after_alloc 2 = Ok s /\
    find_process s (processes s) 99 = Ok None /\
    switch_process 16 1 2 zeroed s 99 = Ok s' /\
    procs s !! current s
      = Some (mk_process 0 (mk_pagetable (<[0%nat := Addr 0]> (replicate 16 NULL)))) /\
    ptrs_below (length (dirs s)) (<[0%nat := Addr 0]> (replicate 16 NULL)) = true /\
    load_pte s (current s) 0 6 = Ok zero_pte /\
    pte_valid zero_pte = false /\
    load_pte s' (current s) 0 6 = Ok zero_pte.
Proof.
  eexists. eexists. split; [vm_compute; reflexivity|].
  split; [reflexivity|]. split; [vm_compute; reflexivity|].
  split; [reflexivity|]. split; [reflexivity|].
  split; [reflexivity|]. split; [reflexivity|].
  eapply (fork_keeps_invalid_entries 16 1 2 zeroed _ _ 99 _ 0 6 zero_pte);
    [reflexivity | vm_compute; reflexivity | reflexivity | reflexivity
     | reflexivity | reflexivity].
Defined.

(** ** The fork touches only memory that is there *)

Lemma zrange_elem (n i : Z) : 0 <= i < n -> In i (zrange n).
Proof.
  intros Hi. unfold zrange. apply in_map_iff. exists (Z.to_nat i).
  split; [lia|]. apply in_seq. lia.
Qed.

Lemma bind_Fault {A B : Type} (r : result A) (k : A -> result B) :
  bind r k = Fault -> r = Fault \/ exists a, r = Ok a /\ k a = Fault.
Proof. destruct r as [a|]; simpl; eauto. Qed.

(** A loop all of whose iterations go on to the next runs to its end. *)
Lemma for_loop_total {S : Type} (P : Z -> S -> Prop)
      (body : Z -> S -> result (flow S Empty_set)) :
  forall n i0,
    (forall i t, i0 <= i < i0 + Z.of_nat n -> P i t ->
                 exists t', body i t = Ok (Next t') /\ P (i + 1) t') ->
    forall t, P i0 t ->
              exists t', for_loop n i0 body t = Ok (Next t') /\ P (i0 + Z.of_nat n) t'.
Proof.
  induction n as [|n IH]; intros i0 Hbody t HP.
  - exists t. split; [reflexivity|]. replace (i0 + Z.of_nat 0) with i0 by lia. exact HP.
  - destruct (Hbody i0 t ltac:(lia) HP) as (t1 & Hb & HP1).
    destruct (IH (i0 + 1) (fun i u Hi => Hbody i u ltac:(lia)) t1 HP1) as (t' & Hl & HP').
    exists t'. rewrite for_loop_S, Hb. cbn [bind]. split; [exact Hl|].
    replace (i0 + Z.of_nat (Datatypes.S n)) with (i0 + 1 + Z.of_nat n) by lia.
    exact HP'.
Qed.

(** An entry that can be read can be written. *)
Lemma store_pte_returns (s : state) (p : nat) (i j : Z) (x v : pte) :
  load_pte s p i j = Ok x -> exists s', store_pte s p i j v = Ok s'.
Proof.
  intros H. apply load_pte_Ok in H as (a & dir & Ho & Hd & Hl).
  unfold store_pte. rewrite Ho. simpl. rewrite Hd. simpl.
  apply load_Ok in Hl as [H0 Hl]. apply lookup_lt_Some in Hl.
  rewrite store_in_range by lia. simpl. eauto.
Qed.

Lemma update_pte_returns (s : state) (p : nat) (i j : Z) (x : pte) (f : pte -> pte) :
  load_pte s p i j = Ok x -> exists s', update_pte s p i j f = Ok s'.
Proof.
  intros H. unfold update_pte. rewrite H. simpl. eapply store_pte_returns, H.
Qed.

(** A store into an entry leaves every block of the heap with the number
    of entries it had. *)
Lemma store_pte_blocks (n : nat) (s s' : state) (p : nat) (i j : Z) (v : pte) :
  store_pte s p i j v = Ok s' ->
  (forall a dir, dirs s !! a = Some dir -> length (ptes dir) = n) ->
  forall a dir, dirs s' !! a = Some dir -> length (ptes dir) = n.
Proof.
  intros H Hall a dir Hd.
  apply store_pte_Ok in H as (a0 & dir0 & l & _ & Hd0 & Hs & ->). simpl in Hd.
  destruct (decide (a = a0)) as [->|Hne].
  - rewrite list_lookup_insert_eq in Hd by (eapply lookup_lt_Some; eassumption).
    injection Hd as <-. simpl. apply store_Ok in Hs as [_ ->].
    rewrite length_insert. eapply Hall, Hd0.
  - rewrite list_lookup_insert_ne in Hd by congruence. eapply Hall, Hd.
Qed.

Lemma update_pte_blocks (n : nat) (s s' : state) (p : nat) (i j : Z) (f : pte -> pte) :
  update_pte s p i j f = Ok s' ->
  (forall a dir, dirs s !! a = Some dir -> length (ptes dir) = n) ->
  forall a dir, dirs s' !! a = Some dir -> length (ptes dir) = n.
Proof.
  unfold update_pte. intros H. bind_inv H. eapply store_pte_blocks, H.
Qed.

(** An iteration of the inner loop of the fork keeps the size of every
    block of the heap and the size of mapcounts. *)
Lemma fork_pte_body_shape (n : nat) (nr ar aw : Z) (g : indeterminate) (np : nat)
      (i j : Z) (t t' : state) :
  fork_pte_body nr ar aw g np i j t = Ok (Next t') ->
  (forall a dir, dirs t !! a = Some dir -> length (ptes dir) = n) ->
  (forall a dir, dirs t' !! a = Some dir -> length (ptes dir) = n) /\
  length (mapcounts t') = length (mapcounts t).
Proof.
  intros H Hall. unfold fork_pte_body in H. bind_inv H.
  destruct (pte_valid x); [|injection H as <-; auto].
  apply bind_Ok in H as ([t2 newpte] & E1 & H).
  bind_inv H. bind_inv H. bind_inv H. injection H as <-.
  assert (H2 : (forall a dir, dirs t2 !! a = Some dir -> length (ptes dir) = n) /\
               mapcounts t2 = mapcounts t).
  { destruct (negb _).
    - apply bind_Ok in E1 as (u1 & U1 & E1).
      apply bind_Ok in E1 as (u2 & U2 & E1). injection E1 as <- _.
      split.
      + eapply update_pte_blocks; [exact U2|]. eapply update_pte_blocks; eassumption.
      + apply update_pte_Ok in U1 as (_ & _ & _ & _ & M1 & _).
        apply update_pte_Ok in U2 as (_ & _ & _ & _ & M2 & _). congruence.
    - bind_inv E1. injection E1 as <- _. auto. }
  destruct H2 as [Hb2 Hm2].
  pose proof (store_pte_blocks n _ _ _ _ _ _ E2 Hb2) as Hb3.
  apply store_pte_load in E2 as (_ & _ & _ & Hm3).
  apply mapcount_add_Ok in E3 as (c & _ & _ & ->). simpl.
  split; [exact Hb3|]. rewrite length_insert. congruence.
Qed.

Section ForkSafe.

Variables (nr ar aw : Z) (g : indeterminate) (s : state) (xc : process).

Hypothesis Hnr : 0 <= nr.
Hypothesis Hxc : procs s !! current s = Some xc.
Hypothesis Hlen : length (outer_ptes (proc_pagetable xc)) = Z.to_nat nr.
Hypothesis Hwf : forall (k a : nat),
    outer_ptes (proc_pagetable xc) !! k = Some (Addr a) -> (a < length (dirs s))%nat.
Hypothesis Hblk : forall a dir, dirs s !! a = Some dir -> length (ptes dir) = Z.to_nat nr.
Hypothesis Hnew :
  length (outer_ptes (proc_pagetable (malloc_process g))) = Z.to_nat nr.
Hypothesis Hfresh : forall i, 0 <= i < nr ->
                              length (ptes (malloc_dir g i)) = Z.to_nat nr.
Hypothesis Hcnt : forall i j e,
    0 <= i < nr -> 0 <= j < nr ->
    load_pte s (current s) i j = Ok e -> pte_valid e = true ->
    i * nr + j < Z.of_nat (length (mapcounts s)).

Local Abbreviation np := (length (procs s)).
Local Abbreviation SAFE := (fork_safe nr s xc).

Lemma fork_safe_outer (t : state) (i : Z) :
  procs t !! current s = Some xc ->
  load_outer t (current s) i = load (outer_ptes (proc_pagetable xc)) i.
Proof. intros Hx. unfold load_outer, load_proc. rewrite Hx. reflexivity. Qed.

(** A block with [nr] entries can be read at every index below [nr]. *)
Lemma fork_safe_read (t : state) (p : nat) (i j : Z) (a : nat) :
  (forall a dir, dirs t !! a = Some dir -> length (ptes dir) = Z.to_nat nr) ->
  load_outer t p i = Ok (Addr a) -> (a < length (dirs t))%nat -> 0 <= j < nr ->
  exists x, load_pte t p i j = Ok x.
Proof.
  intros Hb Ho Ha Hj.
  destruct (lookup_lt_is_Some_2 _ _ Ha) as [dir Hd].
  destruct (load_in_range (ptes dir) j) as [x Hx]; [rewrite (Hb _ _ Hd); lia|].
  exists x. unfold load_pte. rewrite Ho. simpl. rewrite Hd. exact Hx.
Qed.

Lemma fork_safe_pte_step (i j : Z) (a c : nat) (t : state) :
  0 <= i < nr -> 0 <= j < nr ->
  SAFE t /\ load_outer t (current s) i = Ok (Addr a) /\
  load_outer t np i = Ok (Addr c) /\
  (length (dirs s) <= c)%nat /\ (c < length (dirs t))%nat ->
  exists t',
    fork_pte_body nr ar aw g np i j t = Ok (Next t') /\
    (SAFE t' /\ load_outer t' (current s) i = Ok (Addr a) /\
     load_outer t' np i = Ok (Addr c) /\
     (length (dirs s) <= c)%nat /\ (c < length (dirs t'))%nat).
Proof.
  intros Hi Hj (HS & Hpa & Hch & HLc & Hct).
  pose proof HS as (Sc & Sx & Sl & Sb & Sm & Sn & Sv).
  assert (Ha : (a < length (dirs s))%nat).
  { rewrite (fork_safe_outer t i Sx) in Hpa. apply load_Ok in Hpa as [_ Hpa].
    eapply Hwf, Hpa. }
  destruct (fork_safe_read t (current s) i j a Sb Hpa ltac:(lia) Hj) as [x Hx].
  (* the iteration returns *)
  assert (Hret : exists t', fork_pte_body nr ar aw g np i j t = Ok (Next t')).
  { destruct (fork_pte_body nr ar aw g np i j t) as [[t'|[]]|] eqn:Hb; [eauto|].
    exfalso. unfold fork_pte_body in Hb. rewrite Sc in Hb.
    apply bind_Fault in Hb as [Hb|(x' & Ex & Hb)]; [congruence|].
    rewrite Hx in Ex. injection Ex as <-.
    destruct (pte_valid x) eqn:Hvx; [|discriminate].
    (* the entry was valid when the fork began, so its page index is counted *)
    assert (Hk : 0 <= i * nr + j < Z.of_nat (length (mapcounts s))).
    { split; [nia|].
      assert (Hpa0 : load_outer s (current s) i = Ok (Addr a)).
      { rewrite (fork_safe_outer s i Hxc), <- (fork_safe_outer t i Sx). exact Hpa. }
      destruct (fork_safe_read s (current s) i j a Hblk Hpa0 Ha Hj) as [e0 He0].
      destruct (pte_valid e0) eqn:Hv0; [eapply Hcnt; eassumption|].
      rewrite (Sv _ _ _ He0 Hv0) in Hx. injection Hx as <-. congruence. }
    apply bind_Fault in Hb as [Hb|([t2 newpte] & E1 & Hb)].
    - (* the test of rw and the two updates *)
      destruct (negb _).
      + destruct (update_pte_returns t (current s) i j x (with_rw ar) Hx) as [t1 U1].
        apply bind_Fault in Hb as [Hb|(t1' & U1' & Hb)]; [congruence|].
        rewrite U1 in U1'. injection U1' as <-.
        pose proof (update_pte_Ok _ _ _ _ _ _ U1) as (e1 & _ & Hl1' & _).
        pose proof (update_pte_layout _ _ _ _ _ _ U1) as (Lc1 & _).
        rewrite Lc1, Sc in Hb.
        destruct (update_pte_returns t1 (current s) i j _ (with_private 1) Hl1')
          as [t2 U2].
        apply bind_Fault in Hb as [Hb|(t2' & _ & Hb)]; [congruence | discriminate].
      + apply bind_Fault in Hb as [Hb|(e' & _ & Hb)]; [congruence | discriminate].
    - (* the copy and the count *)
      assert (H2 : same_layout t t2 /\ mapcounts t2 = mapcounts t /\
                   (exists y, load_pte t2 (current s) i j = Ok y) /\
                   (forall a dir, dirs t2 !! a = Some dir ->
                                  length (ptes dir) = Z.to_nat nr)).
      { destruct (negb _).
        - apply bind_Ok in E1 as (t1 & U1 & E1).
          pose proof (update_pte_layout _ _ _ _ _ _ U1) as L1.
          pose proof L1 as (Lc1 & _). rewrite Lc1, Sc in E1.
          apply bind_Ok in E1 as (t2' & U2 & E1). injection E1 as <- _.
          pose proof (update_pte_Ok _ _ _ _ _ _ U1) as (_ & _ & _ & _ & M1 & _).
          pose proof (update_pte_Ok _ _ _ _ _ _ U2) as (e2 & _ & Hl2' & _ & M2 & _).
          split; [eapply same_layout_trans; [exact L1|]; eapply update_pte_layout, U2|].
          split; [congruence|]. split; [eauto|].
          eapply update_pte_blocks; [exact U2|].
          eapply update_pte_blocks; [exact U1 | exact Sb].
        - apply bind_Ok in E1 as (e' & _ & E1). injection E1 as <- _.
          split; [unfold same_layout; auto|]. split; [reflexivity|]. eauto. }
      destruct H2 as ((Lc2 & Lp2 & Ld2) & M2 & [y Hy] & Sb2).
      rewrite Lc2, Sc in Hb.
      apply bind_Fault in Hb as [Hb|(y' & Ey & Hb)]; [congruence|].
      assert (Hch2 : load_outer t2 np i = Ok (Addr c)).
      { rewrite (load_outer_procs _ _ _ _ Lp2). exact Hch. }
      destruct (fork_safe_read t2 np i j c Sb2 Hch2 ltac:(lia) Hj) as [z Hz].
      destruct (store_pte_returns t2 np i j z (with_pfn (pte_pfn y') newpte) Hz)
        as [t3 St].
      apply bind_Fault in Hb as [Hb|(t3' & St' & Hb)]; [congruence|].
      rewrite St in St'. injection St' as <-.
      pose proof (store_pte_load _ _ _ _ _ _ St) as (_ & _ & _ & M3).
      apply bind_Fault in Hb as [Hb|(t4 & _ & Hb)]; [|discriminate].
      unfold mapcount_add in Hb.
      destruct (load_in_range (mapcounts t3) (i * nr + j)) as [c0 Hc0];
        [rewrite M3, M2, Sm; lia|].
      rewrite Hc0 in Hb. cbn [bind] in Hb.
      rewrite store_in_range in Hb by (rewrite M3, M2, Sm; lia). discriminate. }
  destruct Hret as [t' Hb]. exists t'. split; [exact Hb|].
  destruct (fork_pte_body_keeps _ _ _ _ _ _ _ _ _ Hb) as [Hlay _].
  destruct (fork_pte_body_shape _ _ _ _ _ _ _ _ _ _ Hb Sb) as [Sb' Sm'].
  pose proof Hlay as (Lc & Lp & Ld).
  assert (Hch' : load_outer t' np i = Ok (Addr c)).
  { rewrite (load_outer_procs _ _ _ _ Lp). exact Hch. }
  split; [|split; [rewrite (load_outer_procs _ _ _ _ Lp); exact Hpa|
                   split; [exact Hch' | split; [exact HLc | lia]]]].
  unfold fork_safe. rewrite Lc, Lp, Ld.
  split; [exact Sc|]. split; [exact Sx|]. split; [exact Sl|].
  split; [exact Sb'|]. split; [congruence|]. split; [exact Sn|].
  intros i0 j0 e0 He0 Hv0.
  destruct (fork_keep_pte_step nr ar aw g s xc i0 j0 e0 Hwf Hv0 i c j t t')
    as ((_ & _ & _ & Hk) & _); [|exact Hb | exact Hk].
  split; [|split; [exact Hch | exact HLc]].
  unfold fork_keep. split; [exact Sc|]. split; [exact Sx|]. split; [exact Sl|].
  eapply Sv; eassumption.
Qed.

Lemma fork_safe_dir_step (i : Z) (t : state) :
  0 <= i < nr -> SAFE t ->
  exists t', fork_dir_body nr ar aw g np i t = Ok (Next t') /\ SAFE t'.
Proof.
  intros Hi HS. pose proof HS as (Sc & Sx & Sl & Sb & Sm & (xn & Hxn & Hln) & Sv).
  assert (Hlt : (current s < np)%nat) by (eapply lookup_lt_Some, Hxc).
  unfold fork_dir_body. rewrite Sc, (fork_safe_outer t i Sx).
  destruct (load_in_range (outer_ptes (proc_pagetable xc)) i) as [d Hd]; [lia|].
  rewrite Hd. cbn [bind]. destruct d as [|a]; [eauto|].
  assert (Hst : exists t1, store_outer (set_dirs t (dirs t ++ [malloc_dir g i])) np i
                             (Addr (length (dirs t))) = Ok t1).
  { unfold store_outer, load_proc. simpl. rewrite Hxn. cbn [bind].
    rewrite store_in_range by lia. cbn [bind]. eauto. }
  destruct Hst as [t1 Hst]. rewrite Hst. cbn [bind].
  destruct (store_outer_append _ _ _ _ _ Hst) as (Ac & Am & Ad & Ao & Ap & Aout & Aload).
  assert (HS1 : SAFE t1).
  { unfold fork_safe. rewrite Ac, Am, Ad, length_app, (Ap (current s)) by lia.
    split; [exact Sc|]. split; [exact Sx|]. split; [lia|]. split.
    { intros a0 dir Hd0. apply lookup_app_Some in Hd0 as [Hd0|[_ Hd0]].
      - eapply Sb, Hd0.
      - apply list_lookup_singleton_Some in Hd0 as [_ <-]. apply Hfresh, Hi. }
    split; [exact Sm|]. split.
    { apply store_outer_Ok in Hst as (x & o & Hx & Ho & ->). simpl in *.
      rewrite Hxn in Hx. injection Hx as <-.
      eexists. split.
      - apply list_lookup_insert_eq. eapply lookup_lt_Some, Hxn.
      - simpl. apply store_Ok in Ho as [_ ->]. rewrite length_insert. exact Hln. }
    intros i0 j0 e0 He0 Hv0. apply Aload; [left; lia|]. eapply Sv; eassumption. }
  destruct (for_loop_total
              (fun (j : Z) u =>
                 SAFE u /\ load_outer u (current s) i = Ok (Addr a) /\
                 load_outer u np i = Ok (Addr (length (dirs t))) /\
                 (length (dirs s) <= length (dirs t))%nat /\
                 (length (dirs t) < length (dirs u))%nat)
              (fork_pte_body nr ar aw g np i) (Z.to_nat nr) 0
              (fun j u Hr HP =>
                 fork_safe_pte_step i j a _ u Hi
                   ltac:(rewrite Z2Nat.id in Hr by lia; lia) HP)
              t1) as (t' & Hloop & HS' & _).
  - split; [exact HS1|]. split.
    + rewrite Aout by (left; lia). rewrite (fork_safe_outer t i Sx). exact Hd.
    + split; [exact Ao|]. split; [exact Sl|]. rewrite Ad, length_app. simpl. lia.
  - exists t'. split; [exact Hloop | exact HS'].
Qed.

Lemma fork_loops_return (pid : Z) :
  exists t',
    for_loop (R := Empty_set) (Z.to_nat nr) 0 (fork_dir_body nr ar aw g np)
      (set_procs s (procs s ++ [mk_process pid (proc_pagetable (malloc_process g))]))
    = Ok (Next t').
Proof.
  assert (Hlt : (current s < np)%nat) by (eapply lookup_lt_Some, Hxc).
  destruct (for_loop_total (fun (_ : Z) u => SAFE u)
              (fork_dir_body nr ar aw g np) (Z.to_nat nr) 0
              (fun i u Hr HP =>
                 fork_safe_dir_step i u ltac:(rewrite Z2Nat.id in Hr by lia; lia) HP)
              (set_procs s (procs s ++
                 [mk_process pid (proc_pagetable (malloc_process g))])))
    as (t' & Hloop & _); [|eauto].
  unfold fork_safe. simpl. split; [reflexivity|].
  rewrite lookup_app_l by exact Hlt.
  split; [exact Hxc|]. split; [lia|]. split; [exact Hblk|].
  split; [reflexivity|]. split.
  - eexists. split; [apply list_lookup_middle; reflexivity | exact Hnew].
  - intros i j e He _. revert He. unfold load_pte, load_outer, load_proc. simpl.
    rewrite lookup_app_l by exact Hlt. auto.
Qed.

End ForkSafe.

(** X22.  The fork touches only memory that is there.  On a state that
    passes the test [fork_readyb] (well-sized page tables and directories,
    and every valid entry of the parent at a page index that is an index
    of mapcounts), switch_process(pid) with pid not queued returns. *)
Theorem fork_returns :
  forall (nr ar aw : Z) (g : indeterminate) (s : state) (pid : Z),
    fork_readyb nr g s = true ->
    find_process s (processes s) pid = Ok None ->
    exists s', switch_process nr ar aw g s pid = Ok s'.
Proof.
  intros nr ar aw g s pid Hr Hf.
  unfold fork_readyb in Hr.
  destruct (procs s !! current s) as [xc|] eqn:Hxc; [|discriminate].
  repeat (apply andb_true_iff in Hr as [Hr ?]).
  apply Z.leb_le in Hr.
  repeat match goal with
         | H : (_ =? _)%nat = true |- _ => apply Nat.eqb_eq in H
         end.
  rename H4 into Hlen, H3 into Hwf, H2 into Hblk, H1 into Hnew,
         H0 into Hfresh, H into Hcnt.
  rewrite forallb_forall in Hblk, Hfresh, Hcnt.
  destruct (fork_loops_return nr ar aw g s xc Hr Hxc Hlen
              (ptrs_below_spec _ _ Hwf)) with (pid := pid) as [t' Ht'].
  - intros a dir Hd. apply Nat.eqb_eq, Hblk.
    apply list_elem_of_In, list_elem_of_lookup. eauto.
  - exact Hnew.
  - intros i Hi. apply Nat.eqb_eq, Hfresh, zrange_elem, Hi.
  - intros i j e Hi Hj He Hv.
    specialize (Hcnt i (zrange_elem _ _ Hi)). rewrite forallb_forall in Hcnt.
    specialize (Hcnt j (zrange_elem _ _ Hj)). rewrite He, Hv in Hcnt.
    apply Z.ltb_lt, Hcnt.
  - rewrite (switch_process_fork_unfold _ _ _ _ _ _ Hf). cbv zeta.
    rewrite Ht'. cbn [bind]. eauto.
Qed.

Lemma fork_returns_witness :
  exists s,
    after_alloc 2 = Ok s /\
    fork_readyb 16 zeroed s = true /\
    find_process s (processes s) 99 = Ok None /\
    exists s', switch_process 16 1 2 zeroed s 99 = Ok s'.
Proof.
  eexists. split; [vm_compute; reflexivity|].
  split; [vm_compute; reflexivity|]. split; [reflexivity|].
  match goal with
  | |- exists s', switch_process _ _ _ _ ?s _ = _ =>
      apply (fork_returns 16 1 2 zeroed s 99)
  end; [vm_compute; reflexivity | reflexivity].
Defined.
